(** * carculator_truck: the energy consumption model

    A shallow embedding of [carculator_truck/energy_consumption.py]
    (class [EnergyConsumptionModel]) and the properties of its constructor
    and of its two methods [aux_energy_per_km] and [motive_energy_per_km].

    Numbers.  The code computes on IEEE doubles; here every number is an
    exact rational ([Q]), so the theorems speak of the formulas the code
    evaluates, not of rounding.  [Q] makes [x / 0] equal to [0] where numpy
    yields [inf] or [nan]: a theorem that equates a result with a formula
    keeps the divisions of the code, in their order, and is a statement
    about numbers where the denominators (distance, efficiencies) are not
    zero.  Whether a call returns does not depend on it, as numpy does not
    raise on a division by zero.  The one place where the element type of
    an array decides a value is the product [self.cycle * 1000] of the
    constructor: on an array of 64-bit integers it is a 64-bit integer and
    wraps around, and it is modelled so.

    Arrays.  Every array of the code has rank four once it meets the
    series of the model, whose shape is [(T, 1, 1, 6)]; an array is a shape
    and a total read function, and binary operations follow numpy's
    positional broadcasting.  Parameter tensors are the rank-four slices
    [(size, powertrain, year, value)] of the parameter array, which [.T]
    reverses to [(value, year, powertrain, size)].  A DataArray and a numpy
    array are combined by position, with numpy's broadcasting.  Two
    DataArrays are combined by the names of their dimensions; the code only
    ever joins two DataArrays that list the four dimensions in the same
    order (lines 172, 174 and 182), and xarray then asks for the same
    length on every dimension: it does not stretch a length of 1. *)

From Stdlib Require Import String QArith Qround Qminmax List Arith Lia Lqa Bool.
Import ListNotations.
Open Scope Q_scope.

(** ** Exceptions and results *)

(** The exceptions a call can end with.  The first four are the Python
    built-ins the code can raise; the last three are the typed errors named
    by the specification. *)
Inductive exn : Type :=
| KeyError
| TypeError
| ValueError
| AttributeError
| ConfigurationError
| ShapeMismatchError
| DomainError.

Inductive result (A : Type) : Type :=
| Ok (a : A)
| Err (e : exn).

Arguments Ok {A} a.
Arguments Err {A} e.

Definition bind {A B : Type} (r : result A) (k : A -> result B) : result B :=
  match r with
  | Ok a => k a
  | Err e => Err e
  end.

Notation "x <- e ;; k" := (bind e (fun x => k))
  (at level 61, e at next level, right associativity).

Definition succeeds {A : Type} (r : result A) : Prop := exists a, r = Ok a.
Definition fails {A : Type} (r : result A) : Prop := exists e, r = Err e.

(** ** Rank-four arrays with numpy broadcasting *)

Definition shape4 : Type := (nat * nat * nat * nat)%type.
Definition index4 : Type := (nat * nat * nat * nat)%type.

Record ndarray : Type := mk_ndarray {
  shape : shape4;
  item : index4 -> Q
}.

(** Broadcasting of one axis: equal lengths, or one of them is 1. *)
Definition bdim (a b : nat) : option nat :=
  if (a =? b)%nat then Some a
  else if (a =? 1)%nat then Some b
  else if (b =? 1)%nat then Some a
  else None.

Definition broadcast_shapes (s1 s2 : shape4) : option shape4 :=
  let '(a0, a1, a2, a3) := s1 in
  let '(b0, b1, b2, b3) := s2 in
  match bdim a0 b0, bdim a1 b1, bdim a2 b2, bdim a3 b3 with
  | Some d0, Some d1, Some d2, Some d3 => Some (d0, d1, d2, d3)
  | _, _, _, _ => None
  end.

(** Reading an axis of length 1 at any index reads its only element. *)
Definition bidx (d i : nat) : nat := if (d =? 1)%nat then 0%nat else i.

Definition bclip (s : shape4) (ix : index4) : index4 :=
  let '(d0, d1, d2, d3) := s in
  let '(i0, i1, i2, i3) := ix in
  (bidx d0 i0, bidx d1 i1, bidx d2 i2, bidx d3 i3).

(** [bget a ix]: the element of [a] that lands on position [ix] of any array
    [a] is broadcast to. *)
Definition bget (a : ndarray) (ix : index4) : Q := item a (bclip (shape a) ix).

Definition in_shape (s : shape4) (ix : index4) : Prop :=
  let '(d0, d1, d2, d3) := s in
  let '(i0, i1, i2, i3) := ix in
  (i0 < d0)%nat /\ (i1 < d1)%nat /\ (i2 < d2)%nat /\ (i3 < d3)%nat.

Definition shape_eqb (s1 s2 : shape4) : bool :=
  let '(a0, a1, a2, a3) := s1 in
  let '(b0, b1, b2, b3) := s2 in
  (a0 =? b0)%nat && (a1 =? b1)%nat && (a2 =? b2)%nat && (a3 =? b3)%nat.

Definition map_arr (f : Q -> Q) (a : ndarray) : ndarray :=
  {| shape := shape a; item := fun ix => f (item a ix) |}.

(** An elementwise binary operation; numpy raises [ValueError] ("operands
    could not be broadcast together") when the shapes do not agree. *)
Definition np_binop (f : Q -> Q -> Q) (a b : ndarray) : result ndarray :=
  match broadcast_shapes (shape a) (shape b) with
  | Some s => Ok {| shape := s; item := fun ix => f (bget a ix) (bget b ix) |}
  | None => Err ValueError
  end.

(** An in-place operation [a op= b]: the result is written into [a], so the
    broadcast shape has to be the shape of [a]. *)
Definition np_iop (f : Q -> Q -> Q) (a b : ndarray) : result ndarray :=
  match broadcast_shapes (shape a) (shape b) with
  | Some s =>
      if shape_eqb s (shape a)
      then Ok {| shape := shape a; item := fun ix => f (item a ix) (bget b ix) |}
      else Err ValueError
  | None => Err ValueError
  end.

Definition transpose_shape (s : shape4) : shape4 :=
  let '(d0, d1, d2, d3) := s in (d3, d2, d1, d0).

Definition transpose_index (ix : index4) : index4 :=
  let '(i0, i1, i2, i3) := ix in (i3, i2, i1, i0).

(** [a.T]: the axes in reverse order. *)
Definition transpose (a : ndarray) : ndarray :=
  {| shape := transpose_shape (shape a);
     item := fun ix => item a (transpose_index ix) |}.

Definition ones_like (a : ndarray) : ndarray :=
  {| shape := shape a; item := fun _ => 1 |}.

(** ** Python values: numbers, numpy arrays and xarray DataArrays *)

Inductive container : Type := Ndarray | DataArray.

(** An operation on a DataArray and anything else gives a DataArray. *)
Definition join (k1 k2 : container) : container :=
  match k1, k2 with
  | Ndarray, Ndarray => Ndarray
  | _, _ => DataArray
  end.

Inductive pyval : Type :=
| PyNum (q : Q)
| PyArr (k : container) (a : ndarray).

(** Two DataArrays over the same dimensions have to agree in the length of
    every dimension; with a numpy array on either side there is nothing to
    align. *)
Definition xr_aligned (k1 k2 : container) (a b : ndarray) : bool :=
  match k1, k2 with
  | DataArray, DataArray => shape_eqb (shape a) (shape b)
  | _, _ => true
  end.

(** [x op y].  With a numpy array on either side the operands are
    broadcast by position.  For two DataArrays that are not aligned xarray
    raises a [ValueError] (its [AlignmentError]), also where one of the two
    lengths is 1. *)
Definition py_binop (f : Q -> Q -> Q) (x y : pyval) : result pyval :=
  match x, y with
  | PyNum p, PyNum q => Ok (PyNum (f p q))
  | PyNum p, PyArr k b => Ok (PyArr k (map_arr (fun v => f p v) b))
  | PyArr k a, PyNum q => Ok (PyArr k (map_arr (fun v => f v q) a))
  | PyArr k1 a, PyArr k2 b =>
      if xr_aligned k1 k2 a b
      then c <- np_binop f a b ;; Ok (PyArr (join k1 k2) c)
      else Err ValueError
  end.

(** [x op= y].  On a number Python rebinds the name to [x op y]; on an array
    the operation is in place and the array keeps its container.  Two
    DataArrays have to agree in every length, as for [x op y]. *)
Definition py_iop (f : Q -> Q -> Q) (x y : pyval) : result pyval :=
  match x, y with
  | PyNum p, _ => py_binop f x y
  | PyArr k a, PyNum q => Ok (PyArr k (map_arr (fun v => f v q) a))
  | PyArr k a, PyArr k2 b =>
      if xr_aligned k k2 a b
      then c <- np_iop f a b ;; Ok (PyArr k c)
      else Err ValueError
  end.

Definition py_mul := py_binop Qmult.
Definition py_add := py_binop Qplus.
Definition py_div := py_binop Qdiv.
Definition py_imul := py_iop Qmult.
Definition py_isub := py_iop Qminus.
Definition py_idiv := py_iop Qdiv.

(** [x.T]: a Python number has no attribute [T]. *)
Definition py_T (x : pyval) : result pyval :=
  match x with
  | PyNum _ => Err AttributeError
  | PyArr k a => Ok (PyArr k (transpose a))
  end.

(** [x.values]: only a DataArray has it, and it is the numpy array inside. *)
Definition py_values (x : pyval) : result pyval :=
  match x with
  | PyArr DataArray a => Ok (PyArr Ndarray a)
  | _ => Err AttributeError
  end.

Definition py_map (f : Q -> Q) (x : pyval) : pyval :=
  match x with
  | PyNum q => PyNum (f q)
  | PyArr k a => PyArr k (map_arr f a)
  end.

(** The element of a Python value that an array position [ix] reads. *)
Definition pget (x : pyval) (ix : index4) : Q :=
  match x with
  | PyNum q => q
  | PyArr _ a => bget a ix
  end.

Definition pshape (x : pyval) : option shape4 :=
  match x with
  | PyNum _ => None
  | PyArr _ a => Some (shape a)
  end.

(** [np.clip(x, 0, None)] *)
Definition np_clip_min0 (x : pyval) : pyval := py_map (fun v => Qmax v 0) x.

(** [np.clip(x, 0, hi)] is [np.minimum(hi, np.maximum(x, 0))], with [hi]
    broadcast against [x]. *)
Definition clip0 (v hi : Q) : Q := Qmin (Qmax v 0) hi.
Definition np_clip0 (x hi : pyval) : result pyval := py_binop clip0 x hi.

(** [np.where(x < 0, x * -1, 0)]; the result is a numpy array. *)
Definition Qltb (x y : Q) : bool := negb (Qle_bool y x).
Definition where_neg (v : Q) : Q := if Qltb v 0 then v * -1 else 0.
Definition np_where_neg (x : pyval) : pyval :=
  match x with
  | PyNum q => PyArr Ndarray {| shape := (1, 1, 1, 1)%nat; item := fun _ => where_neg q |}
  | PyArr _ a => PyArr Ndarray (map_arr where_neg a)
  end.

(** [xr.DataArray(x, dims=[...])] with four dimension names: [x] has to be
    an array of rank four. *)
Definition xr_DataArray (x : pyval) : result pyval :=
  match x with
  | PyNum _ => Err ValueError
  | PyArr _ a => Ok (PyArr DataArray a)
  end.

(** [np.power(x, 2)] *)
Definition np_power2 (x : pyval) : pyval := py_map (fun v => v ^ 2) x.

(** ** Series: the arrays of shape [(T, 1, 1, 6)] held by the model *)

(** A series is the list of its [T] rows; a row holds the six values of the
    last axis. *)
Definition series : Type := list (list Q).

Fixpoint rows_of_6 (data : list Q) : series :=
  match data with
  | a :: b :: c :: d :: e :: f :: rest => [a; b; c; d; e; f] :: rows_of_6 rest
  | _ => []
  end.

(** [x.reshape(-1, 1, 1, 6)] on the [data] of an array of any shape, read in
    row-major order: numpy raises [ValueError] when the size is not a
    multiple of 6. *)
Definition reshape (data : list Q) : result series :=
  if (length data mod 6 =? 0)%nat then Ok (rows_of_6 data) else Err ValueError.

Definition series_map (f : Q -> Q) (s : series) : series := map (map f) s.

Definition series_zip (f : Q -> Q -> Q) (a b : series) : series :=
  map (fun rr => map (fun xy => f (fst xy) (snd xy)) (combine (fst rr) (snd rr)))
      (combine a b).

Definition zeros_like (s : series) : series := series_map (fun _ => 0) s.

(** The slices [s[2:]] and [s[:-2]]. *)
Definition slice_from_2 (s : series) : series := skipn 2 s.
Definition slice_to_minus_2 (s : series) : series := firstn (length s - 2) s.

(** [s[1:-1] = x], for an [x] with as many rows as the slice. *)
Definition assign_1_minus_1 (s x : series) : series :=
  firstn 1 s ++ x ++ skipn (Nat.max 1 (length s - 1)) s.

Definition to_ndarray (s : series) : ndarray :=
  {| shape := (length s, 1, 1, 6)%nat;
     item := fun ix => let '(t, _, _, c) := ix in nth c (nth t s []) 0 |}.

(** [s.sum(axis=0)[0][0]]: the six sums over time, a vector that broadcasts
    along the last axis. *)
Definition column_sum (s : series) (c : nat) : Q :=
  fold_left (fun acc row => acc + nth c row 0) s 0.

Definition sum_axis0 (s : series) : ndarray :=
  {| shape := (1, 1, 1, 6)%nat;
     item := fun ix => let '(_, _, _, c) := ix in column_sum s c |}.

(** ** The model *)

Record EnergyConsumptionModel : Type := {
  cycle_name : string;
  gradient_name : string;
  gradient : series;
  cycle : series;
  rho_air : Q;
  velocity : series;
  acceleration : series
}.

(** The element types of the arrays a cycle comes in: numpy makes an array
    of Python floats a [float64] array and an array of Python ints an
    [int64] array. *)
Inductive dtype : Type := float64 | int64.

(** What a caller can pass as [cycle]: a [str], a numpy array of floats or
    of 64-bit integers (given by its data in row-major order), or anything
    else (a list, a pandas Series). *)
Inductive cycle_input : Type :=
| CycleStr (name : string)
| CycleNdarray (data : list Q)
| CycleIntNdarray (data : list Z)
| CycleOther.

(** The arrays of the registry are arrays of floats. *)
Definition cycle_dtype (cycle : cycle_input) : dtype :=
  match cycle with
  | CycleIntNdarray _ => int64
  | _ => float64
  end.

(** The 64-bit integer that is left of [z]: two's complement wrap-around. *)
Definition wrap_int64 (z : Z) : Z := ((z + 2 ^ 63) mod 2 ^ 64 - 2 ^ 63)%Z.

(** [x * k] for an element [x] of an array of the element type [dt] and a
    Python int [k].  The product of an [int64] array stays an [int64] array:
    numpy wraps it around and raises nothing. *)
Definition np_times (dt : dtype) (x : Q) (k : Z) : Q :=
  match dt with
  | float64 => x * inject_Z k
  | int64 => inject_Z (wrap_int64 (Qfloor x * k))
  end.

Definition default_rho_air : Q := 1.204.

(** [raise ("...")]: the operand is a [str], not an exception, and Python
    answers with [TypeError] (exceptions must derive from BaseException). *)
Definition raise_str {A : Type} : result A := Err TypeError.

Section Model.

(** The two lookup functions of the package ([driving_cycles.py] and
    [gradients.py]) and numpy's sine are taken as given; the arrays the
    lookups return are arrays of floats. *)
Variable get_standard_driving_cycle : string -> result (list Q).
Variable get_gradients : string -> result (list Q).
Variable np_sin : Q -> Q.

(** The [if]/[elif]/[else] that opens [__init__]. *)
Definition resolve_cycle (cycle : cycle_input) : result (string * list Q) :=
  match cycle with
  | CycleStr name =>
      match get_standard_driving_cycle name with
      | Ok data => Ok (name, data)
      | Err KeyError => raise_str
      | Err e => Err e
      end
  | CycleNdarray data => Ok ("custom"%string, data)
  | CycleIntNdarray data => Ok ("custom"%string, map inject_Z data)
  | CycleOther => raise_str
  end.

(** [__init__] (lines 49-83): the gradients are looked up under the name
    of the cycle and reshaped first, then the cycle; the velocity is
    [(self.cycle * 1000) / 3600], where the product has the element type of
    the cycle and the quotient is a float, and the acceleration is
    [np.zeros_like(self.velocity)] with
    [(self.velocity[2:] - self.velocity[:-2]) / 2] assigned to [[1:-1]]. *)
Definition init (cycle : cycle_input) (rho_air : Q)
  : result EnergyConsumptionModel :=
  let dt := cycle_dtype cycle in
  nc <- resolve_cycle cycle ;;
  let cycle_name := fst nc in
  let gradient_name := cycle_name in
  g <- get_gradients gradient_name ;;
  gradient <- reshape g ;;
  cycle <- reshape (snd nc) ;;
  let velocity := series_map (fun c => np_times dt c 1000 / 3600) cycle in
  let acceleration := zeros_like velocity in
  let acceleration :=
    assign_1_minus_1 acceleration
      (series_map (fun d => d / 2)
         (series_zip Qminus (slice_from_2 velocity) (slice_to_minus_2 velocity))) in
  Ok {| cycle_name := cycle_name;
        gradient_name := gradient_name;
        gradient := gradient;
        cycle := cycle;
        rho_air := rho_air;
        velocity := velocity;
        acceleration := acceleration |}.

(** [aux_energy_per_km] (lines 85-111):
    [distance = self.velocity.sum(axis=0)[0][0]], then
    [aux_power.T * self.velocity.shape[0] / distance * 1000 / 1000], and
    [(auxiliary_energy / efficiency).T] is returned.  The statements on
    this method take the efficiency as a number, as its default and its
    docstring have it. *)
Definition aux_energy_per_km (self : EnergyConsumptionModel)
    (aux_power efficiency : pyval) : result pyval :=
  let distance := PyArr Ndarray (sum_axis0 (velocity self)) in
  let seconds := PyNum (inject_Z (Z.of_nat (length (velocity self)))) in
  t <- py_T aux_power ;;
  t <- py_mul t seconds ;;
  t <- py_div t distance ;;
  t <- py_mul t (PyNum 1000) ;;
  auxiliary_energy <- py_div t (PyNum 1000) ;;
  t <- py_div auxiliary_energy efficiency ;;
  py_T t.

(** What [motive_energy_per_km] returns: the energy tensor, or in debug mode
    the seven DataArrays. *)
Inductive motive_output : Type :=
| Energy (total_power : pyval)
| Debug (rolling_resistance air_resistance gradient_resistance
         inertia braking_loss total_power energy : pyval).

(** The statements before [if debug_mode==False]: the five forces and their
    sum. *)
Record forces : Type := {
  f_rolling_resistance : pyval;
  f_air_resistance : pyval;
  f_gradient_resistance : pyval;
  f_inertia : pyval;
  f_braking_loss : pyval;
  f_total_resistance : pyval
}.

(** [distance = self.velocity.sum(axis=0)[0][0] / 1000] (line 167) *)
Definition km_distance (self : EnergyConsumptionModel) : pyval :=
  PyArr Ndarray (map_arr (fun d => d / 1000) (sum_axis0 (velocity self))).

Definition resistances (self : EnergyConsumptionModel)
    (driving_mass rr_coef drag_coef frontal_area : pyval) : result forces :=
  let self_velocity := PyArr Ndarray (to_ndarray (velocity self)) in
  let ones := PyArr Ndarray (ones_like (to_ndarray (velocity self))) in
  (* (driving_mass * rr_coef * 9.81).T * ones *)
  t <- py_mul driving_mass rr_coef ;;
  t <- py_mul t (PyNum 9.81) ;;
  t <- py_T t ;;
  rolling_resistance <- py_mul t ones ;;
  (* (frontal_area * drag_coef * self.rho_air / 2).T
     * np.power(self.velocity, 2) *)
  t <- py_mul frontal_area drag_coef ;;
  t <- py_mul t (PyNum (rho_air self)) ;;
  t <- py_div t (PyNum 2) ;;
  t <- py_T t ;;
  air_resistance <- py_mul t (np_power2 self_velocity) ;;
  (* (driving_mass * 9.81).T * np.sin(self.gradient) *)
  t <- py_mul driving_mass (PyNum 9.81) ;;
  t <- py_T t ;;
  gradient_resistance <-
    py_mul t (py_map np_sin (PyArr Ndarray (to_ndarray (gradient self)))) ;;
  (* self.acceleration * driving_mass.values.T *)
  t <- py_values driving_mass ;;
  t <- py_T t ;;
  inertia <- py_mul (PyArr Ndarray (to_ndarray (acceleration self))) t ;;
  (* np.where(inertia < 0, inertia * -1, 0) *)
  let braking_loss := np_where_neg inertia in
  (* rolling_resistance + air_resistance + gradient_resistance + inertia *)
  t <- py_add rolling_resistance air_resistance ;;
  t <- py_add t gradient_resistance ;;
  total_resistance <- py_add t inertia ;;
  Ok {| f_rolling_resistance := rolling_resistance;
        f_air_resistance := air_resistance;
        f_gradient_resistance := gradient_resistance;
        f_inertia := inertia;
        f_braking_loss := braking_loss;
        f_total_resistance := total_resistance |}.

(** The branch [debug_mode==False] up to the subtraction: the clipped power
    at the wheels, the recuperated power and their difference. *)
Record powers : Type := {
  p_total_power : pyval;
  p_recuperated_power : pyval;
  p_net_power : pyval
}.

Definition wheel_powers (self : EnergyConsumptionModel) (f : forces)
    (recuperation_efficiency motor_power : pyval) : result powers :=
  let self_velocity := PyArr Ndarray (to_ndarray (velocity self)) in
  (* total_power = np.clip(total_resistance * self.velocity, 0, None) *)
  total_power <- py_mul (f_total_resistance f) self_velocity ;;
  let total_power := np_clip_min0 total_power in
  (* (braking_loss * recuperation_efficiency.values.T) * self.velocity *)
  t <- py_values recuperation_efficiency ;;
  t <- py_T t ;;
  t <- py_mul (f_braking_loss f) t ;;
  recuperated_power <- py_mul t self_velocity ;;
  (* np.clip(recuperated_power, 0, motor_power.values.T * 1000) *)
  t <- py_values motor_power ;;
  t <- py_T t ;;
  limit <- py_mul t (PyNum 1000) ;;
  recuperated_power <- np_clip0 recuperated_power limit ;;
  (* total_power -= recuperated_power *)
  net <- py_isub total_power recuperated_power ;;
  Ok {| p_total_power := total_power;
        p_recuperated_power := recuperated_power;
        p_net_power := net |}.

(** The branch [else]: every force times the velocity, the clipped power
    and the energy, each wrapped in a fresh DataArray. *)
Definition debug_output (self : EnergyConsumptionModel) (f : forces)
    (ttw_efficiency : pyval) : result motive_output :=
  let self_velocity := PyArr Ndarray (to_ndarray (velocity self)) in
  (* rolling_resistance *= (self.velocity), and so on *)
  rolling_resistance <- py_imul (f_rolling_resistance f) self_velocity ;;
  air_resistance <- py_imul (f_air_resistance f) self_velocity ;;
  gradient_resistance <- py_imul (f_gradient_resistance f) self_velocity ;;
  inertia <- py_imul (f_inertia f) self_velocity ;;
  braking_loss <- py_imul (f_braking_loss f) self_velocity ;;
  (* total_power = np.clip(total_resistance * (self.velocity), 0, None) *)
  total_power <- py_mul (f_total_resistance f) self_velocity ;;
  let total_power := np_clip_min0 total_power in
  (* energy = total_power / ttw_efficiency.values.T; energy /= 1000 *)
  t <- py_values ttw_efficiency ;;
  t <- py_T t ;;
  energy <- py_div total_power t ;;
  energy <- py_idiv energy (PyNum 1000) ;;
  (* the tuple of xr.DataArray(...), left to right *)
  r <- py_values rolling_resistance ;;
  r <- xr_DataArray r ;;
  a <- py_values air_resistance ;;
  a <- xr_DataArray a ;;
  g <- py_values gradient_resistance ;;
  g <- xr_DataArray g ;;
  i <- xr_DataArray inertia ;;
  b <- xr_DataArray braking_loss ;;
  p <- py_values total_power ;;
  p <- xr_DataArray p ;;
  e <- py_values energy ;;
  e <- xr_DataArray e ;;
  Ok (Debug r a g i b p e).

(** [motive_energy_per_km] (lines 113-226).  In the normal mode the net
    power is divided in place by [distance], by [ttw_efficiency.values.T]
    and by 1000, and returned as it is. *)
Definition motive_energy_per_km (self : EnergyConsumptionModel)
    (driving_mass rr_coef drag_coef frontal_area ttw_efficiency
     recuperation_efficiency motor_power : pyval) (debug_mode : bool)
  : result motive_output :=
  let distance := km_distance self in
  f <- resistances self driving_mass rr_coef drag_coef frontal_area ;;
  if negb debug_mode then
    p <- wheel_powers self f recuperation_efficiency motor_power ;;
    let total_power := p_net_power p in
    total_power <- py_idiv total_power distance ;;
    t <- py_values ttw_efficiency ;;
    t <- py_T t ;;
    total_power <- py_idiv total_power t ;;
    total_power <- py_idiv total_power (PyNum 1000) ;;
    Ok (Energy total_power)
  else
    debug_output self f ttw_efficiency.

End Model.

(** The two assignments that end [__init__], as functions of the velocity:
    the centred differences and the acceleration they are written into. *)
Definition differences (velocity : series) : series :=
  series_map (fun d => d / 2)
    (series_zip Qminus (slice_from_2 velocity) (slice_to_minus_2 velocity)).

Definition acceleration_of (velocity : series) : series :=
  assign_1_minus_1 (zeros_like velocity) (differences velocity).

(** ** The range of the integer samples *)

Definition in_int64 (z : Z) : Prop := (- 2 ^ 63 <= z < 2 ^ 63)%Z.

(** The products [self.cycle * 1000] do not leave the element type of the
    cycle: nothing is asked of floats, and every sample of an [int64] array
    times 1000 is a 64-bit integer. *)
Definition no_overflow (cycle : cycle_input) : Prop :=
  match cycle with
  | CycleIntNdarray data => Forall (fun z => in_int64 (z * 1000)) data
  | _ => True
  end.

(** ** Containers and shapes of arguments and results *)

Definition is_array (x : pyval) (k : container) (s : shape4) : Prop :=
  exists a, x = PyArr k a /\ shape a = s.

(** Two operands that an operation joins without aligning anything: one of
    them is a numpy array, or they have the same shape. *)
Definition joinable (k1 k2 : container) (s1 s2 : shape4) : Prop :=
  k1 = Ndarray \/ k2 = Ndarray \/ s1 = s2.

(** The parameter tensors handed to a method: DataArrays of one shape. *)
Definition parameter_tensors (sh : shape4) (l : list pyval) : Prop :=
  Forall (fun x => is_array x DataArray sh) l.

Definition series_shape (self : EnergyConsumptionModel) : shape4 :=
  (length (velocity self), 1, 1, 6)%nat.

(** The gradient and the acceleration have as many rows as the velocity. *)
Definition aligned (self : EnergyConsumptionModel) : Prop :=
  length (gradient self) = length (velocity self) /\
  length (acceleration self) = length (velocity self).

(** Every force is an array of the shape [s]; the inertia and the braking
    loss are numpy arrays, the others DataArrays. *)
Definition forces_shaped (f : forces) (s : shape4) : Prop :=
  is_array (f_rolling_resistance f) DataArray s /\
  is_array (f_air_resistance f) DataArray s /\
  is_array (f_gradient_resistance f) DataArray s /\
  is_array (f_inertia f) Ndarray s /\
  is_array (f_braking_loss f) Ndarray s /\
  is_array (f_total_resistance f) DataArray s.

(** The powers of the branch [debug_mode==False] are arrays of the shape
    [s]. *)
Definition powers_shaped (p : powers) (s : shape4) : Prop :=
  is_array (p_total_power p) DataArray s /\
  is_array (p_recuperated_power p) Ndarray s /\
  is_array (p_net_power p) DataArray s.

(** The seven DataArrays of the debug mode have the shape [s]. *)
Definition debug_shaped (o : motive_output) (s : shape4) : Prop :=
  match o with
  | Energy _ => False
  | Debug r a g i b p e =>
      is_array r DataArray s /\ is_array a DataArray s /\
      is_array g DataArray s /\ is_array i DataArray s /\
      is_array b DataArray s /\ is_array p DataArray s /\
      is_array e DataArray s
  end.

(** ** What a position of a result reads *)

(** Position [ix] of a result reads the parameters at the transposed
    position and the series at [ix] itself. *)
Definition param (x : pyval) (ix : index4) : Q := pget x (transpose_index ix).
Definition vel (self : EnergyConsumptionModel) (ix : index4) : Q :=
  bget (to_ndarray (velocity self)) ix.
Definition acc (self : EnergyConsumptionModel) (ix : index4) : Q :=
  bget (to_ndarray (acceleration self)) ix.
Definition grad (self : EnergyConsumptionModel) (ix : index4) : Q :=
  bget (to_ndarray (gradient self)) ix.
Definition dist_km (self : EnergyConsumptionModel) (ix : index4) : Q :=
  pget (km_distance self) ix.

(** The auxiliary energy reads the number of seconds and, for the size
    class of position [ix] of [aux_power], the metres driven. *)
Definition seconds (self : EnergyConsumptionModel) : Q :=
  inject_Z (Z.of_nat (length (velocity self))).
Definition metres (self : EnergyConsumptionModel) (ix : index4) : Q :=
  bget (sum_axis0 (velocity self)) (transpose_index ix).

(** Position [ix] moved to the time step [t]. *)
Definition at_time (ix : index4) (t : nat) : index4 :=
  let '(_, y, p, s) := ix in (t, y, p, s).

(** Reading the outcome of a call. *)
Definition is_ok {A : Type} (r : result A) : bool :=
  match r with
  | Ok _ => true
  | Err _ => false
  end.

Definition output_of (r : result motive_output) : motive_output :=
  match r with
  | Ok o => o
  | Err _ => Energy (PyNum 0)
  end.

(** The components of an output, by position. *)
Definition component (n : nat) (o : motive_output) : pyval :=
  match o with
  | Energy x => x
  | Debug r a g i b p e => nth n [r; a; g; i; b; p; e] (PyNum 0)
  end.

Definition energy_at (r : result motive_output) (ix : index4) : Q :=
  match r with
  | Ok (Energy x) => pget x ix
  | _ => 0
  end.

Definition energy_shape (r : result motive_output) : option shape4 :=
  match r with
  | Ok (Energy x) => pshape x
  | _ => None
  end.

Definition power_at (sel : powers -> pyval) (r : result powers)
    (ix : index4) : Q :=
  match r with
  | Ok p => pget (sel p) ix
  | Err _ => 0
  end.

(** ** The formulas of the specification *)

(** Section 4.3 of the specification, for one time step and one vehicle
    variant. *)
Section Formulas.

Variables (rho v acc sin_g : Q).
Variables (m rr cd area : Q).

Definition spec_rolling_resistance : Q := m * rr * 9.81.
Definition spec_air_resistance : Q := (1 # 2) * rho * cd * area * v ^ 2.
Definition spec_gradient_resistance : Q := m * 9.81 * sin_g.
Definition spec_inertia : Q := m * acc.
Definition spec_braking_loss : Q := Qmax (- spec_inertia) 0.
Definition spec_total_resistance : Q :=
  spec_rolling_resistance + spec_air_resistance + spec_gradient_resistance
  + spec_inertia.

Variables (rec_eff motor : Q).

Definition spec_total_power : Q := Qmax (spec_total_resistance * v) 0.
Definition spec_recuperated_power : Q :=
  Qmin (Qmax (spec_braking_loss * rec_eff * v) 0) (motor * 1000).

Variables (distance ttw : Q).

(** Normal mode: the net power by the distance, by the efficiency, by 1000,
    in that order. *)
Definition spec_energy : Q :=
  (spec_total_power - spec_recuperated_power) / distance / ttw / 1000.

End Formulas.

Definition time_sum (n : nat) (x : nat -> Q) : Q :=
  fold_right (fun t acc => x t + acc) 0 (seq 0 n).

(** The recuperated power, recomputed from the braking power of the debug
    mode. *)
Definition recuperated_from_debug (b recuperation_efficiency motor_power : pyval)
    (ix : index4) : Q :=
  clip0 (pget b ix * param recuperation_efficiency ix)
    (param motor_power ix * 1000).

(** The comparison of the two modes in section 8 of the specification: the
    total power recomputed from the components of the debug mode, divided
    by the efficiency and by 1000, summed over [n] time steps and normalized
    by the distance. *)
Definition energy_from_debug (self : EnergyConsumptionModel)
    (ttw_efficiency : pyval) (o : motive_output) (n : nat) (ix : index4) : Q :=
  match o with
  | Energy _ => 0
  | Debug r a g i _ _ _ =>
      time_sum n (fun t =>
        let jx := at_time ix t in
        Qmax (pget r jx + pget a jx + pget g jx + pget i jx) 0
        / param ttw_efficiency jx / 1000)
      / dist_km self ix
  end.

(** ** A worked example *)

(** Four seconds for each of the six size classes: 36 km/h, 36 km/h, then
    standstill; a flat road; one powertrain and one year. *)
Definition example_cycle : list Q :=
  [36; 36; 36; 36; 36; 36;  36; 36; 36; 36; 36; 36;
   0; 0; 0; 0; 0; 0;  0; 0; 0; 0; 0; 0].

Definition example_registry (name : string) : result (list Q) :=
  if String.eqb name "Urban delivery" then Ok example_cycle else Err KeyError.

Definition example_gradients (name : string) : result (list Q) :=
  if String.eqb name "Urban delivery" || String.eqb name "custom"
  then Ok (repeat 0 24)
  else Err KeyError.

(** A polynomial that agrees with the sine at 0, the only gradient of the
    example. *)
Definition example_sin (x : Q) : Q := x - x ^ 3 / 6.

Definition empty_model : EnergyConsumptionModel :=
  {| cycle_name := EmptyString; gradient_name := EmptyString; gradient := []; cycle := [];
     rho_air := default_rho_air; velocity := []; acceleration := [] |}.

Definition model_of (r : result EnergyConsumptionModel)
  : EnergyConsumptionModel :=
  match r with
  | Ok self => self
  | Err _ => empty_model
  end.

Definition example_model : EnergyConsumptionModel :=
  model_of (init example_registry example_gradients
              (CycleNdarray example_cycle) default_rho_air).

(** Two seconds given as Python ints, which numpy keeps as 64-bit
    integers: 36 km/h, then standstill. *)
Definition integer_cycle : list Z :=
  [36; 36; 36; 36; 36; 36;  0; 0; 0; 0; 0; 0]%Z.

Definition integer_model : EnergyConsumptionModel :=
  model_of (init example_registry example_gradients
              (CycleIntNdarray integer_cycle) default_rho_air).

(** One second of integers whose first sample, 10^16 km/h, times 1000 is
    more than a 64-bit integer holds. *)
Definition overflow_cycle : list Z :=
  [10000000000000000; 0; 0; 0; 0; 0]%Z.

Definition overflow_model : EnergyConsumptionModel :=
  model_of (init example_registry example_gradients
              (CycleIntNdarray overflow_cycle) default_rho_air).

(** A DataArray [(size, powertrain, year, value)] of shape [(6, 1, 1, 1)]
    holding [v] for every size class. *)
Definition example_tensor (v : Q) : pyval :=
  PyArr DataArray {| shape := (6, 1, 1, 1)%nat; item := fun _ => v |}.

(** A tensor for five size classes only. *)
Definition example_short_tensor (v : Q) : pyval :=
  PyArr DataArray {| shape := (5, 1, 1, 1)%nat; item := fun _ => v |}.

(** The example vehicle: 10 t, rolling resistance 0.006, drag 0.6 on 8 m2,
    efficiency 0.4, half of the braking energy recuperated by a 100 kW
    motor. *)
Definition example_normal : result motive_output :=
  motive_energy_per_km example_sin example_model
    (example_tensor 10000) (example_tensor 0.006) (example_tensor 0.6)
    (example_tensor 8) (example_tensor 0.4) (example_tensor 0.5)
    (example_tensor 100) false.

Definition example_debug : result motive_output :=
  motive_energy_per_km example_sin example_model
    (example_tensor 10000) (example_tensor 0.006) (example_tensor 0.6)
    (example_tensor 8) (example_tensor 0.4) (example_tensor 0.5)
    (example_tensor 100) true.

Definition example_powers : result powers :=
  f <- resistances example_sin example_model
         (example_tensor 10000) (example_tensor 0.006) (example_tensor 0.6)
         (example_tensor 8) ;;
  wheel_powers example_model f (example_tensor 0.5) (example_tensor 100).

Definition example_components : motive_output := output_of example_debug.
Definition example_energy : pyval := component 0 (output_of example_normal).

(** The second of the four seconds, where the example vehicle brakes. *)
Definition braking_step : index4 := (1, 0, 0, 0)%nat.

(** ** Further examples *)

(** A registry of gradients that answers every name with [n] zeros. *)
Definition flat_gradients (n : nat) (name : string) : result (list Q) :=
  Ok (repeat 0 n).

(** A registry of gradients that knows no name. *)
Definition no_gradients (name : string) : result (list Q) := Err KeyError.

(** Three seconds at 72 km/h (20 m/s) for each of the six size classes. *)
Definition cruise_cycle : list Q := repeat 72 18.

Definition cruise_model : EnergyConsumptionModel :=
  model_of (init example_registry (flat_gradients 18)
              (CycleNdarray cruise_cycle) default_rho_air).

(** Two seconds at 50 km/h. *)
Definition two_row_model : EnergyConsumptionModel :=
  model_of (init example_registry (flat_gradients 12)
              (CycleNdarray (repeat 50 12)) default_rho_air).

(** The example cycle of four seconds with gradients for three. *)
Definition mismatched_model : EnergyConsumptionModel :=
  model_of (init example_registry (flat_gradients 18)
              (CycleNdarray example_cycle) default_rho_air).

(** A numpy array of shape [(6, 1, 1, 1)] holding [v] for every size
    class. *)
Definition example_ndarray (v : Q) : pyval :=
  PyArr Ndarray {| shape := (6, 1, 1, 1)%nat; item := fun _ => v |}.

(** The example vehicle without an electric motor, on the example cycle. *)
Definition example_no_motor : result motive_output :=
  motive_energy_per_km example_sin example_model
    (example_tensor 10000) (example_tensor 0.006) (example_tensor 0.6)
    (example_tensor 8) (example_tensor 0.4) (example_tensor 0.5)
    (example_tensor 0) false.

(** The example vehicle at constant speed. *)
Definition cruise_normal : result motive_output :=
  motive_energy_per_km example_sin cruise_model
    (example_tensor 10000) (example_tensor 0.006) (example_tensor 0.6)
    (example_tensor 8) (example_tensor 0.4) (example_tensor 0.5)
    (example_tensor 100) false.

(** The example cycle of four seconds with the gradients of one. *)
Definition single_gradient_model : EnergyConsumptionModel :=
  model_of (init example_registry (flat_gradients 6)
              (CycleNdarray example_cycle) default_rho_air).

(** Two models hold the same series and air density; their names may
    differ. *)
Definition same_series (a b : EnergyConsumptionModel) : Prop :=
  cycle a = cycle b /\ gradient a = gradient b /\
  velocity a = velocity b /\ acceleration a = acceleration b /\
  rho_air a = rho_air b.

(** Two constructions end alike: the same exception, or models with the
    same series. *)
Definition same_outcome (a b : result EnergyConsumptionModel) : Prop :=
  match a, b with
  | Ok x, Ok y => same_series x y
  | Err e1, Err e2 => e1 = e2
  | _, _ => False
  end.
(** * Properties *)

(** ** The result monad *)

Lemma bind_Ok {A B : Type} (r : result A) (k : A -> result B) (b : B) :
  bind r k = Ok b -> exists a, r = Ok a /\ k a = Ok b.
Proof.
  destruct r as [a|e]; simpl; intros H; [eauto | discriminate].
Qed.

(** ** Broadcasting *)

Lemma bdim_refl (a : nat) : bdim a a = Some a.
Proof. unfold bdim. now rewrite Nat.eqb_refl. Qed.

Lemma bdim_comm (a b : nat) : bdim a b = bdim b a.
Proof.
  unfold bdim.
  destruct (Nat.eqb_spec a b), (Nat.eqb_spec b a), (Nat.eqb_spec a 1),
    (Nat.eqb_spec b 1); subst; congruence.
Qed.

Lemma bdim_1_r (a : nat) : bdim a 1 = Some a.
Proof.
  unfold bdim. destruct (Nat.eqb_spec a 1); [congruence | reflexivity].
Qed.

Lemma bdim_absorb_l (a b c : nat) : bdim a b = Some c -> bdim c a = Some c.
Proof.
  unfold bdim.
  destruct (Nat.eqb_spec a b), (Nat.eqb_spec a 1), (Nat.eqb_spec b 1);
    intros [= <-]; subst;
    repeat match goal with
      | |- context [Nat.eqb ?x ?y] => destruct (Nat.eqb_spec x y)
      end; subst; congruence.
Qed.

Lemma bdim_absorb_r (a b c : nat) : bdim a b = Some c -> bdim c b = Some c.
Proof. rewrite bdim_comm. apply bdim_absorb_l. Qed.

Lemma bidx_bdim_l (a b c i : nat) :
  bdim a b = Some c -> bidx a (bidx c i) = bidx a i.
Proof.
  unfold bdim, bidx.
  destruct (Nat.eqb_spec a b), (Nat.eqb_spec a 1), (Nat.eqb_spec b 1);
    intros [= <-]; subst;
    repeat match goal with
      | |- context [Nat.eqb ?x ?y] => destruct (Nat.eqb_spec x y)
      end; subst; congruence.
Qed.

Lemma bidx_bdim_r (a b c i : nat) :
  bdim a b = Some c -> bidx b (bidx c i) = bidx b i.
Proof. rewrite bdim_comm. apply bidx_bdim_l. Qed.

Lemma bidx_in_range (d i : nat) : (i < d)%nat -> bidx d i = i.
Proof. unfold bidx. destruct (Nat.eqb_spec d 1); lia. Qed.

Lemma broadcast_shapes_inv (s1 s2 s : shape4) :
  broadcast_shapes s1 s2 = Some s ->
  let '(a0, a1, a2, a3) := s1 in
  let '(b0, b1, b2, b3) := s2 in
  let '(d0, d1, d2, d3) := s in
  bdim a0 b0 = Some d0 /\ bdim a1 b1 = Some d1 /\
  bdim a2 b2 = Some d2 /\ bdim a3 b3 = Some d3.
Proof.
  destruct s1 as [[[a0 a1] a2] a3], s2 as [[[b0 b1] b2] b3],
    s as [[[d0 d1] d2] d3]; simpl.
  destruct (bdim a0 b0), (bdim a1 b1), (bdim a2 b2), (bdim a3 b3);
    intros [= <- <- <- <-] || discriminate; auto.
Qed.

Lemma broadcast_shapes_intro (a0 a1 a2 a3 b0 b1 b2 b3 d0 d1 d2 d3 : nat) :
  bdim a0 b0 = Some d0 -> bdim a1 b1 = Some d1 ->
  bdim a2 b2 = Some d2 -> bdim a3 b3 = Some d3 ->
  broadcast_shapes (a0, a1, a2, a3) (b0, b1, b2, b3) = Some (d0, d1, d2, d3).
Proof. simpl. now intros -> -> -> ->. Qed.

Lemma broadcast_shapes_refl (s : shape4) : broadcast_shapes s s = Some s.
Proof.
  destruct s as [[[a0 a1] a2] a3].
  apply broadcast_shapes_intro; apply bdim_refl.
Qed.

Lemma broadcast_shapes_comm (s1 s2 : shape4) :
  broadcast_shapes s1 s2 = broadcast_shapes s2 s1.
Proof.
  destruct s1 as [[[a0 a1] a2] a3], s2 as [[[b0 b1] b2] b3]; simpl.
  now rewrite (bdim_comm a0), (bdim_comm a1), (bdim_comm a2), (bdim_comm a3).
Qed.

Lemma broadcast_shapes_absorb_l (s1 s2 s : shape4) :
  broadcast_shapes s1 s2 = Some s -> broadcast_shapes s s1 = Some s.
Proof.
  intros H. apply broadcast_shapes_inv in H.
  destruct s1 as [[[a0 a1] a2] a3], s2 as [[[b0 b1] b2] b3],
    s as [[[d0 d1] d2] d3].
  destruct H as (H0 & H1 & H2 & H3).
  apply broadcast_shapes_intro; eapply bdim_absorb_l; eassumption.
Qed.

Lemma broadcast_shapes_absorb_r (s1 s2 s : shape4) :
  broadcast_shapes s1 s2 = Some s -> broadcast_shapes s s2 = Some s.
Proof.
  rewrite broadcast_shapes_comm. apply broadcast_shapes_absorb_l.
Qed.

(** A shape that already took in a series [(T, 1, 1, 6)] takes in the
    vector of the six column sums as it is. *)
Lemma broadcast_shapes_series_vector (s1 s : shape4) (T : nat) :
  broadcast_shapes s1 (T, 1, 1, 6)%nat = Some s ->
  broadcast_shapes s (1, 1, 1, 6)%nat = Some s.
Proof.
  intros H. apply broadcast_shapes_inv in H.
  destruct s1 as [[[a0 a1] a2] a3], s as [[[d0 d1] d2] d3].
  destruct H as (H0 & H1 & H2 & H3).
  apply broadcast_shapes_intro;
    try apply bdim_1_r; eapply bdim_absorb_r; eassumption.
Qed.

Lemma shape_eqb_refl (s : shape4) : shape_eqb s s = true.
Proof.
  destruct s as [[[a0 a1] a2] a3]; simpl. now rewrite !Nat.eqb_refl.
Qed.

Lemma shape_eqb_eq (s1 s2 : shape4) : shape_eqb s1 s2 = true -> s1 = s2.
Proof.
  destruct s1 as [[[a0 a1] a2] a3], s2 as [[[b0 b1] b2] b3]; simpl.
  rewrite !andb_true_iff, !Nat.eqb_eq. intros [[[-> ->] ->] ->]. reflexivity.
Qed.

Lemma bclip_broadcast_l (s1 s2 s : shape4) (ix : index4) :
  broadcast_shapes s1 s2 = Some s -> bclip s1 (bclip s ix) = bclip s1 ix.
Proof.
  intros H. apply broadcast_shapes_inv in H.
  destruct s1 as [[[a0 a1] a2] a3], s2 as [[[b0 b1] b2] b3],
    s as [[[d0 d1] d2] d3], ix as [[[i0 i1] i2] i3].
  destruct H as (H0 & H1 & H2 & H3). simpl.
  now rewrite (bidx_bdim_l _ _ _ _ H0), (bidx_bdim_l _ _ _ _ H1),
    (bidx_bdim_l _ _ _ _ H2), (bidx_bdim_l _ _ _ _ H3).
Qed.

Lemma bclip_broadcast_r (s1 s2 s : shape4) (ix : index4) :
  broadcast_shapes s1 s2 = Some s -> bclip s2 (bclip s ix) = bclip s2 ix.
Proof.
  rewrite broadcast_shapes_comm. apply bclip_broadcast_l.
Qed.

Lemma bclip_in_shape (s : shape4) (ix : index4) :
  in_shape s ix -> bclip s ix = ix.
Proof.
  destruct s as [[[d0 d1] d2] d3], ix as [[[i0 i1] i2] i3]; simpl.
  intros (H0 & H1 & H2 & H3). now rewrite !bidx_in_range.
Qed.

Lemma bget_in_shape (a : ndarray) (ix : index4) :
  in_shape (shape a) ix -> bget a ix = item a ix.
Proof. intros H. unfold bget. now rewrite bclip_in_shape. Qed.

Lemma bclip_transpose (s : shape4) (ix : index4) :
  transpose_index (bclip (transpose_shape s) ix) = bclip s (transpose_index ix).
Proof.
  now destruct s as [[[d0 d1] d2] d3], ix as [[[i0 i1] i2] i3].
Qed.

Lemma transpose_index_involutive (ix : index4) :
  transpose_index (transpose_index ix) = ix.
Proof. now destruct ix as [[[i0 i1] i2] i3]. Qed.

Lemma transpose_shape_involutive (s : shape4) :
  transpose_shape (transpose_shape s) = s.
Proof. now destruct s as [[[d0 d1] d2] d3]. Qed.

(** ** Reading the result of an array operation *)

Lemma bget_map_arr (f : Q -> Q) (a : ndarray) (ix : index4) :
  bget (map_arr f a) ix = f (bget a ix).
Proof. reflexivity. Qed.

Lemma bget_transpose (a : ndarray) (ix : index4) :
  bget (transpose a) ix = bget a (transpose_index ix).
Proof. unfold bget; simpl. now rewrite bclip_transpose. Qed.

Lemma np_binop_Ok (f : Q -> Q -> Q) (a b c : ndarray) :
  np_binop f a b = Ok c ->
  broadcast_shapes (shape a) (shape b) = Some (shape c) /\
  forall ix, bget c ix = f (bget a ix) (bget b ix).
Proof.
  unfold np_binop.
  destruct (broadcast_shapes (shape a) (shape b)) as [s|] eqn:E;
    [intros [= <-] | discriminate].
  split; [reflexivity | intros ix]. unfold bget at 1; simpl. unfold bget.
  now rewrite (bclip_broadcast_l _ _ _ _ E), (bclip_broadcast_r _ _ _ _ E).
Qed.

Lemma np_iop_Ok (f : Q -> Q -> Q) (a b c : ndarray) :
  np_iop f a b = Ok c ->
  shape c = shape a /\
  broadcast_shapes (shape a) (shape b) = Some (shape a) /\
  forall ix, bget c ix = f (bget a ix) (bget b ix).
Proof.
  unfold np_iop.
  destruct (broadcast_shapes (shape a) (shape b)) as [s|] eqn:E;
    [| discriminate].
  destruct (shape_eqb s (shape a)) eqn:Es; [intros [= <-] | discriminate].
  apply shape_eqb_eq in Es; subst s.
  split; [reflexivity | split; [reflexivity | intros ix]].
  unfold bget at 1; simpl. unfold bget.
  now rewrite (bclip_broadcast_r _ _ _ _ E).
Qed.

Lemma py_binop_pget (f : Q -> Q -> Q) (x y z : pyval) :
  py_binop f x y = Ok z -> forall ix, pget z ix = f (pget x ix) (pget y ix).
Proof.
  destruct x as [p|k1 a], y as [q|k2 b]; simpl;
    try (intros [= <-]; reflexivity).
  destruct (xr_aligned k1 k2 a b); [| discriminate].
  intros H ix. apply bind_Ok in H. destruct H as (c & Hc & [= <-]).
  apply np_binop_Ok in Hc. simpl. apply Hc.
Qed.

Lemma py_iop_pget (f : Q -> Q -> Q) (x y z : pyval) :
  py_iop f x y = Ok z -> forall ix, pget z ix = f (pget x ix) (pget y ix).
Proof.
  destruct x as [p|k1 a].
  - apply py_binop_pget.
  - destruct y as [q|k2 b]; simpl; [intros [= <-]; reflexivity |].
    destruct (xr_aligned k1 k2 a b); [| discriminate].
    intros H ix. apply bind_Ok in H. destruct H as (c & Hc & [= <-]).
    apply np_iop_Ok in Hc. simpl. apply Hc.
Qed.

Lemma py_T_pget (x y : pyval) :
  py_T x = Ok y -> forall ix, pget y ix = pget x (transpose_index ix).
Proof.
  destruct x as [p|k a]; simpl; [discriminate | intros [= <-] ix].
  apply bget_transpose.
Qed.

Lemma py_values_pget (x y : pyval) :
  py_values x = Ok y -> forall ix, pget y ix = pget x ix.
Proof.
  destruct x as [p|[|] a]; simpl; try discriminate. now intros [= <-].
Qed.

Lemma xr_DataArray_pget (x y : pyval) :
  xr_DataArray x = Ok y -> forall ix, pget y ix = pget x ix.
Proof.
  destruct x as [p|k a]; simpl; try discriminate. now intros [= <-].
Qed.

Lemma py_map_pget (f : Q -> Q) (x : pyval) (ix : index4) :
  pget (py_map f x) ix = f (pget x ix).
Proof. now destruct x. Qed.

Lemma np_where_neg_pget (x : pyval) (ix : index4) :
  pget (np_where_neg x) ix = where_neg (pget x ix).
Proof. now destruct x. Qed.

(** ** Containers and shapes of the results *)

Lemma is_array_intro (k : container) (a : ndarray) :
  is_array (PyArr k a) k (shape a).
Proof. now exists a. Qed.

Lemma xr_aligned_joinable (k1 k2 : container) (a b : ndarray) :
  joinable k1 k2 (shape a) (shape b) -> xr_aligned k1 k2 a b = true.
Proof.
  intros [-> | [-> | E]]; [reflexivity | now destruct k1 |].
  destruct k1, k2; try reflexivity. simpl. rewrite E. apply shape_eqb_refl.
Qed.

Lemma shape_eqb_neq (s1 s2 : shape4) : s1 <> s2 -> shape_eqb s1 s2 = false.
Proof.
  intros H. destruct (shape_eqb s1 s2) eqn:E; [| reflexivity].
  now apply shape_eqb_eq in E.
Qed.

Lemma py_binop_arr (f : Q -> Q -> Q) (x y : pyval) (k1 k2 : container)
    (s1 s2 s : shape4) :
  is_array x k1 s1 -> is_array y k2 s2 -> broadcast_shapes s1 s2 = Some s ->
  joinable k1 k2 s1 s2 ->
  exists z, py_binop f x y = Ok z /\ is_array z (join k1 k2) s.
Proof.
  intros (a & -> & <-) (b & -> & <-) H J. simpl.
  rewrite (xr_aligned_joinable _ _ _ _ J). unfold np_binop. rewrite H.
  simpl. eexists; split; [reflexivity | apply is_array_intro].
Qed.

Lemma py_binop_mismatch (f : Q -> Q -> Q) (x y : pyval) (k1 k2 : container)
    (s1 s2 : shape4) :
  is_array x k1 s1 -> is_array y k2 s2 -> broadcast_shapes s1 s2 = None ->
  py_binop f x y = Err ValueError.
Proof.
  intros (a & -> & <-) (b & -> & <-) H. simpl.
  destruct (xr_aligned k1 k2 a b); [| reflexivity].
  unfold np_binop. now rewrite H.
Qed.

(** Two DataArrays of different shapes are not added, multiplied or
    divided, whatever numpy would make of their shapes. *)
Lemma py_binop_misaligned (f : Q -> Q -> Q) (x y : pyval) (s1 s2 : shape4) :
  is_array x DataArray s1 -> is_array y DataArray s2 -> s1 <> s2 ->
  py_binop f x y = Err ValueError.
Proof.
  intros (a & -> & <-) (b & -> & <-) H. simpl. now rewrite shape_eqb_neq.
Qed.

Lemma py_binop_num_r (f : Q -> Q -> Q) (x : pyval) (q : Q) (k : container)
    (s : shape4) :
  is_array x k s ->
  exists z, py_binop f x (PyNum q) = Ok z /\ is_array z k s.
Proof.
  intros (a & -> & <-). simpl. eexists; split; [reflexivity |].
  apply (is_array_intro k (map_arr _ a)).
Qed.

Lemma py_iop_arr (f : Q -> Q -> Q) (x y : pyval) (k1 k2 : container)
    (s1 s2 : shape4) :
  is_array x k1 s1 -> is_array y k2 s2 -> broadcast_shapes s1 s2 = Some s1 ->
  joinable k1 k2 s1 s2 ->
  exists z, py_iop f x y = Ok z /\ is_array z k1 s1.
Proof.
  intros (a & -> & <-) (b & -> & <-) H J. simpl.
  rewrite (xr_aligned_joinable _ _ _ _ J). unfold np_iop. rewrite H.
  rewrite shape_eqb_refl. simpl. eexists; split; [reflexivity |].
  now eexists.
Qed.

Lemma py_iop_num_r (f : Q -> Q -> Q) (x : pyval) (q : Q) (k : container)
    (s : shape4) :
  is_array x k s ->
  exists z, py_iop f x (PyNum q) = Ok z /\ is_array z k s.
Proof.
  intros (a & -> & <-). simpl. eexists; split; [reflexivity |].
  apply (is_array_intro k (map_arr _ a)).
Qed.

Lemma py_T_arr (x : pyval) (k : container) (s : shape4) :
  is_array x k s ->
  exists z, py_T x = Ok z /\ is_array z k (transpose_shape s).
Proof.
  intros (a & -> & <-). simpl. eexists; split; [reflexivity |].
  apply (is_array_intro k (transpose a)).
Qed.

Lemma py_values_arr (x : pyval) (s : shape4) :
  is_array x DataArray s ->
  exists z, py_values x = Ok z /\ is_array z Ndarray s.
Proof.
  intros (a & -> & <-). simpl. eexists; split; [reflexivity |].
  apply is_array_intro.
Qed.

Lemma xr_DataArray_arr (x : pyval) (k : container) (s : shape4) :
  is_array x k s ->
  exists z, xr_DataArray x = Ok z /\ is_array z DataArray s.
Proof.
  intros (a & -> & <-). simpl. eexists; split; [reflexivity |].
  apply is_array_intro.
Qed.

Lemma py_map_arr (f : Q -> Q) (x : pyval) (k : container) (s : shape4) :
  is_array x k s -> is_array (py_map f x) k s.
Proof. intros (a & -> & <-). apply (is_array_intro k (map_arr f a)). Qed.

Lemma np_where_neg_arr (x : pyval) (k : container) (s : shape4) :
  is_array x k s -> is_array (np_where_neg x) Ndarray s.
Proof.
  intros (a & -> & <-). apply (is_array_intro Ndarray (map_arr where_neg a)).
Qed.

Lemma is_array_series (s : series) :
  is_array (PyArr Ndarray (to_ndarray s)) Ndarray (length s, 1, 1, 6)%nat.
Proof. apply is_array_intro. Qed.

Lemma is_array_inj (x : pyval) (k1 k2 : container) (s1 s2 : shape4) :
  is_array x k1 s1 -> is_array x k2 s2 -> k1 = k2 /\ s1 = s2.
Proof. intros (a & -> & <-) (b & [= -> ->] & <-). auto. Qed.

(** One statement of a method that succeeds: name its value, keep what is
    known of its container and shape, and go on with the rest. *)
Ltac shape_fact :=
  first [ eassumption | apply broadcast_shapes_refl ].

Ltac join_fact :=
  unfold joinable;
  first [ left; reflexivity
        | right; left; reflexivity
        | right; right; reflexivity
        | right; right; congruence ].

Ltac array_fact :=
  first [ eassumption
        | apply py_map_arr; array_fact
        | eapply np_where_neg_arr; array_fact
        | apply is_array_series
        | apply is_array_intro ].

Ltac run_step :=
  cbn [bind];
  let z := fresh "z" in
  let A := fresh "A" in
  match goal with
  | |- context [bind (py_binop ?f ?x (PyNum ?q)) _] =>
      edestruct (py_binop_num_r f x q) as (z & -> & A); [array_fact |]
  | |- context [bind (py_iop ?f ?x (PyNum ?q)) _] =>
      edestruct (py_iop_num_r f x q) as (z & -> & A); [array_fact |]
  | |- context [bind (py_binop ?f ?x ?y) _] =>
      edestruct (py_binop_arr f x y) as (z & -> & A);
      [array_fact | array_fact | shape_fact | join_fact |]
  | |- context [bind (py_iop ?f ?x ?y) _] =>
      edestruct (py_iop_arr f x y) as (z & -> & A);
      [array_fact | array_fact | shape_fact | join_fact |]
  | |- context [bind (py_T ?x) _] =>
      edestruct (py_T_arr x) as (z & -> & A); [array_fact |]
  | |- context [bind (py_values ?x) _] =>
      edestruct (py_values_arr x) as (z & -> & A); [array_fact |]
  | |- context [bind (xr_DataArray ?x) _] =>
      edestruct (xr_DataArray_arr x) as (z & -> & A); [array_fact |]
  end;
  cbn [bind join] in *.

Ltac unfold_ops :=
  unfold py_mul, py_add, py_div, py_imul, py_isub, py_idiv,
    np_clip0, np_clip_min0, np_power2 in *.

(** What a method that succeeded computed, read element by element. *)
Ltac inv_binds H :=
  repeat (apply bind_Ok in H;
          let x := fresh "x" in
          let E := fresh "E" in
          destruct H as (x & E & H)).

Ltac pget_facts :=
  repeat match goal with
    | E : py_binop _ _ _ = Ok _ |- _ =>
        let P := fresh "P" in
        pose proof (py_binop_pget _ _ _ _ E) as P; clear E
    | E : py_iop _ _ _ = Ok _ |- _ =>
        let P := fresh "P" in
        pose proof (py_iop_pget _ _ _ _ E) as P; clear E
    | E : py_T _ = Ok _ |- _ =>
        let P := fresh "P" in
        pose proof (py_T_pget _ _ E) as P; clear E
    | E : py_values _ = Ok _ |- _ =>
        let P := fresh "P" in
        pose proof (py_values_pget _ _ E) as P; clear E
    | E : xr_DataArray _ = Ok _ |- _ =>
        let P := fresh "P" in
        pose proof (xr_DataArray_pget _ _ E) as P; clear E
    end.

Ltac pget_rewrite :=
  repeat first
    [ rewrite py_map_pget
    | rewrite np_where_neg_pget
    | match goal with
      | E : forall ix : index4, _ |- _ => rewrite E
      end ].

(** ** Clipping *)

Lemma where_neg_max (x : Q) : where_neg x == Qmax (- x) 0.
Proof.
  unfold where_neg, Qltb. destruct (Qle_bool 0 x) eqn:E; simpl.
  - apply Qle_bool_iff in E. rewrite Q.max_r; [reflexivity | lra].
  - assert (H : ~ 0 <= x) by (rewrite <- Qle_bool_iff; congruence).
    rewrite Q.max_l; [ring | lra].
Qed.

Lemma Qmax_0_nonneg (x : Q) : 0 <= Qmax x 0.
Proof. apply Q.le_max_r. Qed.

Lemma clip0_bounds (x hi : Q) : 0 <= hi -> 0 <= clip0 x hi <= hi.
Proof.
  intros H. unfold clip0. split.
  - apply Q.min_glb; [apply Q.le_max_r | assumption].
  - apply Q.le_min_r.
Qed.

Lemma clip0_compat (x y hi hi' : Q) :
  x == y -> hi == hi' -> clip0 x hi == clip0 y hi'.
Proof.
  intros Hx Hh. unfold clip0.
  apply Q.min_compat; [apply Q.max_compat; [assumption | reflexivity] | assumption].
Qed.

(** ** Sums over time *)

Lemma time_sum_S (n : nat) (x : nat -> Q) :
  time_sum (S n) x == time_sum n x + x n.
Proof.
  unfold time_sum. rewrite seq_S, fold_right_app. simpl.
  generalize (seq 0 n). intros l. induction l as [|t l IH]; simpl.
  - ring.
  - rewrite IH. ring.
Qed.

Lemma time_sum_ext (n : nat) (x y : nat -> Q) :
  (forall t, x t == y t) -> time_sum n x == time_sum n y.
Proof.
  intros H. induction n as [|n IH]; [reflexivity |].
  now rewrite !time_sum_S, IH, H.
Qed.

Lemma time_sum_minus (n : nat) (x y : nat -> Q) :
  time_sum n (fun t => x t - y t) == time_sum n x - time_sum n y.
Proof.
  induction n as [|n IH]; [reflexivity |].
  rewrite !time_sum_S, IH. ring.
Qed.

Lemma time_sum_div (n : nat) (x : nat -> Q) (d : Q) :
  time_sum n (fun t => x t / d) == time_sum n x / d.
Proof.
  induction n as [|n IH]; [unfold Qdiv; cbn; ring |].
  rewrite !time_sum_S, IH. unfold Qdiv. ring.
Qed.

Lemma time_sum_zero (n : nat) (x : nat -> Q) :
  (forall t, x t == 0) -> time_sum n x == 0.
Proof.
  intros H. induction n as [|n IH]; [reflexivity |].
  rewrite time_sum_S, IH, H. ring.
Qed.

(** ** The distance *)

Lemma dist_km_at_time (self : EnergyConsumptionModel) (ix : index4) (t : nat) :
  dist_km self (at_time ix t) = dist_km self ix.
Proof. now destruct ix as [[[i0 i1] i2] i3]. Qed.

Lemma dist_km_column (self : EnergyConsumptionModel) (t y p c : nat) :
  dist_km self (t, y, p, c) = column_sum (velocity self) c / 1000.
Proof. reflexivity. Qed.

Lemma metres_column (self : EnergyConsumptionModel) (c p y v : nat) :
  metres self (c, p, y, v) = column_sum (velocity self) c.
Proof. reflexivity. Qed.

Lemma vel_row (self : EnergyConsumptionModel) (t y p c : nat) :
  (t < length (velocity self))%nat -> (c < 6)%nat ->
  vel self (t, y, p, c) = nth c (nth t (velocity self) []) 0.
Proof.
  intros Ht Hc. unfold vel, bget. cbn.
  now rewrite (bidx_in_range _ t Ht).
Qed.

(** ** Reshaping to rows of six *)

Lemma rows_of_6_short (data : list Q) :
  (length data < 6)%nat -> rows_of_6 data = [].
Proof.
  destruct data as [|a [|b [|c [|d [|e [|f rest]]]]]]; simpl;
    intros H; try reflexivity; lia.
Qed.

Lemma list_ind_6 (P : list Q -> Prop) :
  (forall l, (length l < 6)%nat -> P l) ->
  (forall a b c d e f rest, P rest -> P (a :: b :: c :: d :: e :: f :: rest)) ->
  forall l, P l.
Proof.
  intros Hshort Hstep l.
  assert (H : forall n l, (length l <= n)%nat -> P l).
  { induction n as [|n IH]; intros l0 Hl.
    - apply Hshort. lia.
    - destruct l0 as [|a [|b [|c [|d [|e [|f rest]]]]]];
        try (apply Hshort; simpl; lia).
      apply Hstep, IH. simpl in Hl. lia. }
  apply (H (length l)). lia.
Qed.

Lemma length_rows_of_6 (data : list Q) :
  length (rows_of_6 data) = (length data / 6)%nat.
Proof.
  induction data as [l Hl | a b c d e f rest IH] using list_ind_6.
  - rewrite rows_of_6_short by assumption. now rewrite Nat.div_small.
  - change (rows_of_6 (a :: b :: c :: d :: e :: f :: rest))
      with ([a; b; c; d; e; f] :: rows_of_6 rest).
    change (length (a :: b :: c :: d :: e :: f :: rest))
      with (1 * 6 + length rest)%nat.
    rewrite Nat.div_add_l by lia. simpl. now rewrite IH.
Qed.

Lemma rows_of_6_rows (data : list Q) :
  Forall (fun row => length row = 6%nat) (rows_of_6 data).
Proof.
  induction data as [l Hl | a b c d e f rest IH] using list_ind_6.
  - rewrite rows_of_6_short by assumption. constructor.
  - change (rows_of_6 (a :: b :: c :: d :: e :: f :: rest))
      with ([a; b; c; d; e; f] :: rows_of_6 rest).
    constructor; [reflexivity | assumption].
Qed.

Lemma concat_rows_of_6 (data : list Q) :
  (length data mod 6 = 0)%nat -> concat (rows_of_6 data) = data.
Proof.
  induction data as [l Hl | a b c d e f rest IH] using list_ind_6.
  - intros H. rewrite Nat.mod_small in H by assumption.
    destruct l; [reflexivity | discriminate].
  - intros H.
    change (rows_of_6 (a :: b :: c :: d :: e :: f :: rest))
      with ([a; b; c; d; e; f] :: rows_of_6 rest).
    change (length (a :: b :: c :: d :: e :: f :: rest))
      with (1 * 6 + length rest)%nat in H.
    rewrite Nat.add_comm, Nat.Div0.mod_add in H.
    simpl. now rewrite IH.
Qed.

Lemma rows_of_6_Forall (P : Q -> Prop) (data : list Q) :
  Forall P data -> Forall (Forall P) (rows_of_6 data).
Proof.
  induction data as [l Hl | a b c d e f rest IH] using list_ind_6.
  - intros _. rewrite rows_of_6_short by assumption. constructor.
  - intros H.
    change (rows_of_6 (a :: b :: c :: d :: e :: f :: rest))
      with ([a; b; c; d; e; f] :: rows_of_6 rest).
    repeat match goal with
      | H : Forall _ (_ :: _) |- _ =>
          let Hx := fresh "Hx" in
          apply Forall_cons_iff in H; destruct H as [Hx H]
      end.
    constructor; [repeat constructor; assumption | now apply IH].
Qed.

Lemma reshape_Ok (data : list Q) (s : series) :
  reshape data = Ok s ->
  (length data mod 6 = 0)%nat /\ s = rows_of_6 data.
Proof.
  unfold reshape. destruct (Nat.eqb_spec (length data mod 6) 0);
    [intros [= <-]; auto | discriminate].
Qed.

Lemma reshape_Err (data : list Q) :
  (length data mod 6 <> 0)%nat -> reshape data = Err ValueError.
Proof.
  intros H. unfold reshape.
  destruct (Nat.eqb_spec (length data mod 6) 0); [contradiction | reflexivity].
Qed.

Lemma reshape_divisible (data : list Q) :
  (length data mod 6 = 0)%nat -> reshape data = Ok (rows_of_6 data).
Proof. intros H. unfold reshape. now rewrite H. Qed.

(** ** Rows of a series *)

Lemma length_series_map (f : Q -> Q) (s : series) :
  length (series_map f s) = length s.
Proof. apply length_map. Qed.

Lemma nth_series_map (f : Q -> Q) (s : series) (t : nat) :
  nth t (series_map f s) [] = map f (nth t s []).
Proof. unfold series_map. exact (map_nth (map f) s [] t). Qed.

Lemma series_map_rows (f : Q -> Q) (s : series) (n : nat) :
  Forall (fun row => length row = n) s ->
  Forall (fun row => length row = n) (series_map f s).
Proof.
  intros H. unfold series_map. apply Forall_map.
  eapply Forall_impl; [| exact H]. intros row Hr. now rewrite length_map.
Qed.

Lemma series_map_ext_in (f g : Q -> Q) (s : series) :
  Forall (Forall (fun x => f x = g x)) s -> series_map f s = series_map g s.
Proof.
  intros H. unfold series_map. apply map_ext_in. intros row Hrow.
  rewrite Forall_forall in H. specialize (H row Hrow).
  apply map_ext_in. now rewrite Forall_forall in H.
Qed.

(** ** Products of 64-bit integers *)

Lemma wrap_int64_fits (z : Z) : in_int64 z -> wrap_int64 z = z.
Proof.
  unfold in_int64, wrap_int64. intros H.
  rewrite Z.mod_small by lia. lia.
Qed.

Lemma np_times_fits (z k : Z) :
  in_int64 (z * k) -> np_times int64 (inject_Z z) k = inject_Z z * inject_Z k.
Proof.
  intros H. unfold np_times. rewrite Qfloor_Z, (wrap_int64_fits _ H).
  reflexivity.
Qed.

Lemma nth_row_length (s : series) (n t : nat) :
  Forall (fun row => length row = n) s -> (t < length s)%nat ->
  length (nth t s []) = n.
Proof.
  intros H Ht. rewrite Forall_forall in H. apply H, nth_In, Ht.
Qed.

Lemma nth_map_default {A B : Type} (h : A -> B) (l : list A) (d : A)
    (d' : B) (c : nat) :
  (c < length l)%nat -> nth c (map h l) d' = h (nth c l d).
Proof.
  intros H. rewrite (nth_indep _ d' (h d)) by now rewrite length_map.
  apply map_nth.
Qed.

Lemma nth_map_in_range (f : Q -> Q) (row : list Q) (c : nat) :
  (c < length row)%nat -> nth c (map f row) 0 = f (nth c row 0).
Proof. apply nth_map_default. Qed.

Lemma zeros_row (f : Q -> Q) (row : list Q) :
  length row = 6%nat -> map (fun _ => 0) row = [0; 0; 0; 0; 0; 0].
Proof.
  destruct row as [|a [|b [|c [|d [|e [|g [|h rest]]]]]]]; simpl;
    intros H; try discriminate. reflexivity.
Qed.

Lemma nth_series_zip (f : Q -> Q -> Q) (a b : series) (t c : nat) :
  length a = length b ->
  (c < length (nth t a []))%nat ->
  length (nth t a []) = length (nth t b []) ->
  nth c (nth t (series_zip f a b) []) 0
  = f (nth c (nth t a []) 0) (nth c (nth t b []) 0).
Proof.
  intros Hab Hc Hrow. unfold series_zip.
  assert (Ht : (t < length a)%nat).
  { destruct (Nat.lt_ge_cases t (length a)) as [H|H]; [assumption |].
    rewrite (nth_overflow a [] H) in Hc. simpl in Hc. lia. }
  rewrite (nth_map_default _ _ ([], [])) by (rewrite length_combine; lia).
  rewrite combine_nth by assumption. cbn [fst snd].
  rewrite (nth_map_default _ _ (0, 0)) by (rewrite length_combine; lia).
  now rewrite combine_nth.
Qed.

Lemma length_nth_series_zip (f : Q -> Q -> Q) (a b : series) (t : nat) :
  length a = length b ->
  length (nth t (series_zip f a b) [])
  = Nat.min (length (nth t a [])) (length (nth t b [])).
Proof.
  intros Hab. unfold series_zip.
  destruct (Nat.lt_ge_cases t (length a)) as [Ht|Ht].
  - rewrite (nth_map_default _ _ ([], [])) by (rewrite length_combine; lia).
    rewrite combine_nth by assumption. cbn [fst snd].
    now rewrite length_map, length_combine.
  - rewrite !nth_overflow; try reflexivity; try lia.
    rewrite length_map, length_combine. lia.
Qed.

(** Reading a series after [s[1:-1] = x]. *)
Lemma nth_assign_1_minus_1 (s x : series) (i : nat) :
  length x = (length s - 2)%nat ->
  nth i (assign_1_minus_1 s x) []
  = if (i =? 0)%nat then nth 0 s []
    else if (i <? length s - 1)%nat then nth (i - 1) x []
    else nth i s [].
Proof.
  intros Hx. unfold assign_1_minus_1.
  destruct (Nat.eqb_spec i 0) as [-> | Hi].
  - destruct s as [|r s']; simpl; [| reflexivity].
    simpl in Hx. destruct x; [reflexivity | discriminate].
  - assert (Hf : length (firstn 1 s) = Nat.min 1 (length s))
      by apply length_firstn.
    destruct (Nat.ltb_spec i (length s - 1)) as [Hlt | Hge].
    + rewrite app_nth2 by lia. rewrite app_nth1 by lia.
      f_equal. lia.
    + destruct (Nat.lt_ge_cases i (length s)) as [Hin | Hout].
      * rewrite app_nth2 by lia. rewrite app_nth2 by lia.
        rewrite nth_skipn. f_equal. lia.
      * rewrite (nth_overflow s) by lia. apply nth_overflow.
        rewrite !length_app, length_skipn. lia.
Qed.

(** ** The acceleration derived from a velocity series *)

Section Acceleration.

Variable v : series.
Hypothesis v_rows : Forall (fun row => length row = 6%nat) v.

Lemma length_zeros_like : length (zeros_like v) = length v.
Proof. unfold zeros_like. apply length_series_map. Qed.

Lemma length_slices :
  length (slice_from_2 v) = (length v - 2)%nat /\
  length (slice_to_minus_2 v) = (length v - 2)%nat.
Proof.
  unfold slice_from_2, slice_to_minus_2.
  rewrite length_skipn, length_firstn. lia.
Qed.

Lemma length_differences :
  length (differences v) = (length (zeros_like v) - 2)%nat.
Proof.
  destruct length_slices as [H1 H2]. unfold differences.
  rewrite length_series_map, length_zeros_like. unfold series_zip.
  rewrite length_map, length_combine. lia.
Qed.

Lemma length_acceleration : length (acceleration_of v) = length v.
Proof.
  unfold acceleration_of, assign_1_minus_1.
  rewrite !length_app, length_differences, length_firstn, length_skipn.
  rewrite length_zeros_like. lia.
Qed.

Lemma nth_zeros (t : nat) :
  (t < length v)%nat -> nth t (zeros_like v) [] = [0; 0; 0; 0; 0; 0].
Proof.
  intros Ht. unfold zeros_like. rewrite nth_series_map.
  apply (zeros_row (fun _ => 0)). now apply (nth_row_length v 6 t).
Qed.

Lemma acceleration_first :
  (1 <= length v)%nat -> nth 0 (acceleration_of v) [] = [0; 0; 0; 0; 0; 0].
Proof.
  intros H. unfold acceleration_of.
  rewrite nth_assign_1_minus_1 by apply length_differences.
  simpl. now apply nth_zeros.
Qed.

Lemma acceleration_last :
  (1 <= length v)%nat ->
  nth (length v - 1) (acceleration_of v) [] = [0; 0; 0; 0; 0; 0].
Proof.
  intros H. unfold acceleration_of.
  rewrite nth_assign_1_minus_1 by apply length_differences.
  rewrite length_zeros_like, Nat.ltb_irrefl.
  destruct (length v - 1 =? 0)%nat; apply nth_zeros; lia.
Qed.

Lemma acceleration_interior (i c : nat) :
  (1 <= i)%nat -> (i + 1 < length v)%nat -> (c < 6)%nat ->
  nth c (nth i (acceleration_of v) []) 0
  = (nth c (nth (i + 1) v []) 0 - nth c (nth (i - 1) v []) 0) / 2.
Proof.
  intros H1 H2 Hc. unfold acceleration_of.
  rewrite nth_assign_1_minus_1 by apply length_differences.
  rewrite length_zeros_like.
  destruct (Nat.eqb_spec i 0) as [E|_]; [lia |].
  destruct (Nat.ltb_spec i (length v - 1)) as [_|E]; [| lia].
  destruct length_slices as [L1 L2].
  assert (R1 : nth (i - 1) (slice_from_2 v) [] = nth (i + 1) v []).
  { unfold slice_from_2. rewrite nth_skipn. f_equal. lia. }
  assert (R2 : nth (i - 1) (slice_to_minus_2 v) [] = nth (i - 1) v []).
  { unfold slice_to_minus_2. rewrite nth_firstn.
    destruct (Nat.ltb_spec (i - 1) (length v - 2)); [reflexivity | lia]. }
  assert (N1 : length (nth (i + 1) v []) = 6%nat)
    by (apply (nth_row_length v 6); [assumption | lia]).
  assert (N2 : length (nth (i - 1) v []) = 6%nat)
    by (apply (nth_row_length v 6); [assumption | lia]).
  unfold differences. rewrite nth_series_map.
  rewrite nth_map_in_range
    by (rewrite length_nth_series_zip, R1, R2, N1, N2 by lia; simpl; lia).
  rewrite nth_series_zip; rewrite ?R1, ?R2, ?N1, ?N2; try lia.
  reflexivity.
Qed.

End Acceleration.

(** ** The forces *)

Section Energy.

Variable np_sin : Q -> Q.
Variable self : EnergyConsumptionModel.

(** The parameter tensors have one shape [sh], and [so] is the shape of
    their transpose broadcast against the series of the model. *)
Variables (sh so : shape4).
Hypothesis Hal : aligned self.
Hypothesis Hso :
  broadcast_shapes (transpose_shape sh) (series_shape self) = Some so.

Variables (driving_mass rr_coef drag_coef frontal_area : pyval).

Lemma shape_facts :
  broadcast_shapes (series_shape self) (transpose_shape sh) = Some so /\
  broadcast_shapes so (series_shape self) = Some so /\
  broadcast_shapes so (transpose_shape sh) = Some so /\
  broadcast_shapes so (1, 1, 1, 6)%nat = Some so.
Proof.
  repeat split.
  - now rewrite broadcast_shapes_comm.
  - eapply broadcast_shapes_absorb_r, Hso.
  - eapply broadcast_shapes_absorb_l, Hso.
  - eapply broadcast_shapes_series_vector, Hso.
Qed.

Lemma aligned_series :
  is_array (PyArr Ndarray (to_ndarray (gradient self))) Ndarray
    (series_shape self) /\
  is_array (PyArr Ndarray (to_ndarray (acceleration self))) Ndarray
    (series_shape self).
Proof.
  destruct Hal as [Hg Ha]. unfold series_shape. rewrite <- Hg at 1.
  rewrite <- Ha. split; apply is_array_series.
Qed.

Ltac shape_context :=
  destruct shape_facts as (Hs1 & Hs2 & Hs3 & Hs4);
  destruct aligned_series as (Ag & Aa);
  pose proof Hso as Hs0.

Lemma resistances_ok :
  is_array driving_mass DataArray sh -> is_array rr_coef DataArray sh ->
  is_array drag_coef DataArray sh -> is_array frontal_area DataArray sh ->
  exists f,
    resistances np_sin self driving_mass rr_coef drag_coef frontal_area = Ok f
    /\ forces_shaped f so.
Proof.
  intros Am Ar Ad Af. shape_context.
  unfold resistances. unfold_ops.
  repeat run_step.
  eexists; split; [reflexivity |].
  unfold forces_shaped; simpl. repeat split; array_fact.
Qed.

Lemma resistances_spec (f : forces) :
  resistances np_sin self driving_mass rr_coef drag_coef frontal_area = Ok f ->
  forall ix,
    pget (f_rolling_resistance f) ix ==
      spec_rolling_resistance (param driving_mass ix) (param rr_coef ix) /\
    pget (f_air_resistance f) ix ==
      spec_air_resistance (rho_air self) (vel self ix)
        (param drag_coef ix) (param frontal_area ix) /\
    pget (f_gradient_resistance f) ix ==
      spec_gradient_resistance (np_sin (grad self ix)) (param driving_mass ix) /\
    pget (f_inertia f) ix ==
      spec_inertia (acc self ix) (param driving_mass ix) /\
    pget (f_braking_loss f) ix ==
      spec_braking_loss (acc self ix) (param driving_mass ix) /\
    pget (f_total_resistance f) ix ==
      pget (f_rolling_resistance f) ix + pget (f_air_resistance f) ix
      + pget (f_gradient_resistance f) ix + pget (f_inertia f) ix.
Proof.
  unfold resistances. unfold_ops. intros H ix.
  inv_binds H. injection H as <-. pget_facts. cbn [f_rolling_resistance
    f_air_resistance f_gradient_resistance f_inertia f_braking_loss
    f_total_resistance].
  pget_rewrite.
  unfold spec_rolling_resistance, spec_air_resistance,
    spec_gradient_resistance, spec_braking_loss, spec_inertia,
    param, vel, acc, grad.
  cbn [pget]. change (bget (ones_like _) ix) with 1.
  repeat split; try ring.
  - field.
  - rewrite where_neg_max. apply Q.max_compat; [ring | reflexivity].
Qed.

(** ** The branch [debug_mode==False] *)

Variables (ttw_efficiency recuperation_efficiency motor_power : pyval).

Lemma wheel_powers_ok (f : forces) :
  forces_shaped f so ->
  is_array recuperation_efficiency DataArray sh ->
  is_array motor_power DataArray sh ->
  exists p,
    wheel_powers self f recuperation_efficiency motor_power = Ok p /\
    powers_shaped p so.
Proof.
  intros (Fr & Fa & Fg & Fi & Fb & Ft) Ar Am. shape_context.
  unfold wheel_powers. unfold_ops.
  repeat run_step.
  eexists; split; [reflexivity |].
  unfold powers_shaped; simpl. repeat split; array_fact.
Qed.

Lemma wheel_powers_spec (f : forces) (p : powers) :
  wheel_powers self f recuperation_efficiency motor_power = Ok p ->
  forall ix,
    pget (p_total_power p) ix =
      Qmax (pget (f_total_resistance f) ix * vel self ix) 0 /\
    pget (p_recuperated_power p) ix =
      clip0 (pget (f_braking_loss f) ix * param recuperation_efficiency ix
             * vel self ix)
        (param motor_power ix * 1000) /\
    pget (p_net_power p) ix =
      pget (p_total_power p) ix - pget (p_recuperated_power p) ix.
Proof.
  unfold wheel_powers. unfold_ops. intros H ix.
  inv_binds H. injection H as <-. pget_facts.
  cbn [p_total_power p_recuperated_power p_net_power].
  pget_rewrite. unfold param, vel. cbn [pget]. auto.
Qed.

Lemma total_resistance_spec (f : forces) :
  resistances np_sin self driving_mass rr_coef drag_coef frontal_area = Ok f ->
  forall ix,
    pget (f_total_resistance f) ix ==
      spec_total_resistance (rho_air self) (vel self ix) (acc self ix)
        (np_sin (grad self ix)) (param driving_mass ix) (param rr_coef ix)
        (param drag_coef ix) (param frontal_area ix).
Proof.
  intros H ix.
  destruct (resistances_spec f H ix) as (H1 & H2 & H3 & H4 & _ & H6).
  rewrite H6, H1, H2, H3, H4. reflexivity.
Qed.

Lemma motive_energy_ok :
  is_array driving_mass DataArray sh -> is_array rr_coef DataArray sh ->
  is_array drag_coef DataArray sh -> is_array frontal_area DataArray sh ->
  is_array ttw_efficiency DataArray sh ->
  is_array recuperation_efficiency DataArray sh ->
  is_array motor_power DataArray sh ->
  exists f p out,
    resistances np_sin self driving_mass rr_coef drag_coef frontal_area = Ok f
    /\ wheel_powers self f recuperation_efficiency motor_power = Ok p
    /\ motive_energy_per_km np_sin self driving_mass rr_coef drag_coef
         frontal_area ttw_efficiency recuperation_efficiency motor_power false
       = Ok (Energy out)
    /\ is_array out DataArray so.
Proof.
  intros Am Ar Ad Af At Ae Ap.
  destruct (resistances_ok Am Ar Ad Af) as (f & Ef & Fs).
  destruct (wheel_powers_ok f Fs Ae Ap) as (p & Ep & (Pt & Pr & Pn)).
  shape_context.
  exists f, p. unfold motive_energy_per_km. rewrite Ef. cbn [bind negb].
  rewrite Ep. unfold_ops.
  assert (Ak : is_array (km_distance self) Ndarray (1, 1, 1, 6)%nat)
    by apply is_array_intro.
  repeat run_step.
  eexists. split; [reflexivity |]. split; [reflexivity |].
  split; [reflexivity | assumption].
Qed.

Lemma motive_energy_inv (out : pyval) :
  motive_energy_per_km np_sin self driving_mass rr_coef drag_coef
    frontal_area ttw_efficiency recuperation_efficiency motor_power false
  = Ok (Energy out) ->
  exists f p,
    resistances np_sin self driving_mass rr_coef drag_coef frontal_area = Ok f
    /\ wheel_powers self f recuperation_efficiency motor_power = Ok p
    /\ forall ix,
         pget out ix =
           pget (p_net_power p) ix / dist_km self ix / param ttw_efficiency ix
           / 1000.
Proof.
  unfold motive_energy_per_km. cbn [negb]. unfold_ops. intros H.
  apply bind_Ok in H. destruct H as (f & Ef & H).
  apply bind_Ok in H. destruct H as (p & Ep & H).
  exists f, p. repeat split; try assumption. intros ix.
  inv_binds H. injection H as <-. pget_facts. pget_rewrite.
  reflexivity.
Qed.

(** The energy tensor of the normal mode, element by element, is the
    formula of the specification. *)
Lemma motive_energy_formula (out : pyval) :
  motive_energy_per_km np_sin self driving_mass rr_coef drag_coef
    frontal_area ttw_efficiency recuperation_efficiency motor_power false
  = Ok (Energy out) ->
  forall ix,
    pget out ix ==
      spec_energy (rho_air self) (vel self ix) (acc self ix)
        (np_sin (grad self ix)) (param driving_mass ix) (param rr_coef ix)
        (param drag_coef ix) (param frontal_area ix)
        (param recuperation_efficiency ix) (param motor_power ix)
        (dist_km self ix) (param ttw_efficiency ix).
Proof.
  intros H ix. destruct (motive_energy_inv out H) as (f & p & Ef & Ep & Ho).
  destruct (wheel_powers_spec f p Ep ix) as (Ht & Hr & Hn).
  destruct (resistances_spec f Ef ix) as (_ & _ & _ & _ & Hb & _).
  pose proof (total_resistance_spec f Ef ix) as Hs.
  rewrite Ho, Hn, Ht, Hr. unfold spec_energy, spec_total_power,
    spec_recuperated_power, clip0.
  rewrite Hs, Hb. reflexivity.
Qed.

(** ** The debug mode *)

Lemma debug_ok :
  is_array driving_mass DataArray sh -> is_array rr_coef DataArray sh ->
  is_array drag_coef DataArray sh -> is_array frontal_area DataArray sh ->
  is_array ttw_efficiency DataArray sh ->
  exists o,
    motive_energy_per_km np_sin self driving_mass rr_coef drag_coef
      frontal_area ttw_efficiency recuperation_efficiency motor_power true
    = Ok o /\ debug_shaped o so.
Proof.
  intros Am Ar Ad Af At.
  destruct (resistances_ok Am Ar Ad Af) as (f & Ef & Fs).
  destruct Fs as (Fr & Fa & Fg & Fi & Fb & Ft).
  shape_context.
  unfold motive_energy_per_km. rewrite Ef. cbn [bind negb].
  unfold debug_output. unfold_ops.
  repeat run_step.
  eexists. split; [reflexivity |]. cbn [debug_shaped]. repeat split; array_fact.
Qed.

Lemma debug_inv (r a g i b p e : pyval) :
  motive_energy_per_km np_sin self driving_mass rr_coef drag_coef
    frontal_area ttw_efficiency recuperation_efficiency motor_power true
  = Ok (Debug r a g i b p e) ->
  exists f,
    resistances np_sin self driving_mass rr_coef drag_coef frontal_area = Ok f
    /\ forall ix,
         pget r ix = pget (f_rolling_resistance f) ix * vel self ix /\
         pget a ix = pget (f_air_resistance f) ix * vel self ix /\
         pget g ix = pget (f_gradient_resistance f) ix * vel self ix /\
         pget i ix = pget (f_inertia f) ix * vel self ix /\
         pget b ix = pget (f_braking_loss f) ix * vel self ix /\
         pget p ix = Qmax (pget (f_total_resistance f) ix * vel self ix) 0 /\
         pget e ix = pget p ix / param ttw_efficiency ix / 1000.
Proof.
  unfold motive_energy_per_km. cbn [negb]. intros H.
  apply bind_Ok in H. destruct H as (f & Ef & H).
  exists f. split; [assumption |]. intros ix.
  unfold debug_output in H. unfold_ops.
  inv_binds H. injection H as <- <- <- <- <- <- <-. pget_facts. pget_rewrite.
  unfold param, vel. cbn [pget]. repeat split; reflexivity.
Qed.

End Energy.

(** ** The constructor *)

Section Construction.

Variable get_standard_driving_cycle : string -> result (list Q).
Variable get_gradients : string -> result (list Q).

Lemma init_inv (c : cycle_input) (rho : Q) (self : EnergyConsumptionModel) :
  init get_standard_driving_cycle get_gradients c rho = Ok self ->
  exists name data g,
    resolve_cycle get_standard_driving_cycle c = Ok (name, data) /\ get_gradients name = Ok g /\
    (length g mod 6 = 0)%nat /\ (length data mod 6 = 0)%nat /\
    cycle_name self = name /\ gradient_name self = name /\
    rho_air self = rho /\
    gradient self = rows_of_6 g /\ cycle self = rows_of_6 data /\
    velocity self
    = series_map (fun x => np_times (cycle_dtype c) x 1000 / 3600)
        (cycle self) /\
    acceleration self = acceleration_of (velocity self).
Proof.
  unfold init. intros H.
  apply bind_Ok in H. destruct H as ([name data] & Er & H).
  apply bind_Ok in H. destruct H as (g & Eg & H).
  apply bind_Ok in H. destruct H as (gs & Egs & H).
  apply bind_Ok in H. destruct H as (cs & Ecs & H).
  apply reshape_Ok in Egs. destruct Egs as [Hg ->].
  apply reshape_Ok in Ecs. destruct Ecs as [Hd ->].
  injection H as <-. exists name, data, g. simpl in *.
  repeat split; assumption.
Qed.

(** Where no product overflows, the product is the one of the numbers. *)
Lemma resolve_cycle_exact (c : cycle_input) (name : string) (data : list Q) :
  resolve_cycle get_standard_driving_cycle c = Ok (name, data) ->
  no_overflow c ->
  Forall (fun x => np_times (cycle_dtype c) x 1000 / 3600 = (x * 1000) / 3600)
    data.
Proof.
  destruct c as [n|d|zs|]; intros Er Hfit;
    try (apply Forall_forall; intros x _; reflexivity).
  injection Er as _ <-. apply Forall_map.
  eapply Forall_impl; [| exact Hfit]. intros z Hz.
  change (np_times int64 (inject_Z z) 1000 / 3600
          = (inject_Z z * 1000) / 3600).
  now rewrite (np_times_fits z 1000 Hz).
Qed.

Lemma init_inv_exact (c : cycle_input) (rho : Q)
    (self : EnergyConsumptionModel) :
  init get_standard_driving_cycle get_gradients c rho = Ok self ->
  no_overflow c ->
  velocity self = series_map (fun x => (x * 1000) / 3600) (cycle self).
Proof.
  intros H Hfit. apply init_inv in H.
  destruct H as (name & data & g & Er & _ & _ & _ & _ & _ & _ & _ & Hcs
                 & Hv & _).
  rewrite Hv, Hcs. apply series_map_ext_in, rows_of_6_Forall.
  now apply (resolve_cycle_exact c name data).
Qed.

Lemma init_ok (c : cycle_input) (rho : Q) (name : string) (data g : list Q) :
  resolve_cycle get_standard_driving_cycle c = Ok (name, data) -> get_gradients name = Ok g ->
  (length data mod 6 = 0)%nat -> (length g mod 6 = 0)%nat ->
  succeeds (init get_standard_driving_cycle get_gradients c rho).
Proof.
  intros Er Eg Hd Hg. unfold init. rewrite Er. cbn [bind fst snd].
  rewrite Eg. cbn [bind].
  rewrite (reshape_divisible g Hg), (reshape_divisible data Hd). cbn [bind].
  eexists. reflexivity.
Qed.

Lemma init_not_divisible (c : cycle_input) (rho : Q) (name : string)
    (data g : list Q) :
  resolve_cycle get_standard_driving_cycle c = Ok (name, data) -> get_gradients name = Ok g ->
  (length data mod 6 <> 0)%nat \/ (length g mod 6 <> 0)%nat ->
  init get_standard_driving_cycle get_gradients c rho = Err ValueError.
Proof.
  intros Er Eg H. unfold init. rewrite Er. cbn [bind fst snd].
  rewrite Eg. cbn [bind].
  destruct (Nat.eq_dec (length g mod 6) 0) as [Hg|Hg].
  - rewrite (reshape_divisible g Hg). cbn [bind].
    destruct H as [Hd|Hg']; [| contradiction].
    now rewrite (reshape_Err data Hd).
  - now rewrite (reshape_Err g Hg).
Qed.

(** C10.  Once the cycle and its gradients are resolved, construction
    succeeds exactly when both hold a multiple of 6 samples, and fails with
    the [ValueError] of [reshape] otherwise; the time axis of the cycle, the
    velocity and the acceleration has the length of the cycle divided by 6
    (that of the gradient, the length of the gradients divided by 6), and
    the last axis has length 6. *)
Theorem construction_needs_multiple_of_6
    (c : cycle_input) (rho : Q) (name : string) (data g : list Q) :
  resolve_cycle get_standard_driving_cycle c = Ok (name, data) -> get_gradients name = Ok g ->
  (succeeds (init get_standard_driving_cycle get_gradients c rho) <->
   (length data mod 6 = 0)%nat /\ (length g mod 6 = 0)%nat) /\
  ((length data mod 6 <> 0)%nat \/ (length g mod 6 <> 0)%nat ->
   init get_standard_driving_cycle get_gradients c rho = Err ValueError) /\
  forall self, init get_standard_driving_cycle get_gradients c rho = Ok self ->
    length (cycle self) = (length data / 6)%nat /\
    length (velocity self) = (length data / 6)%nat /\
    length (acceleration self) = (length data / 6)%nat /\
    length (gradient self) = (length g / 6)%nat /\
    Forall (fun row => length row = 6%nat) (cycle self) /\
    Forall (fun row => length row = 6%nat) (velocity self) /\
    Forall (fun row => length row = 6%nat) (gradient self).
Proof.
  intros Er Eg. split; [split |]; [| | split].
  - intros (self & H). apply init_inv in H.
    destruct H as (n' & d' & g' & Er' & Eg' & Hg & Hd & Hn & _).
    rewrite Er in Er'. injection Er' as <- <-.
    rewrite Eg in Eg'. injection Eg' as <-. auto.
  - intros [Hd Hg]. now apply (init_ok c rho name data g).
  - apply (init_not_divisible c rho name data g Er Eg).
  - intros self H. apply init_inv in H.
    destruct H as (n' & d' & g' & Er' & Eg' & Hg & Hd & _ & _ & _
                   & Hgs & Hcs & Hv & Ha).
    rewrite Er in Er'. injection Er' as <- <-.
    rewrite Eg in Eg'. injection Eg' as <-.
    assert (Lc : length (cycle self) = (length data / 6)%nat)
      by (rewrite Hcs; apply length_rows_of_6).
    assert (Rc : Forall (fun row => length row = 6%nat) (cycle self))
      by (rewrite Hcs; apply rows_of_6_rows).
    assert (Lv : length (velocity self) = (length data / 6)%nat)
      by (rewrite Hv, length_series_map; exact Lc).
    repeat split; try assumption.
    + rewrite Ha, length_acceleration. exact Lv.
    + rewrite Hgs. apply length_rows_of_6.
    + rewrite Hv. now apply series_map_rows.
    + rewrite Hgs. apply rows_of_6_rows.
Qed.

(** C5.  The acceleration derived at construction has the length of the
    velocity, its first and its last row are zero, and every interior row
    is half the difference of the velocity rows after and before it. *)
Theorem acceleration_is_centred_difference
    (c : cycle_input) (rho : Q) (self : EnergyConsumptionModel) :
  init get_standard_driving_cycle get_gradients c rho = Ok self ->
  length (acceleration self) = length (velocity self) /\
  ((1 <= length (velocity self))%nat ->
   nth 0 (acceleration self) [] = [0; 0; 0; 0; 0; 0] /\
   nth (length (velocity self) - 1) (acceleration self) []
   = [0; 0; 0; 0; 0; 0]) /\
  forall i col,
    (1 <= i)%nat -> (i + 1 < length (velocity self))%nat -> (col < 6)%nat ->
    nth col (nth i (acceleration self) []) 0
    = (nth col (nth (i + 1) (velocity self) []) 0
       - nth col (nth (i - 1) (velocity self) []) 0) / 2.
Proof.
  intros H. apply init_inv in H.
  destruct H as (name & data & g & _ & _ & _ & _ & _ & _ & _ & _ & Hcs
                 & Hv & Ha).
  assert (Rv : Forall (fun row => length row = 6%nat) (velocity self)).
  { rewrite Hv. apply series_map_rows. rewrite Hcs. apply rows_of_6_rows. }
  rewrite Ha. split; [apply length_acceleration |]. split.
  - intros H1. split.
    + now apply acceleration_first.
    + now apply acceleration_last.
  - intros i col. now apply acceleration_interior.
Qed.

(** C6, amended.  The velocity holds as many samples, and as many rows, as
    the cycle, whatever the cycle is.  Every sample of the velocity is the
    sample of the cycle at the same position times 1000 and divided by 3600
    where the products do not overflow: for every cycle of floats, and for
    a cycle of 64-bit integers whose samples times 1000 are 64-bit
    integers. *)
Theorem velocity_is_cycle_in_metres_per_second
    (c : cycle_input) (rho : Q) (self : EnergyConsumptionModel)
    (name : string) (data : list Q) :
  init get_standard_driving_cycle get_gradients c rho = Ok self ->
  resolve_cycle get_standard_driving_cycle c = Ok (name, data) ->
  length (concat (velocity self)) = length data /\
  length (velocity self) = length (cycle self) /\
  (no_overflow c ->
   (forall i, (i < length data)%nat ->
      nth i (concat (velocity self)) 0 = (nth i data 0 * 1000) / 3600) /\
   forall t col,
     (t < length (velocity self))%nat -> (col < 6)%nat ->
     nth col (nth t (velocity self) []) 0
     = (nth col (nth t (cycle self) []) 0 * 1000) / 3600).
Proof.
  intros H Er. pose proof (init_inv_exact c rho self H) as Hexact.
  apply init_inv in H.
  destruct H as (n' & d' & g & Er' & _ & _ & Hd & _ & _ & _ & _ & Hcs
                 & Hv & _).
  rewrite Er in Er'. injection Er' as <- <-.
  assert (Hflat : forall f, concat (series_map f (cycle self)) = map f data).
  { intros f. rewrite Hcs. unfold series_map.
    now rewrite <- concat_map, concat_rows_of_6. }
  split; [rewrite Hv, Hflat; apply length_map |].
  split; [rewrite Hv; apply length_series_map |].
  intros Hfit. specialize (Hexact Hfit). split.
  - intros i Hi. rewrite Hexact, Hflat. now apply nth_map_in_range.
  - intros t col Ht Hc. rewrite Hexact in *. rewrite nth_series_map.
    apply nth_map_in_range. rewrite length_series_map in Ht.
    rewrite (nth_row_length (cycle self) 6 t); [assumption | | assumption].
    rewrite Hcs. apply rows_of_6_rows.
Qed.

(** C7, amended.  A cycle name the registry cannot resolve, and a value
    that is neither a [str] nor a numpy array, make the constructor end in
    an exception: no model is produced. *)
Theorem invalid_cycle_produces_no_model (name : string) (e : exn) (rho : Q) :
  get_standard_driving_cycle name = Err e ->
  fails (init get_standard_driving_cycle get_gradients (CycleStr name) rho) /\
  fails (init get_standard_driving_cycle get_gradients CycleOther rho) /\
  forall self,
    init get_standard_driving_cycle get_gradients (CycleStr name) rho <> Ok self /\ init get_standard_driving_cycle get_gradients CycleOther rho <> Ok self.
Proof.
  intros H.
  assert (F1 : fails (init get_standard_driving_cycle get_gradients (CycleStr name) rho)).
  { unfold init, resolve_cycle. rewrite H.
    destruct e; cbn; eexists; reflexivity. }
  assert (F2 : fails (init get_standard_driving_cycle get_gradients CycleOther rho)) by (eexists; reflexivity).
  repeat split; try assumption.
  - destruct F1 as (e1 & ->). discriminate.
  - destruct F2 as (e2 & ->). discriminate.
Qed.

End Construction.

Lemma construction_needs_multiple_of_6_witness :
  (succeeds (init example_registry example_gradients
               (CycleStr "Urban delivery") default_rho_air) <->
   (length example_cycle mod 6 = 0)%nat /\ (length (repeat 0 24) mod 6 = 0)%nat)
  /\
  ((length example_cycle mod 6 <> 0)%nat \/
   (length (repeat 0 24) mod 6 <> 0)%nat ->
   init example_registry example_gradients (CycleStr "Urban delivery")
     default_rho_air = Err ValueError) /\
  forall self,
    init example_registry example_gradients (CycleStr "Urban delivery")
      default_rho_air = Ok self ->
    length (cycle self) = (length example_cycle / 6)%nat /\
    length (velocity self) = (length example_cycle / 6)%nat /\
    length (acceleration self) = (length example_cycle / 6)%nat /\
    length (gradient self) = (length (repeat 0 24) / 6)%nat /\
    Forall (fun row => length row = 6%nat) (cycle self) /\
    Forall (fun row => length row = 6%nat) (velocity self) /\
    Forall (fun row => length row = 6%nat) (gradient self).
Proof.
  apply (construction_needs_multiple_of_6 example_registry example_gradients
           (CycleStr "Urban delivery") default_rho_air "Urban delivery"
           example_cycle (repeat 0 24)).
  - reflexivity.
  - reflexivity.
Defined.

Lemma acceleration_is_centred_difference_witness :
  length (acceleration example_model) = length (velocity example_model) /\
  ((1 <= length (velocity example_model))%nat ->
   nth 0 (acceleration example_model) [] = [0; 0; 0; 0; 0; 0] /\
   nth (length (velocity example_model) - 1) (acceleration example_model) []
   = [0; 0; 0; 0; 0; 0]) /\
  forall i col,
    (1 <= i)%nat -> (i + 1 < length (velocity example_model))%nat ->
    (col < 6)%nat ->
    nth col (nth i (acceleration example_model) []) 0
    = (nth col (nth (i + 1) (velocity example_model) []) 0
       - nth col (nth (i - 1) (velocity example_model) []) 0) / 2.
Proof.
  apply (acceleration_is_centred_difference example_registry
           example_gradients (CycleNdarray example_cycle) default_rho_air).
  reflexivity.
Defined.

Lemma integer_cycle_no_overflow : no_overflow (CycleIntNdarray integer_cycle).
Proof. repeat constructor; discriminate. Qed.

Lemma velocity_is_cycle_in_metres_per_second_witness :
  length (concat (velocity integer_model)) = length integer_cycle /\
  length (velocity integer_model) = length (cycle integer_model) /\
  (forall i, (i < length integer_cycle)%nat ->
     nth i (concat (velocity integer_model)) 0
     = (nth i (map inject_Z integer_cycle) 0 * 1000) / 3600) /\
  forall t col,
    (t < length (velocity integer_model))%nat -> (col < 6)%nat ->
    nth col (nth t (velocity integer_model) []) 0
    = (nth col (nth t (cycle integer_model) []) 0 * 1000) / 3600.
Proof.
  destruct (velocity_is_cycle_in_metres_per_second example_registry
              example_gradients (CycleIntNdarray integer_cycle)
              default_rho_air integer_model "custom"
              (map inject_Z integer_cycle) eq_refl eq_refl)
    as (Hsamples & Hrows & Hvalues).
  destruct (Hvalues integer_cycle_no_overflow) as [Hflat Hrow].
  rewrite length_map in Hsamples, Hflat.
  repeat split; assumption.
Defined.

(** C6 as stated fails: the samples of [overflow_cycle] are finite and not
    negative, and its first velocity is negative, as the product
    [10^16 * 1000] has wrapped around to [10^19 - 2^64]. *)
Lemma velocity_wraps_around_on_int64_cycle :
  init example_registry example_gradients (CycleIntNdarray overflow_cycle)
    default_rho_air = Ok overflow_model /\
  nth 0 (concat (cycle overflow_model)) 0 == 10000000000000000 /\
  nth 0 (concat (velocity overflow_model)) 0
  == - 8446744073709551616 / 3600 /\
  nth 0 (concat (velocity overflow_model)) 0 < 0 /\
  ~ nth 0 (concat (velocity overflow_model)) 0
    == (nth 0 (concat (cycle overflow_model)) 0 * 1000) / 3600.
Proof.
  repeat split; try reflexivity. vm_compute. discriminate.
Qed.

Lemma invalid_cycle_produces_no_model_witness :
  fails (init example_registry example_gradients
           (CycleStr "nonexistent-cycle-xyz") default_rho_air) /\
  fails (init example_registry example_gradients CycleOther default_rho_air) /\
  forall self,
    init example_registry example_gradients
      (CycleStr "nonexistent-cycle-xyz") default_rho_air <> Ok self /\
    init example_registry example_gradients CycleOther default_rho_air
    <> Ok self.
Proof.
  apply (invalid_cycle_produces_no_model example_registry example_gradients
           "nonexistent-cycle-xyz" KeyError default_rho_air).
  reflexivity.
Defined.

(** C7 as stated fails: for the unknown name, as for a value of another
    type, the exception is the [TypeError] Python raises for [raise] of a
    string, not [ConfigurationError]. *)
Lemma invalid_cycle_is_not_ConfigurationError :
  init example_registry example_gradients (CycleStr "nonexistent-cycle-xyz")
    default_rho_air = Err TypeError /\
  init example_registry example_gradients CycleOther default_rho_air
  = Err TypeError /\
  init example_registry example_gradients (CycleStr "nonexistent-cycle-xyz")
    default_rho_air <> Err ConfigurationError /\
  init example_registry example_gradients CycleOther default_rho_air
  <> Err ConfigurationError.
Proof.
  repeat split; try reflexivity; vm_compute; discriminate.
Qed.

(** ** Normal mode: the energy tensor *)

Ltac split_tensors H :=
  unfold parameter_tensors in H;
  repeat match type of H with
    | Forall _ (_ :: _) =>
        let A := fresh "A" in
        apply Forall_cons_iff in H; destruct H as [A H]
    end.

Lemma time_axis_kept (sh so : shape4) (T : nat) :
  broadcast_shapes (transpose_shape sh) (T, 1, 1, 6)%nat = Some so ->
  forall d0 d1 d2, sh = (d0, d1, d2, 1)%nat ->
  exists d, so = (T, d2, d1, d).
Proof.
  intros H d0 d1 d2 ->. apply broadcast_shapes_inv in H.
  destruct so as [[[s0 s1] s2] s3]. simpl in H.
  destruct H as (H0 & H1 & H2 & H3).
  rewrite bdim_1_r in H1, H2. injection H1 as <-. injection H2 as <-.
  rewrite bdim_comm, bdim_1_r in H0. injection H0 as <-. now exists s3.
Qed.

(** C1, amended.  For a model whose series are aligned and DataArray
    parameters of one shape whose transpose broadcasts against the series,
    [motive_energy_per_km] with [debug_mode=False] returns a DataArray that
    keeps the time axis next to the variant axes (it is not summed over
    time), and each of its elements is, for its time step and variant,
    [(total_power - recuperated_power) / distance / ttw_efficiency / 1000]
    with [total_power = max(total_resistance * velocity, 0)], the braking
    loss left out of [total_resistance], and [distance] the sum of the
    velocity column in km. *)
Theorem motive_energy_per_km_normal_mode
    (np_sin : Q -> Q) (self : EnergyConsumptionModel) (sh so : shape4)
    (driving_mass rr_coef drag_coef frontal_area ttw_efficiency
     recuperation_efficiency motor_power : pyval) :
  aligned self ->
  broadcast_shapes (transpose_shape sh) (series_shape self) = Some so ->
  parameter_tensors sh
    [driving_mass; rr_coef; drag_coef; frontal_area; ttw_efficiency;
     recuperation_efficiency; motor_power] ->
  exists out,
    motive_energy_per_km np_sin self driving_mass rr_coef drag_coef
      frontal_area ttw_efficiency recuperation_efficiency motor_power false
    = Ok (Energy out) /\
    is_array out DataArray so /\
    (forall d0 d1 d2, sh = (d0, d1, d2, 1)%nat ->
       exists d, so = (length (velocity self), d2, d1, d)) /\
    (forall ix,
       pget out ix ==
         spec_energy (rho_air self) (vel self ix) (acc self ix)
           (np_sin (grad self ix)) (param driving_mass ix) (param rr_coef ix)
           (param drag_coef ix) (param frontal_area ix)
           (param recuperation_efficiency ix) (param motor_power ix)
           (dist_km self ix) (param ttw_efficiency ix)) /\
    forall t y p c,
      dist_km self (t, y, p, c) = column_sum (velocity self) c / 1000 /\
      ((t < length (velocity self))%nat -> (c < 6)%nat ->
       vel self (t, y, p, c) = nth c (nth t (velocity self) []) 0).
Proof.
  intros Hal Hso Hp. split_tensors Hp.
  destruct (motive_energy_ok np_sin self sh so Hal Hso driving_mass rr_coef
              drag_coef frontal_area ttw_efficiency recuperation_efficiency
              motor_power A A0 A1 A2 A3 A4 A5) as (f & p & out & _ & _ & Ho & Ao).
  exists out. split; [assumption |]. split; [assumption |].
  split; [| split].
  - apply (time_axis_kept sh so _ Hso).
  - eapply motive_energy_formula, Ho.
  - intros t y q c. split; [apply dist_km_column | apply vel_row].
Qed.

Lemma motive_energy_per_km_normal_mode_witness :
  exists out,
    example_normal = Ok (Energy out) /\
    is_array out DataArray (4, 1, 1, 6)%nat /\
    (forall d0 d1 d2, (6, 1, 1, 1)%nat = (d0, d1, d2, 1)%nat ->
       exists d, (4, 1, 1, 6)%nat =
                 (length (velocity example_model), d2, d1, d)) /\
    (forall ix,
       pget out ix ==
         spec_energy (rho_air example_model) (vel example_model ix)
           (acc example_model ix) (example_sin (grad example_model ix))
           (param (example_tensor 10000) ix) (param (example_tensor 0.006) ix)
           (param (example_tensor 0.6) ix) (param (example_tensor 8) ix)
           (param (example_tensor 0.5) ix) (param (example_tensor 100) ix)
           (dist_km example_model ix) (param (example_tensor 0.4) ix)) /\
    forall t y p c,
      dist_km example_model (t, y, p, c)
      = column_sum (velocity example_model) c / 1000 /\
      ((t < length (velocity example_model))%nat -> (c < 6)%nat ->
       vel example_model (t, y, p, c)
       = nth c (nth t (velocity example_model) []) 0).
Proof.
  apply (motive_energy_per_km_normal_mode example_sin example_model
           (6, 1, 1, 1)%nat (4, 1, 1, 6)%nat).
  - split; reflexivity.
  - reflexivity.
  - repeat constructor; apply is_array_intro.
Defined.

(** C1 as stated fails: the tensor returned for the example keeps its four
    time steps, and one vehicle variant has different values along them. *)
Lemma motive_energy_per_km_not_reduced_over_time :
  energy_shape example_normal = Some (4, 1, 1, 6)%nat /\
  energy_at example_normal (0, 0, 0, 0)%nat == 1096.95 /\
  energy_at example_normal (1, 0, 0, 0)%nat == -12500 /\
  ~ energy_at example_normal (0, 0, 0, 0)%nat
    == energy_at example_normal (1, 0, 0, 0)%nat.
Proof.
  split; [vm_compute; reflexivity |].
  split; [vm_compute; reflexivity |].
  split; [vm_compute; reflexivity |].
  vm_compute. discriminate.
Qed.

(** ** Normal mode: clipping and recuperation *)

(** C2, amended.  At every time step and for every variant the power at the
    wheels is clipped to be non-negative, the recuperated power is
    [braking_loss * recuperation_efficiency * velocity] clipped to
    [[0, motor_power * 1000]] (for a motor power that is not negative), and
    the net power is their difference: it is not clipped again, and its
    lower bound is [- motor_power * 1000]. *)
Theorem recuperation_invariants
    (np_sin : Q -> Q) (self : EnergyConsumptionModel) (sh so : shape4)
    (driving_mass rr_coef drag_coef frontal_area ttw_efficiency
     recuperation_efficiency motor_power : pyval) :
  aligned self ->
  broadcast_shapes (transpose_shape sh) (series_shape self) = Some so ->
  parameter_tensors sh
    [driving_mass; rr_coef; drag_coef; frontal_area; ttw_efficiency;
     recuperation_efficiency; motor_power] ->
  (forall ix, 0 <= param motor_power ix) ->
  exists f p out,
    resistances np_sin self driving_mass rr_coef drag_coef frontal_area = Ok f
    /\ wheel_powers self f recuperation_efficiency motor_power = Ok p
    /\ motive_energy_per_km np_sin self driving_mass rr_coef drag_coef
         frontal_area ttw_efficiency recuperation_efficiency motor_power false
       = Ok (Energy out)
    /\ forall ix,
         0 <= pget (p_total_power p) ix /\
         pget (p_recuperated_power p) ix ==
           spec_recuperated_power (vel self ix) (acc self ix)
             (param driving_mass ix) (param recuperation_efficiency ix)
             (param motor_power ix) /\
         0 <= pget (p_recuperated_power p) ix <= param motor_power ix * 1000 /\
         pget (p_net_power p) ix ==
           pget (p_total_power p) ix - pget (p_recuperated_power p) ix /\
         - (param motor_power ix * 1000) <= pget (p_net_power p) ix /\
         pget out ix ==
           pget (p_net_power p) ix / dist_km self ix
           / param ttw_efficiency ix / 1000.
Proof.
  intros Hal Hso Hp Hm. split_tensors Hp.
  destruct (motive_energy_ok np_sin self sh so Hal Hso driving_mass rr_coef
              drag_coef frontal_area ttw_efficiency recuperation_efficiency
              motor_power A A0 A1 A2 A3 A4 A5)
    as (f & p & out & Ef & Ep & Ho & Ao).
  exists f, p, out. repeat (split; [assumption |]). intros ix.
  destruct (wheel_powers_spec self recuperation_efficiency motor_power f p
              Ep ix) as (Ht & Hr & Hn).
  destruct (resistances_spec np_sin self driving_mass rr_coef drag_coef
              frontal_area f Ef ix) as (_ & _ & _ & _ & Hb & _).
  destruct (motive_energy_inv np_sin self driving_mass rr_coef drag_coef
              frontal_area ttw_efficiency recuperation_efficiency
              motor_power out Ho) as (f' & p' & Ef' & Ep' & Hout).
  assert (f' = f) by congruence. subst f'.
  assert (p' = p) by congruence. subst p'.
  assert (Hlim : 0 <= param motor_power ix * 1000)
    by (specialize (Hm ix); nra).
  pose proof (clip0_bounds
                (pget (f_braking_loss f) ix * param recuperation_efficiency ix
                 * vel self ix) _ Hlim) as Hc.
  rewrite <- Hr in Hc.
  assert (H0 : 0 <= pget (p_total_power p) ix)
    by (rewrite Ht; apply Qmax_0_nonneg).
  split; [assumption |]. split.
  { rewrite Hr. unfold spec_recuperated_power, clip0. rewrite Hb. reflexivity. }
  split; [assumption |]. split; [rewrite Hn; reflexivity |].
  split; [rewrite Hn; lra |]. rewrite Hout. reflexivity.
Qed.

Lemma recuperation_invariants_witness :
  exists f p out,
    resistances example_sin example_model (example_tensor 10000)
      (example_tensor 0.006) (example_tensor 0.6) (example_tensor 8) = Ok f
    /\ wheel_powers example_model f (example_tensor 0.5) (example_tensor 100)
       = Ok p
    /\ example_normal = Ok (Energy out)
    /\ forall ix,
         0 <= pget (p_total_power p) ix /\
         pget (p_recuperated_power p) ix ==
           spec_recuperated_power (vel example_model ix) (acc example_model ix)
             (param (example_tensor 10000) ix) (param (example_tensor 0.5) ix)
             (param (example_tensor 100) ix) /\
         0 <= pget (p_recuperated_power p) ix
           <= param (example_tensor 100) ix * 1000 /\
         pget (p_net_power p) ix ==
           pget (p_total_power p) ix - pget (p_recuperated_power p) ix /\
         - (param (example_tensor 100) ix * 1000) <= pget (p_net_power p) ix /\
         pget out ix ==
           pget (p_net_power p) ix / dist_km example_model ix
           / param (example_tensor 0.4) ix / 1000.
Proof.
  apply (recuperation_invariants example_sin example_model
           (6, 1, 1, 1)%nat (4, 1, 1, 6)%nat).
  - split; reflexivity.
  - reflexivity.
  - repeat constructor; apply is_array_intro.
  - intros ix. vm_compute. discriminate.
Defined.

(** C2 as stated fails: while the example vehicle brakes (time step 1) the
    clipped power is 0 and 100 kW are recuperated, so the net power and the
    energy returned for that step are negative. *)
Lemma net_power_negative_while_braking :
  is_ok example_powers = true /\
  power_at p_total_power example_powers (1, 0, 0, 0)%nat == 0 /\
  power_at p_recuperated_power example_powers (1, 0, 0, 0)%nat == 100000 /\
  power_at p_net_power example_powers (1, 0, 0, 0)%nat == -100000 /\
  power_at p_net_power example_powers (1, 0, 0, 0)%nat < 0 /\
  energy_at example_normal (1, 0, 0, 0)%nat < 0.
Proof.
  repeat split; vm_compute; reflexivity.
Qed.

(** ** The two modes compared *)

Lemma modes_pointwise
    (np_sin : Q -> Q) (self : EnergyConsumptionModel)
    (driving_mass rr_coef drag_coef frontal_area ttw_efficiency
     recuperation_efficiency motor_power : pyval)
    (r a g i b p e out : pyval) :
  motive_energy_per_km np_sin self driving_mass rr_coef drag_coef
    frontal_area ttw_efficiency recuperation_efficiency motor_power true
  = Ok (Debug r a g i b p e) ->
  motive_energy_per_km np_sin self driving_mass rr_coef drag_coef
    frontal_area ttw_efficiency recuperation_efficiency motor_power false
  = Ok (Energy out) ->
  forall ix,
    pget p ix == Qmax (pget r ix + pget a ix + pget g ix + pget i ix) 0 /\
    pget e ix == pget p ix / param ttw_efficiency ix / 1000 /\
    pget out ix ==
      (pget p ix
       - recuperated_from_debug b recuperation_efficiency motor_power ix)
      / dist_km self ix / param ttw_efficiency ix / 1000.
Proof.
  intros Hd Hn ix.
  destruct (debug_inv np_sin self driving_mass rr_coef drag_coef frontal_area
              ttw_efficiency recuperation_efficiency motor_power
              r a g i b p e Hd) as (f & Ef & Hdbg).
  destruct (motive_energy_inv np_sin self driving_mass rr_coef drag_coef
              frontal_area ttw_efficiency recuperation_efficiency
              motor_power out Hn) as (f' & w & Ef' & Ew & Hout).
  assert (f' = f) by congruence. subst f'.
  destruct (Hdbg ix) as (Hr & Ha & Hg & Hi & Hb & Hp & He).
  destruct (wheel_powers_spec self recuperation_efficiency motor_power f w
              Ew ix) as (Wt & Wr & Wn).
  destruct (resistances_spec np_sin self driving_mass rr_coef drag_coef
              frontal_area f Ef ix) as (_ & _ & _ & _ & _ & Hsum).
  split; [| split].
  - rewrite Hp, Hr, Ha, Hg, Hi. apply Q.max_compat; [| reflexivity].
    rewrite Hsum. ring.
  - rewrite He. reflexivity.
  - rewrite Hout, Wn, Wt, Wr, Hp. unfold recuperated_from_debug.
    rewrite Hb.
    rewrite (clip0_compat
               (pget (f_braking_loss f) ix * param recuperation_efficiency ix
                * vel self ix)
               (pget (f_braking_loss f) ix * vel self ix
                * param recuperation_efficiency ix)
               (param motor_power ix * 1000) (param motor_power ix * 1000));
      [reflexivity | ring | reflexivity].
Qed.

(** C3, amended.  Where both modes succeed, the total power of the debug
    mode is the clipped sum of its four force components and its energy is
    that power by the efficiency and by 1000 (no recuperation, no
    distance); every element of the normal-mode tensor is that power less
    the recuperated power, by the distance, the efficiency and 1000.  Summed
    over any number of time steps, the normal-mode tensor is the energy
    recomputed from the debug components less the recuperated share, and
    the two agree where nothing is recuperated. *)
Theorem debug_mode_matches_normal_mode
    (np_sin : Q -> Q) (self : EnergyConsumptionModel)
    (driving_mass rr_coef drag_coef frontal_area ttw_efficiency
     recuperation_efficiency motor_power : pyval)
    (r a g i b p e out : pyval) :
  motive_energy_per_km np_sin self driving_mass rr_coef drag_coef
    frontal_area ttw_efficiency recuperation_efficiency motor_power true
  = Ok (Debug r a g i b p e) ->
  motive_energy_per_km np_sin self driving_mass rr_coef drag_coef
    frontal_area ttw_efficiency recuperation_efficiency motor_power false
  = Ok (Energy out) ->
  forall ix,
    pget p ix == Qmax (pget r ix + pget a ix + pget g ix + pget i ix) 0 /\
    pget e ix == pget p ix / param ttw_efficiency ix / 1000 /\
    pget out ix ==
      (pget p ix
       - recuperated_from_debug b recuperation_efficiency motor_power ix)
      / dist_km self ix / param ttw_efficiency ix / 1000 /\
    forall n,
      time_sum n (fun t => pget out (at_time ix t)) ==
        energy_from_debug self ttw_efficiency (Debug r a g i b p e) n ix
        - time_sum n (fun t =>
            recuperated_from_debug b recuperation_efficiency motor_power
              (at_time ix t)
            / dist_km self ix / param ttw_efficiency (at_time ix t) / 1000) /\
      ((forall t,
          recuperated_from_debug b recuperation_efficiency motor_power
            (at_time ix t) == 0) ->
       time_sum n (fun t => pget out (at_time ix t)) ==
         energy_from_debug self ttw_efficiency (Debug r a g i b p e) n ix).
Proof.
  intros Hd Hn ix.
  pose proof (modes_pointwise np_sin self driving_mass rr_coef drag_coef
                frontal_area ttw_efficiency recuperation_efficiency
                motor_power r a g i b p e out Hd Hn) as Hpt.
  destruct (Hpt ix) as (H1 & H2 & H3).
  repeat (split; [assumption |]). intros n.
  assert (Hsum :
    time_sum n (fun t => pget out (at_time ix t)) ==
      energy_from_debug self ttw_efficiency (Debug r a g i b p e) n ix
      - time_sum n (fun t =>
          recuperated_from_debug b recuperation_efficiency motor_power
            (at_time ix t)
          / dist_km self ix / param ttw_efficiency (at_time ix t) / 1000)).
  { cbn [energy_from_debug].
    rewrite <- time_sum_div, <- time_sum_minus.
    apply time_sum_ext. intros t. cbv zeta.
    destruct (Hpt (at_time ix t)) as (T1 & _ & T3).
    rewrite T3, dist_km_at_time, <- T1. unfold Qdiv. ring. }
  split; [exact Hsum |].
  intros Hz. rewrite Hsum, (time_sum_zero n); [ring |].
  intros t. rewrite (Hz t). unfold Qdiv. ring.
Qed.

Lemma debug_mode_matches_normal_mode_witness :
  pget (component 5 example_components) braking_step ==
    Qmax (pget (component 0 example_components) braking_step
          + pget (component 1 example_components) braking_step
          + pget (component 2 example_components) braking_step
          + pget (component 3 example_components) braking_step) 0 /\
  pget (component 6 example_components) braking_step ==
    pget (component 5 example_components) braking_step
    / param (example_tensor 0.4) braking_step / 1000 /\
  pget example_energy braking_step ==
    (pget (component 5 example_components) braking_step
     - recuperated_from_debug (component 4 example_components)
         (example_tensor 0.5) (example_tensor 100) braking_step)
    / dist_km example_model braking_step
    / param (example_tensor 0.4) braking_step / 1000 /\
  forall n,
    time_sum n (fun t => pget example_energy (at_time braking_step t)) ==
      energy_from_debug example_model (example_tensor 0.4)
        (Debug (component 0 example_components)
           (component 1 example_components) (component 2 example_components)
           (component 3 example_components) (component 4 example_components)
           (component 5 example_components) (component 6 example_components))
        n braking_step
      - time_sum n (fun t =>
          recuperated_from_debug (component 4 example_components)
            (example_tensor 0.5) (example_tensor 100)
            (at_time braking_step t)
          / dist_km example_model braking_step
          / param (example_tensor 0.4) (at_time braking_step t) / 1000) /\
    ((forall t,
        recuperated_from_debug (component 4 example_components)
          (example_tensor 0.5) (example_tensor 100)
          (at_time braking_step t) == 0) ->
     time_sum n (fun t => pget example_energy (at_time braking_step t)) ==
       energy_from_debug example_model (example_tensor 0.4)
         (Debug (component 0 example_components)
            (component 1 example_components) (component 2 example_components)
            (component 3 example_components) (component 4 example_components)
            (component 5 example_components) (component 6 example_components))
         n braking_step).
Proof.
  apply (debug_mode_matches_normal_mode example_sin example_model
           (example_tensor 10000) (example_tensor 0.006) (example_tensor 0.6)
           (example_tensor 8) (example_tensor 0.4) (example_tensor 0.5)
           (example_tensor 100)).
  - reflexivity.
  - reflexivity.
Defined.

(** C3 as stated fails: for the example the energy recomputed from the
    debug components is 1096.95 kJ/km, while the tensor of the normal mode
    holds -12500 at the braking step and sums to -11403.05 over time. *)
Lemma debug_mode_differs_from_normal_mode :
  is_ok example_debug = true /\
  is_ok example_normal = true /\
  energy_from_debug example_model (example_tensor 0.4)
    (output_of example_debug) 4 (0, 0, 0, 0)%nat == 1096.95 /\
  energy_at example_normal (1, 0, 0, 0)%nat == -12500 /\
  time_sum 4 (fun t => energy_at example_normal (t, 0, 0, 0)%nat)
    == -11403.05.
Proof.
  repeat split; vm_compute; reflexivity.
Qed.

(** ** The default arguments *)

(** C9: with the declared defaults [recuperation_efficiency=0] and
    [motor_power=0] the normal mode ends in [AttributeError], as the code
    reads [.values] of both; the debug mode, which reads neither, returns. *)
Theorem default_arguments_raise_AttributeError
    (np_sin : Q -> Q) (self : EnergyConsumptionModel) (sh so : shape4)
    (driving_mass rr_coef drag_coef frontal_area ttw_efficiency : pyval) :
  aligned self ->
  broadcast_shapes (transpose_shape sh) (series_shape self) = Some so ->
  parameter_tensors sh
    [driving_mass; rr_coef; drag_coef; frontal_area; ttw_efficiency] ->
  motive_energy_per_km np_sin self driving_mass rr_coef drag_coef
    frontal_area ttw_efficiency (PyNum 0) (PyNum 0) false
  = Err AttributeError /\
  succeeds
    (motive_energy_per_km np_sin self driving_mass rr_coef drag_coef
       frontal_area ttw_efficiency (PyNum 0) (PyNum 0) true).
Proof.
  intros Hal Hso Hp. split_tensors Hp. split.
  - destruct (resistances_ok np_sin self sh so Hal Hso driving_mass rr_coef
                drag_coef frontal_area A A0 A1 A2)
      as (f & Ef & (Fr & Fa & Fg & Fi & Fb & Ft)).
    destruct (shape_facts self sh so Hso) as (Hs1 & Hs2 & Hs3 & Hs4).
    unfold motive_energy_per_km. rewrite Ef. cbn [bind negb].
    unfold wheel_powers. unfold_ops. run_step. reflexivity.
  - destruct (debug_ok np_sin self sh so Hal Hso driving_mass rr_coef
                drag_coef frontal_area ttw_efficiency (PyNum 0) (PyNum 0)
                A A0 A1 A2 A3) as (o & Ho & _).
    now exists o.
Qed.

Lemma default_arguments_raise_AttributeError_witness :
  motive_energy_per_km example_sin example_model (example_tensor 10000)
    (example_tensor 0.006) (example_tensor 0.6) (example_tensor 8)
    (example_tensor 0.4) (PyNum 0) (PyNum 0) false
  = Err AttributeError /\
  succeeds
    (motive_energy_per_km example_sin example_model (example_tensor 10000)
       (example_tensor 0.006) (example_tensor 0.6) (example_tensor 8)
       (example_tensor 0.4) (PyNum 0) (PyNum 0) true).
Proof.
  apply (default_arguments_raise_AttributeError example_sin example_model
           (6, 1, 1, 1)%nat (4, 1, 1, 6)%nat).
  - split; reflexivity.
  - reflexivity.
  - repeat constructor; apply is_array_intro.
Defined.

(** ** The auxiliary energy *)

Lemma join_Ndarray_r (k : container) : join k Ndarray = k.
Proof. now destruct k. Qed.

Lemma aux_energy_ok (self : EnergyConsumptionModel) (aux_power : pyval)
    (k : container) (sh so : shape4) (e : Q) :
  is_array aux_power k sh ->
  broadcast_shapes (transpose_shape sh) (1, 1, 1, 6)%nat = Some so ->
  exists out,
    aux_energy_per_km self aux_power (PyNum e) = Ok out /\
    is_array out k (transpose_shape so) /\
    forall ix,
      pget out ix =
        pget aux_power ix * seconds self / metres self ix * 1000 / 1000 / e.
Proof.
  intros Aa Hso.
  assert (Hs : broadcast_shapes so (1, 1, 1, 6)%nat = Some so)
    by (eapply broadcast_shapes_absorb_r, Hso).
  assert (Ad : is_array (PyArr Ndarray (sum_axis0 (velocity self))) Ndarray
                 (1, 1, 1, 6)%nat) by apply is_array_intro.
  assert (exists out, aux_energy_per_km self aux_power (PyNum e) = Ok out /\
                      is_array out k (transpose_shape so)) as (out & Ho & Ao).
  { unfold aux_energy_per_km. unfold_ops. repeat run_step.
    rewrite join_Ndarray_r in A4.
    destruct (py_T_arr z4 _ _ A4) as (out & Eo & Ao).
    exists out. split; assumption. }
  exists out. split; [assumption |]. split; [assumption |]. intros ix.
  unfold aux_energy_per_km in Ho. unfold_ops.
  apply bind_Ok in Ho. destruct Ho as (x & E & Ho).
  inv_binds Ho. pget_facts. pget_rewrite.
  rewrite transpose_index_involutive. reflexivity.
Qed.

(** C4.  For an [aux_power] tensor that broadcasts against the six distance
    sums and an efficiency in (0, 1], [aux_energy_per_km] returns, in the
    layout of [aux_power], [aux_power * seconds / metres * 1000 / 1000 /
    efficiency], where [seconds] is the number of rows of the velocity and
    [metres] the sum of the velocity column of the size class; with
    efficiency 1 and 1000 W over N seconds and D metres that is
    [1000 * N / D]. *)
Theorem aux_energy_per_km_formula (self : EnergyConsumptionModel)
    (aux_power : pyval) (k : container) (sh so : shape4) (efficiency : Q) :
  is_array aux_power k sh ->
  broadcast_shapes (transpose_shape sh) (1, 1, 1, 6)%nat = Some so ->
  0 < efficiency <= 1 ->
  exists out,
    aux_energy_per_km self aux_power (PyNum efficiency) = Ok out /\
    is_array out k (transpose_shape so) /\
    (forall ix,
       pget out ix =
         pget aux_power ix * seconds self / metres self ix * 1000 / 1000
         / efficiency) /\
    (efficiency == 1 ->
     forall ix, pget aux_power ix == 1000 -> ~ metres self ix == 0 ->
       pget out ix == 1000 * seconds self / metres self ix) /\
    forall c p y v, metres self (c, p, y, v) = column_sum (velocity self) c.
Proof.
  intros Aa Hso He.
  destruct (aux_energy_ok self aux_power k sh so efficiency Aa Hso)
    as (out & Ho & Ao & Hf).
  exists out. repeat (split; [assumption |]). split.
  - intros H1 ix Hp Hd. rewrite Hf, Hp, H1. field. assumption.
  - apply metres_column.
Qed.

Lemma aux_energy_per_km_formula_witness :
  exists out,
    aux_energy_per_km example_model (example_tensor 1000) (PyNum 1) = Ok out /\
    is_array out DataArray (transpose_shape (1, 1, 1, 6)%nat) /\
    (forall ix,
       pget out ix =
         pget (example_tensor 1000) ix * seconds example_model
         / metres example_model ix * 1000 / 1000 / 1) /\
    (1 == 1 ->
     forall ix, pget (example_tensor 1000) ix == 1000 ->
       ~ metres example_model ix == 0 ->
       pget out ix == 1000 * seconds example_model / metres example_model ix)
    /\
    forall c p y v,
      metres example_model (c, p, y, v)
      = column_sum (velocity example_model) c.
Proof.
  apply (aux_energy_per_km_formula example_model (example_tensor 1000)
           DataArray (6, 1, 1, 1)%nat (1, 1, 1, 6)%nat 1).
  - apply is_array_intro.
  - reflexivity.
  - split; [reflexivity | discriminate].
Defined.

(** ** What the methods check *)

Lemma resistances_mismatch
    (np_sin : Q -> Q) (self : EnergyConsumptionModel) (sh : shape4)
    (driving_mass rr_coef drag_coef frontal_area : pyval) :
  parameter_tensors sh [driving_mass; rr_coef; drag_coef; frontal_area] ->
  broadcast_shapes (transpose_shape sh) (series_shape self) = None ->
  resistances np_sin self driving_mass rr_coef drag_coef frontal_area
  = Err ValueError.
Proof.
  intros Hp Hno. split_tensors Hp.
  destruct (py_binop_arr Qmult driving_mass rr_coef _ _ _ _ _ A A0
              (broadcast_shapes_refl sh) (or_intror (or_intror eq_refl)))
    as (z & Ez & Az).
  destruct (py_binop_num_r Qmult z 9.81 _ _ Az) as (z0 & Ez0 & Az0).
  destruct (py_T_arr z0 _ _ Az0) as (z1 & Ez1 & Az1).
  unfold resistances. unfold_ops.
  rewrite Ez; cbn [bind]. rewrite Ez0; cbn [bind]. rewrite Ez1; cbn [bind].
  rewrite (py_binop_mismatch Qmult z1
             (PyArr Ndarray (ones_like (to_ndarray (velocity self))))
             _ _ _ _ Az1 (is_array_intro _ _) Hno).
  reflexivity.
Qed.

(** C8, amended.  Neither method validates its arguments: whether a call
    returns depends on the containers and shapes alone.  With DataArray
    parameters of one broadcastable shape [motive_energy_per_km] returns in
    both modes whatever the coefficients and the efficiency are; with
    parameters whose shape does not broadcast against the series it ends in
    numpy's [ValueError]; and [aux_energy_per_km] returns for every numeric
    efficiency. *)
Theorem no_input_validation
    (np_sin : Q -> Q) (self : EnergyConsumptionModel) (sh so : shape4)
    (driving_mass rr_coef drag_coef frontal_area ttw_efficiency
     recuperation_efficiency motor_power : pyval)
    (aux_power : pyval) (k : container) (sh_aux so_aux : shape4) :
  aligned self ->
  broadcast_shapes (transpose_shape sh) (series_shape self) = Some so ->
  parameter_tensors sh
    [driving_mass; rr_coef; drag_coef; frontal_area; ttw_efficiency;
     recuperation_efficiency; motor_power] ->
  is_array aux_power k sh_aux ->
  broadcast_shapes (transpose_shape sh_aux) (1, 1, 1, 6)%nat = Some so_aux ->
  (forall debug_mode,
     succeeds
       (motive_energy_per_km np_sin self driving_mass rr_coef drag_coef
          frontal_area ttw_efficiency recuperation_efficiency motor_power
          debug_mode)) /\
  (forall efficiency,
     succeeds (aux_energy_per_km self aux_power (PyNum efficiency))) /\
  (forall sh' m' rr' cd' area' ttw' rec' mp' debug_mode,
     parameter_tensors sh' [m'; rr'; cd'; area'] ->
     broadcast_shapes (transpose_shape sh') (series_shape self) = None ->
     motive_energy_per_km np_sin self m' rr' cd' area' ttw' rec' mp' debug_mode
     = Err ValueError).
Proof.
  intros Hal Hso Hp Aa Hsa. split_tensors Hp. split; [| split].
  - intros [|].
    + destruct (debug_ok np_sin self sh so Hal Hso driving_mass rr_coef
                  drag_coef frontal_area ttw_efficiency
                  recuperation_efficiency motor_power A A0 A1 A2 A3)
        as (o & Ho & _).
      now exists o.
    + destruct (motive_energy_ok np_sin self sh so Hal Hso driving_mass
                  rr_coef drag_coef frontal_area ttw_efficiency
                  recuperation_efficiency motor_power A A0 A1 A2 A3 A4 A5)
        as (f & p & out & _ & _ & Ho & _).
      now exists (Energy out).
  - intros e.
    destruct (aux_energy_ok self aux_power k sh_aux so_aux e Aa Hsa)
      as (out & Ho & _).
    now exists out.
  - intros sh' m' rr' cd' area' ttw' rec' mp' dbg Hp' Hno.
    unfold motive_energy_per_km.
    now rewrite (resistances_mismatch np_sin self sh' m' rr' cd' area' Hp' Hno).
Qed.

Lemma no_input_validation_witness :
  (forall debug_mode,
     succeeds
       (motive_energy_per_km example_sin example_model (example_tensor 10000)
          (example_tensor 2) (example_tensor 3) (example_tensor 8)
          (example_tensor (-1)) (example_tensor 0.5) (example_tensor 100)
          debug_mode)) /\
  (forall efficiency,
     succeeds
       (aux_energy_per_km example_model (example_tensor 1000)
          (PyNum efficiency))) /\
  (forall sh' m' rr' cd' area' ttw' rec' mp' debug_mode,
     parameter_tensors sh' [m'; rr'; cd'; area'] ->
     broadcast_shapes (transpose_shape sh') (series_shape example_model)
     = None ->
     motive_energy_per_km example_sin example_model m' rr' cd' area' ttw'
       rec' mp' debug_mode
     = Err ValueError).
Proof.
  apply (no_input_validation example_sin example_model
           (6, 1, 1, 1)%nat (4, 1, 1, 6)%nat
           (example_tensor 10000) (example_tensor 2) (example_tensor 3)
           (example_tensor 8) (example_tensor (-1)) (example_tensor 0.5)
           (example_tensor 100)
           (example_tensor 1000) DataArray (6, 1, 1, 1)%nat (1, 1, 1, 6)%nat).
  - split; reflexivity.
  - reflexivity.
  - repeat constructor; apply is_array_intro.
  - apply is_array_intro.
  - reflexivity.
Defined.

(** C8 as stated fails: a rolling resistance coefficient of 2, a drag
    coefficient of 3 and an efficiency of -1 are accepted, tensors for five
    size classes end in [ValueError], and an auxiliary efficiency of -1
    gives -200 kJ/km. *)
Lemma out_of_range_arguments_are_accepted :
  is_ok
    (motive_energy_per_km example_sin example_model (example_tensor 10000)
       (example_tensor 2) (example_tensor 3) (example_tensor 8)
       (example_tensor (-1)) (example_tensor 0.5) (example_tensor 100) false)
  = true /\
  motive_energy_per_km example_sin example_model (example_short_tensor 10000)
    (example_short_tensor 0.006) (example_short_tensor 0.6)
    (example_short_tensor 8) (example_short_tensor 0.4)
    (example_short_tensor 0.5) (example_short_tensor 100) false
  = Err ValueError /\
  is_ok (aux_energy_per_km example_model (example_tensor 1000) (PyNum (-1)))
  = true /\
  pget (match aux_energy_per_km example_model (example_tensor 1000)
                (PyNum (-1)) with
        | Ok x => x
        | Err _ => PyNum 0
        end) (0, 0, 0, 0)%nat == -200.
Proof.
  repeat split; vm_compute; reflexivity.
Qed.

(** * Further properties *)

(** ** The constructor: failures and what is stored *)

(** X1.  When the lookup of a named cycle raises, the constructor raises
    too: a [KeyError] is caught and replaced by the [TypeError] of the
    [raise] of a string, and every other exception leaves unchanged. *)
Theorem cycle_lookup_failure
    (get_standard_driving_cycle get_gradients : string -> result (list Q))
    (name : string) (e : exn) (rho : Q) :
  get_standard_driving_cycle name = Err e ->
  init get_standard_driving_cycle get_gradients (CycleStr name) rho
  = Err (match e with KeyError => TypeError | _ => e end).
Proof.
  intros H. unfold init, resolve_cycle. rewrite H. destruct e; reflexivity.
Qed.

Lemma cycle_lookup_failure_witness :
  init example_registry example_gradients (CycleStr "nonexistent-cycle-xyz")
    default_rho_air
  = Err TypeError.
Proof.
  apply (cycle_lookup_failure example_registry example_gradients
           "nonexistent-cycle-xyz" KeyError default_rho_air).
  reflexivity.
Defined.

(** X2.  The gradients are looked up under the name of the cycle, which is
    ["custom"] for every array, and before any size is checked: when that
    lookup raises, the constructor raises the same exception, whatever the
    samples of the cycle are. *)
Theorem gradient_lookup_failure
    (get_standard_driving_cycle get_gradients : string -> result (list Q))
    (c : cycle_input) (name : string) (data : list Q) (e : exn) (rho : Q) :
  resolve_cycle get_standard_driving_cycle c = Ok (name, data) ->
  get_gradients name = Err e ->
  init get_standard_driving_cycle get_gradients c rho = Err e /\
  (forall data', c = CycleNdarray data' -> name = "custom"%string) /\
  (forall name', c = CycleStr name' -> name = name').
Proof.
  intros Hr Hg. split; [| split].
  - unfold init. rewrite Hr. cbn [bind fst snd]. rewrite Hg. reflexivity.
  - intros data' ->. simpl in Hr. now injection Hr as <- _.
  - intros name' ->. simpl in Hr.
    destruct (get_standard_driving_cycle name') as [d|[]]; try discriminate.
    now injection Hr as <- _.
Qed.

Lemma gradient_lookup_failure_witness :
  init example_registry no_gradients (CycleNdarray [1; 2; 3]) default_rho_air
  = Err KeyError.
Proof.
  apply (gradient_lookup_failure example_registry no_gradients
           (CycleNdarray [1; 2; 3]) "custom" [1; 2; 3] KeyError
           default_rho_air).
  - reflexivity.
  - reflexivity.
Defined.

(** X3.  A model that was built keeps the samples it was given: read row
    after row, its cycle is the input and its gradient is what the lookup
    returned; the gradient name is the cycle name, and the air density is
    the argument. *)
Theorem constructor_keeps_its_input
    (get_standard_driving_cycle get_gradients : string -> result (list Q))
    (c : cycle_input) (rho : Q) (self : EnergyConsumptionModel)
    (name : string) (data g : list Q) :
  init get_standard_driving_cycle get_gradients c rho = Ok self ->
  resolve_cycle get_standard_driving_cycle c = Ok (name, data) ->
  get_gradients name = Ok g ->
  concat (cycle self) = data /\
  concat (gradient self) = g /\
  cycle_name self = name /\
  gradient_name self = cycle_name self /\
  rho_air self = rho.
Proof.
  intros H Hr Hg. apply init_inv in H.
  destruct H as (n' & d' & g' & Hr' & Hg' & Mg & Md & Hn & Hgn & Hrho
                 & Hgs & Hcs & _).
  rewrite Hr in Hr'. injection Hr' as <- <-.
  rewrite Hg in Hg'. injection Hg' as <-.
  rewrite Hcs, Hgs, Hn, Hgn.
  repeat split; try assumption; now apply concat_rows_of_6.
Qed.

Lemma constructor_keeps_its_input_witness :
  concat (cycle example_model) = example_cycle /\
  concat (gradient example_model) = repeat 0 24 /\
  cycle_name example_model = "custom"%string /\
  gradient_name example_model = cycle_name example_model /\
  rho_air example_model = default_rho_air.
Proof.
  apply (constructor_keeps_its_input example_registry example_gradients
           (CycleNdarray example_cycle) default_rho_air example_model
           "custom" example_cycle (repeat 0 24)).
  - reflexivity.
  - reflexivity.
  - reflexivity.
Defined.

(** ** The constructor: the series it derives *)

Lemma nth_nonneg (s : series) :
  Forall (Forall (fun x => 0 <= x)) s ->
  forall t c, 0 <= nth c (nth t s []) 0.
Proof.
  intros H t c. rewrite Forall_forall in H.
  destruct (Nat.lt_ge_cases t (length s)) as [Ht|Ht].
  - pose proof (H _ (nth_In s [] Ht)) as Hrow. rewrite Forall_forall in Hrow.
    destruct (Nat.lt_ge_cases c (length (nth t s []))) as [Hc|Hc].
    + apply Hrow, nth_In, Hc.
    + rewrite nth_overflow by assumption. apply Qle_refl.
  - rewrite (nth_overflow s) by assumption. destruct c; apply Qle_refl.
Qed.

Lemma column_sum_nonneg (s : series) (c : nat) :
  (forall t, 0 <= nth c (nth t s []) 0) -> 0 <= column_sum s c.
Proof.
  unfold column_sum. intros H.
  assert (G : forall a, 0 <= a ->
                0 <= fold_left (fun acc row => acc + nth c row 0) s a).
  { induction s as [|row s IH]; intros a Ha; simpl; [assumption |].
    apply IH.
    - intros t. apply (H (S t)).
    - pose proof (H 0%nat) as H0. simpl in H0. lra. }
  apply G, Qle_refl.
Qed.

(** X4.  Speeds that are not negative give velocities that are not
    negative, and so a distance that is not negative for every size
    class, as long as the products by 1000 do not overflow: for a cycle of
    floats, and for a cycle of 64-bit integers whose samples times 1000 are
    64-bit integers. *)
Theorem velocity_is_not_negative
    (get_standard_driving_cycle get_gradients : string -> result (list Q))
    (c : cycle_input) (rho : Q) (self : EnergyConsumptionModel)
    (name : string) (data : list Q) :
  init get_standard_driving_cycle get_gradients c rho = Ok self ->
  resolve_cycle get_standard_driving_cycle c = Ok (name, data) ->
  Forall (fun x => 0 <= x) data ->
  no_overflow c ->
  (forall t col, 0 <= nth col (nth t (velocity self) []) 0) /\
  (forall col, 0 <= column_sum (velocity self) col).
Proof.
  intros H Hr Hd Hfit.
  pose proof (init_inv_exact _ _ c rho self H Hfit) as Hv.
  apply init_inv in H.
  destruct H as (n' & d' & g' & Hr' & _ & _ & _ & _ & _ & _ & _ & Hcs
                 & _ & _).
  rewrite Hr in Hr'. injection Hr' as <- <-.
  assert (Hrows : Forall (Forall (fun x => 0 <= x)) (velocity self)).
  { rewrite Hv, Hcs. unfold series_map. apply Forall_map.
    eapply Forall_impl; [| apply rows_of_6_Forall, Hd].
    intros row Hrow. apply Forall_map.
    eapply Forall_impl; [| exact Hrow].
    intros x Hx. cbv beta in Hx |- *.
    apply Qle_shift_div_l; [reflexivity | lra]. }
  split.
  - now apply nth_nonneg.
  - intros col. apply column_sum_nonneg. intros t. now apply nth_nonneg.
Qed.

Lemma velocity_is_not_negative_witness :
  (forall t col, 0 <= nth col (nth t (velocity integer_model) []) 0) /\
  (forall col, 0 <= column_sum (velocity integer_model) col).
Proof.
  apply (velocity_is_not_negative example_registry example_gradients
           (CycleIntNdarray integer_cycle) default_rho_air integer_model
           "custom" (map inject_Z integer_cycle)).
  - reflexivity.
  - reflexivity.
  - repeat constructor; discriminate.
  - repeat constructor; discriminate.
Defined.

Lemma init_velocity_rows
    (get_standard_driving_cycle get_gradients : string -> result (list Q))
    (c : cycle_input) (rho : Q) (self : EnergyConsumptionModel) :
  init get_standard_driving_cycle get_gradients c rho = Ok self ->
  Forall (fun row => length row = 6%nat) (velocity self) /\
  acceleration self = acceleration_of (velocity self).
Proof.
  intros H. apply init_inv in H.
  destruct H as (name & data & g & _ & _ & _ & _ & _ & _ & _ & _ & Hcs
                 & Hv & Ha).
  split; [| assumption].
  rewrite Hv. apply series_map_rows. rewrite Hcs. apply rows_of_6_rows.
Qed.

Lemma nth_zero_row (c : nat) : nth c [0; 0; 0; 0; 0; 0] 0 = 0.
Proof. do 7 (destruct c as [|c]; [reflexivity |]). reflexivity. Qed.

(** X5.  A cycle of one or two rows has no interior time step: its
    acceleration is zero throughout. *)
Theorem short_cycle_has_no_acceleration
    (get_standard_driving_cycle get_gradients : string -> result (list Q))
    (c : cycle_input) (rho : Q) (self : EnergyConsumptionModel) :
  init get_standard_driving_cycle get_gradients c rho = Ok self ->
  (length (velocity self) <= 2)%nat ->
  forall t, (t < length (velocity self))%nat ->
    nth t (acceleration self) [] = [0; 0; 0; 0; 0; 0].
Proof.
  intros H Hlen t Ht.
  destruct (init_velocity_rows _ _ _ _ _ H) as [Rv ->].
  destruct t as [|t].
  - apply acceleration_first; [assumption | lia].
  - replace (S t) with (length (velocity self) - 1)%nat by lia.
    apply acceleration_last; [assumption | lia].
Qed.

Lemma short_cycle_has_no_acceleration_witness :
  nth 1 (acceleration two_row_model) [] = [0; 0; 0; 0; 0; 0].
Proof.
  apply (short_cycle_has_no_acceleration example_registry (flat_gradients 12)
           (CycleNdarray (repeat 50 12)) default_rho_air two_row_model).
  - reflexivity.
  - simpl. lia.
  - simpl. lia.
Defined.

Lemma acceleration_of_constant_column (v : series) (col : nat) :
  Forall (fun row => length row = 6%nat) v ->
  (col < 6)%nat ->
  (forall t u, (t < length v)%nat -> (u < length v)%nat ->
     nth col (nth t v []) 0 == nth col (nth u v []) 0) ->
  forall t, nth col (nth t (acceleration_of v) []) 0 == 0.
Proof.
  intros Rv Hcol Hconst t.
  destruct (Nat.lt_ge_cases t (length v)) as [Ht|Ht].
  - destruct (Nat.eq_dec t 0) as [-> | Ht0].
    + rewrite acceleration_first by (assumption || lia).
      now rewrite nth_zero_row.
    + destruct (Nat.eq_dec t (length v - 1)) as [-> | Htl].
      * rewrite acceleration_last by (assumption || lia).
        now rewrite nth_zero_row.
      * rewrite acceleration_interior by (assumption || lia).
        rewrite (Hconst (t + 1)%nat (t - 1)%nat) by lia.
        unfold Qdiv. ring.
  - rewrite (nth_overflow (acceleration_of v))
      by (rewrite length_acceleration; assumption).
    destruct col; reflexivity.
Qed.

(** X6.  For a size class whose velocity is the same at all time steps,
    the acceleration is zero at all time steps. *)
Theorem constant_velocity_has_no_acceleration
    (get_standard_driving_cycle get_gradients : string -> result (list Q))
    (c : cycle_input) (rho : Q) (self : EnergyConsumptionModel) (col : nat) :
  init get_standard_driving_cycle get_gradients c rho = Ok self ->
  (col < 6)%nat ->
  (forall t u,
     (t < length (velocity self))%nat -> (u < length (velocity self))%nat ->
     nth col (nth t (velocity self) []) 0
     == nth col (nth u (velocity self) []) 0) ->
  forall t, nth col (nth t (acceleration self) []) 0 == 0.
Proof.
  intros H Hcol Hconst.
  destruct (init_velocity_rows _ _ _ _ _ H) as [Rv Ha]. rewrite Ha.
  now apply acceleration_of_constant_column.
Qed.

Lemma constant_velocity_has_no_acceleration_witness :
  nth 2 (nth 1 (acceleration cruise_model) []) 0 == 0.
Proof.
  apply (constant_velocity_has_no_acceleration example_registry
           (flat_gradients 18) (CycleNdarray cruise_cycle) default_rho_air
           cruise_model 2%nat).
  - reflexivity.
  - lia.
  - intros t u Ht Hu.
    change (length (velocity cruise_model)) with 3%nat in Ht, Hu.
    assert (Et : (t = 0 \/ t = 1 \/ t = 2)%nat) by lia.
    assert (Eu : (u = 0 \/ u = 1 \/ u = 2)%nat) by lia.
    destruct Et as [-> | [-> | ->]], Eu as [-> | [-> | ->]]; reflexivity.
Defined.

Lemma acceleration_of_bounded (v : series) (M : Q) :
  Forall (fun row => length row = 6%nat) v ->
  0 <= M ->
  (forall t col, (t < length v)%nat -> (col < 6)%nat ->
     0 <= nth col (nth t v []) 0 <= M) ->
  forall t col, (col < 6)%nat ->
    - (M / 2) <= nth col (nth t (acceleration_of v) []) 0 <= M / 2.
Proof.
  intros Rv HM Hb t col Hcol.
  assert (H0 : - (M / 2) <= 0 <= M / 2).
  { assert (0 <= M / 2) by (apply Qle_shift_div_l; [reflexivity | lra]).
    lra. }
  destruct (Nat.lt_ge_cases t (length v)) as [Ht|Ht].
  - destruct (Nat.eq_dec t 0) as [-> | Ht0].
    + rewrite acceleration_first by (assumption || lia).
      now rewrite nth_zero_row.
    + destruct (Nat.eq_dec t (length v - 1)) as [-> | Htl].
      * rewrite acceleration_last by (assumption || lia).
        now rewrite nth_zero_row.
      * rewrite acceleration_interior by (assumption || lia).
        pose proof (Hb (t + 1)%nat col ltac:(lia) Hcol) as [A1 A2].
        pose proof (Hb (t - 1)%nat col ltac:(lia) Hcol) as [B1 B2].
        split.
        -- apply Qle_shift_div_l; [reflexivity |].
           assert (E : - (M / 2) * 2 == - M) by field. rewrite E. lra.
        -- apply Qle_shift_div_r; [reflexivity |].
           assert (E : M / 2 * 2 == M) by field. rewrite E. lra.
  - rewrite (nth_overflow (acceleration_of v))
      by (rewrite length_acceleration; assumption).
    destruct col; exact H0.
Qed.

(** X7.  The acceleration is bounded by half the largest velocity: where
    every velocity lies between 0 and [M], every acceleration lies between
    [- M / 2] and [M / 2]. *)
Theorem acceleration_is_bounded
    (get_standard_driving_cycle get_gradients : string -> result (list Q))
    (c : cycle_input) (rho : Q) (self : EnergyConsumptionModel) (M : Q) :
  init get_standard_driving_cycle get_gradients c rho = Ok self ->
  0 <= M ->
  (forall t col, (t < length (velocity self))%nat -> (col < 6)%nat ->
     0 <= nth col (nth t (velocity self) []) 0 <= M) ->
  forall t col, (col < 6)%nat ->
    - (M / 2) <= nth col (nth t (acceleration self) []) 0 <= M / 2.
Proof.
  intros H HM Hb.
  destruct (init_velocity_rows _ _ _ _ _ H) as [Rv Ha]. rewrite Ha.
  now apply acceleration_of_bounded.
Qed.

Lemma acceleration_is_bounded_witness :
  - (10 / 2) <= nth 3 (nth 1 (acceleration example_model) []) 0 <= 10 / 2.
Proof.
  apply (acceleration_is_bounded example_registry example_gradients
           (CycleNdarray example_cycle) default_rho_air example_model 10);
    [reflexivity | discriminate | | lia].
  - intros t col Ht Hcol.
    change (length (velocity example_model)) with 4%nat in Ht.
    assert (Et : (t = 0 \/ t = 1 \/ t = 2 \/ t = 3)%nat) by lia.
    assert (Ec : (col = 0 \/ col = 1 \/ col = 2 \/ col = 3 \/ col = 4
                  \/ col = 5)%nat) by lia.
    destruct Et as [-> | [-> | [-> | ->]]],
      Ec as [-> | [-> | [-> | [-> | [-> | ->]]]]];
      split; vm_compute; discriminate.
Defined.

(** X8.  The two ways of giving a cycle agree: where the gradients
    registered for the name of a cycle are those registered for ["custom"],
    constructing from the name and constructing from the samples that the
    name resolves to end alike, with the same exception or with models that
    hold the same cycle, gradient, velocity and acceleration. *)
Theorem named_cycle_equals_its_array
    (get_standard_driving_cycle get_gradients : string -> result (list Q))
    (name : string) (data : list Q) (rho : Q) :
  get_standard_driving_cycle name = Ok data ->
  get_gradients name = get_gradients "custom"%string ->
  same_outcome
    (init get_standard_driving_cycle get_gradients (CycleStr name) rho)
    (init get_standard_driving_cycle get_gradients (CycleNdarray data) rho).
Proof.
  intros Hc Hg. unfold init, resolve_cycle. rewrite Hc. cbn [bind fst snd].
  rewrite Hg. destruct (get_gradients "custom"%string) as [g|e];
    cbn [bind same_outcome]; [| reflexivity].
  destruct (reshape g) as [gs|e]; cbn [bind same_outcome]; [| reflexivity].
  destruct (reshape data) as [cs|e]; cbn [bind same_outcome]; [| reflexivity].
  repeat split.
Qed.

Lemma named_cycle_equals_its_array_witness :
  same_outcome
    (init example_registry example_gradients (CycleStr "Urban delivery")
       default_rho_air)
    (init example_registry example_gradients (CycleNdarray example_cycle)
       default_rho_air).
Proof.
  apply (named_cycle_equals_its_array example_registry example_gradients
           "Urban delivery" example_cycle default_rho_air).
  - reflexivity.
  - reflexivity.
Defined.

(** ** The constructor and the motive energy together *)

Lemma bdim_1_l (a : nat) : bdim 1 a = Some a.
Proof. rewrite bdim_comm. apply bdim_1_r. Qed.

Lemma broadcast_variants_series (P Y T : nat) :
  broadcast_shapes (transpose_shape (6, P, Y, 1)%nat) (T, 1, 1, 6)%nat
  = Some (T, Y, P, 6)%nat.
Proof.
  apply broadcast_shapes_intro;
    [apply bdim_1_l | apply bdim_1_r | apply bdim_1_r | apply bdim_refl].
Qed.

Lemma init_aligned
    (get_standard_driving_cycle get_gradients : string -> result (list Q))
    (c : cycle_input) (rho : Q) (self : EnergyConsumptionModel)
    (name : string) (data g : list Q) :
  init get_standard_driving_cycle get_gradients c rho = Ok self ->
  resolve_cycle get_standard_driving_cycle c = Ok (name, data) ->
  get_gradients name = Ok g ->
  length (velocity self) = (length data / 6)%nat /\
  length (acceleration self) = length (velocity self) /\
  length (gradient self) = (length g / 6)%nat.
Proof.
  intros H Hr Hg. apply init_inv in H.
  destruct H as (n' & d' & g' & Hr' & Hg' & _ & _ & _ & _ & _ & Hgs & Hcs
                 & Hv & Ha).
  rewrite Hr in Hr'. injection Hr' as <- <-.
  rewrite Hg in Hg'. injection Hg' as <-.
  split; [| split].
  - now rewrite Hv, length_series_map, Hcs, length_rows_of_6.
  - rewrite Ha. apply length_acceleration.
  - now rewrite Hgs, length_rows_of_6.
Qed.

(** X9.  A model built from a cycle and gradients of the same size takes
    DataArray parameters of shape [(6, P, Y, 1)]: both modes of
    [motive_energy_per_km] return, every array of the result a DataArray of
    shape [(T, Y, P, 6)] with [T] the size of the cycle divided by 6. *)
Theorem constructed_model_takes_variant_tensors
    (get_standard_driving_cycle get_gradients : string -> result (list Q))
    (np_sin : Q -> Q) (c : cycle_input) (rho : Q)
    (self : EnergyConsumptionModel) (name : string) (data g : list Q)
    (P Y : nat)
    (driving_mass rr_coef drag_coef frontal_area ttw_efficiency
     recuperation_efficiency motor_power : pyval) :
  init get_standard_driving_cycle get_gradients c rho = Ok self ->
  resolve_cycle get_standard_driving_cycle c = Ok (name, data) ->
  get_gradients name = Ok g ->
  length g = length data ->
  parameter_tensors (6, P, Y, 1)%nat
    [driving_mass; rr_coef; drag_coef; frontal_area; ttw_efficiency;
     recuperation_efficiency; motor_power] ->
  (exists out,
     motive_energy_per_km np_sin self driving_mass rr_coef drag_coef
       frontal_area ttw_efficiency recuperation_efficiency motor_power false
     = Ok (Energy out) /\
     is_array out DataArray (length data / 6, Y, P, 6)%nat) /\
  (exists o,
     motive_energy_per_km np_sin self driving_mass rr_coef drag_coef
       frontal_area ttw_efficiency recuperation_efficiency motor_power true
     = Ok o /\
     debug_shaped o (length data / 6, Y, P, 6)%nat).
Proof.
  intros H Hr Hg Hlen Hp. split_tensors Hp.
  destruct (init_aligned _ _ _ _ _ _ _ _ H Hr Hg) as (Lv & La & Lg).
  assert (Hal : aligned self) by (split; congruence).
  assert (Hso : broadcast_shapes (transpose_shape (6, P, Y, 1)%nat)
                  (series_shape self)
                = Some (length data / 6, Y, P, 6)%nat).
  { unfold series_shape. rewrite Lv. apply broadcast_variants_series. }
  split.
  - destruct (motive_energy_ok np_sin self _ _ Hal Hso driving_mass rr_coef
                drag_coef frontal_area ttw_efficiency recuperation_efficiency
                motor_power A A0 A1 A2 A3 A4 A5)
      as (f & p & out & _ & _ & Ho & Ao).
    now exists out.
  - apply (debug_ok np_sin self _ _ Hal Hso driving_mass rr_coef drag_coef
             frontal_area ttw_efficiency recuperation_efficiency motor_power
             A A0 A1 A2 A3).
Qed.

Lemma constructed_model_takes_variant_tensors_witness :
  (exists out,
     example_normal = Ok (Energy out) /\
     is_array out DataArray (length example_cycle / 6, 1, 1, 6)%nat) /\
  (exists o,
     example_debug = Ok o /\
     debug_shaped o (length example_cycle / 6, 1, 1, 6)%nat).
Proof.
  apply (constructed_model_takes_variant_tensors example_registry
           example_gradients example_sin (CycleNdarray example_cycle)
           default_rho_air example_model "custom" example_cycle
           (repeat 0 24) 1 1).
  - reflexivity.
  - reflexivity.
  - reflexivity.
  - reflexivity.
  - repeat constructor; apply is_array_intro.
Defined.

(** ** Arguments the motive energy does not take *)

Lemma bdim_mismatch (a b : nat) :
  a <> b -> a <> 1%nat -> b <> 1%nat -> bdim a b = None.
Proof.
  intros H1 H2 H3. unfold bdim.
  destruct (Nat.eqb_spec a b), (Nat.eqb_spec a 1), (Nat.eqb_spec b 1);
    congruence.
Qed.

Lemma resistances_misaligned_gradient
    (np_sin : Q -> Q) (self : EnergyConsumptionModel) (d0 d1 d2 d : nat)
    (driving_mass rr_coef drag_coef frontal_area : pyval) :
  length (acceleration self) = length (velocity self) ->
  length (gradient self) <> length (velocity self) ->
  bdim d0 6 = Some d ->
  parameter_tensors (d0, d1, d2, 1)%nat
    [driving_mass; rr_coef; drag_coef; frontal_area] ->
  resistances np_sin self driving_mass rr_coef drag_coef frontal_area
  = Err ValueError.
Proof.
  intros La Hne Hd Hp. split_tensors Hp.
  assert (F1 : broadcast_shapes (transpose_shape (d0, d1, d2, 1)%nat)
                 (length (velocity self), 1, 1, 6)%nat
               = Some (length (velocity self), d2, d1, d)).
  { apply broadcast_shapes_intro;
      [apply bdim_1_l | apply bdim_1_r | apply bdim_1_r | assumption]. }
  assert (F2 : broadcast_shapes (transpose_shape (d0, d1, d2, 1)%nat)
                 (length (gradient self), 1, 1, 6)%nat
               = Some (length (gradient self), d2, d1, d)).
  { apply broadcast_shapes_intro;
      [apply bdim_1_l | apply bdim_1_r | apply bdim_1_r | assumption]. }
  assert (F3 : broadcast_shapes (length (velocity self), 1, 1, 6)%nat
                 (transpose_shape (d0, d1, d2, 1)%nat)
               = Some (length (velocity self), d2, d1, d))
    by (rewrite broadcast_shapes_comm; exact F1).
  assert (Aa : is_array (PyArr Ndarray (to_ndarray (acceleration self)))
                 Ndarray (length (velocity self), 1, 1, 6)%nat)
    by (rewrite <- La; apply is_array_series).
  unfold resistances. unfold_ops. repeat run_step.
  erewrite py_binop_misaligned; [reflexivity | eassumption | eassumption |].
  congruence.
Qed.

(** X10.  The constructor does not compare the gradients with the cycle:
    a model whose gradient series has another number of rows than its
    velocity, neither of them a single row, is built, and
    [motive_energy_per_km] then ends, in both modes, in the [ValueError]
    that xarray raises in the sum of the resistances. *)
Theorem misaligned_gradient_fails_in_the_sum
    (get_standard_driving_cycle get_gradients : string -> result (list Q))
    (np_sin : Q -> Q) (c : cycle_input) (rho : Q)
    (self : EnergyConsumptionModel) (name : string) (data g : list Q)
    (d0 d1 d2 d : nat)
    (driving_mass rr_coef drag_coef frontal_area : pyval) :
  init get_standard_driving_cycle get_gradients c rho = Ok self ->
  resolve_cycle get_standard_driving_cycle c = Ok (name, data) ->
  get_gradients name = Ok g ->
  (length g / 6 <> length data / 6)%nat ->
  (length g / 6 <> 1)%nat -> (length data / 6 <> 1)%nat ->
  bdim d0 6 = Some d ->
  parameter_tensors (d0, d1, d2, 1)%nat
    [driving_mass; rr_coef; drag_coef; frontal_area] ->
  forall ttw_efficiency recuperation_efficiency motor_power debug_mode,
    motive_energy_per_km np_sin self driving_mass rr_coef drag_coef
      frontal_area ttw_efficiency recuperation_efficiency motor_power
      debug_mode
    = Err ValueError.
Proof.
  intros H Hr Hg Hne Hg1 Hd1 Hd Hp ttw rec mp dbg.
  destruct (init_aligned _ _ _ _ _ _ _ _ H Hr Hg) as (Lv & La & Lg).
  unfold motive_energy_per_km.
  rewrite (resistances_misaligned_gradient np_sin self d0 d1 d2 d
             driving_mass rr_coef drag_coef frontal_area);
    try assumption; try congruence.
  reflexivity.
Qed.

Lemma misaligned_gradient_fails_in_the_sum_witness :
  motive_energy_per_km example_sin mismatched_model (example_tensor 10000)
    (example_tensor 0.006) (example_tensor 0.6) (example_tensor 8)
    (example_tensor 0.4) (example_tensor 0.5) (example_tensor 100) false
  = Err ValueError.
Proof.
  apply (misaligned_gradient_fails_in_the_sum example_registry
           (flat_gradients 18) example_sin (CycleNdarray example_cycle)
           default_rho_air mismatched_model "custom" example_cycle
           (repeat 0 18) 6 1 1 6).
  - reflexivity.
  - reflexivity.
  - reflexivity.
  - simpl. lia.
  - simpl. lia.
  - simpl. lia.
  - reflexivity.
  - repeat constructor; apply is_array_intro.
Defined.

(** X12.  The driving mass has to be a DataArray: given as a numpy array of
    the right shape, the rolling, air and gradient resistances are computed
    and the call then ends, in both modes, in the [AttributeError] of
    [driving_mass.values]. *)
Theorem ndarray_driving_mass_raises_AttributeError
    (np_sin : Q -> Q) (self : EnergyConsumptionModel) (sh so : shape4)
    (driving_mass rr_coef drag_coef frontal_area : pyval) :
  aligned self ->
  broadcast_shapes (transpose_shape sh) (series_shape self) = Some so ->
  is_array driving_mass Ndarray sh ->
  parameter_tensors sh [rr_coef; drag_coef; frontal_area] ->
  forall ttw_efficiency recuperation_efficiency motor_power debug_mode,
    motive_energy_per_km np_sin self driving_mass rr_coef drag_coef
      frontal_area ttw_efficiency recuperation_efficiency motor_power
      debug_mode
    = Err AttributeError.
Proof.
  intros Hal Hso Am Hp ttw rec mp dbg. split_tensors Hp.
  destruct (shape_facts self sh so Hso) as (Hs1 & Hs2 & Hs3 & Hs4).
  destruct (aligned_series self Hal) as (Ag & Aa).
  assert (E : resistances np_sin self driving_mass rr_coef drag_coef
                frontal_area = Err AttributeError).
  { unfold resistances. unfold_ops. repeat run_step.
    destruct Am as (a & -> & _). reflexivity. }
  unfold motive_energy_per_km. now rewrite E.
Qed.

Lemma ndarray_driving_mass_raises_AttributeError_witness :
  motive_energy_per_km example_sin example_model (example_ndarray 10000)
    (example_tensor 0.006) (example_tensor 0.6) (example_tensor 8)
    (example_tensor 0.4) (example_tensor 0.5) (example_tensor 100) true
  = Err AttributeError.
Proof.
  apply (ndarray_driving_mass_raises_AttributeError example_sin example_model
           (6, 1, 1, 1)%nat (4, 1, 1, 6)%nat).
  - split; reflexivity.
  - reflexivity.
  - apply is_array_intro.
  - repeat constructor; apply is_array_intro.
Defined.

Ltac run_method :=
  repeat first
    [ run_step
    | progress cbn [bind negb f_rolling_resistance f_air_resistance
                    f_gradient_resistance f_inertia f_braking_loss
                    f_total_resistance p_total_power p_recuperated_power
                    p_net_power] ].

(** X13.  The frontal area and the drag coefficient may both be numpy
    arrays in the normal mode, which returns its DataArray; the debug mode
    ends for the same arguments in the [AttributeError] of
    [air_resistance.values]. *)
Theorem ndarray_drag_only_fails_in_debug_mode
    (np_sin : Q -> Q) (self : EnergyConsumptionModel) (sh so : shape4)
    (driving_mass rr_coef drag_coef frontal_area ttw_efficiency
     recuperation_efficiency motor_power : pyval) :
  aligned self ->
  broadcast_shapes (transpose_shape sh) (series_shape self) = Some so ->
  parameter_tensors sh
    [driving_mass; rr_coef; ttw_efficiency; recuperation_efficiency;
     motor_power] ->
  is_array drag_coef Ndarray sh -> is_array frontal_area Ndarray sh ->
  (exists out,
     motive_energy_per_km np_sin self driving_mass rr_coef drag_coef
       frontal_area ttw_efficiency recuperation_efficiency motor_power false
     = Ok (Energy out) /\
     is_array out DataArray so) /\
  motive_energy_per_km np_sin self driving_mass rr_coef drag_coef
    frontal_area ttw_efficiency recuperation_efficiency motor_power true
  = Err AttributeError.
Proof.
  intros Hal Hso Hp Ad Af. split_tensors Hp.
  destruct (shape_facts self sh so Hso) as (Hs1 & Hs2 & Hs3 & Hs4).
  destruct (aligned_series self Hal) as (Ag & Aa).
  assert (Ak : is_array (km_distance self) Ndarray (1, 1, 1, 6)%nat)
    by apply is_array_intro.
  split.
  - unfold motive_energy_per_km, resistances, wheel_powers. unfold_ops.
    run_method. eexists. split; [reflexivity | assumption].
  - unfold motive_energy_per_km, resistances, debug_output. unfold_ops.
    run_method.
    match goal with
    | |- context [bind (py_values ?x) _] =>
        match goal with
        | Hx : is_array x Ndarray _ |- _ => destruct Hx as (a & -> & _)
        end
    end.
    reflexivity.
Qed.

Lemma ndarray_drag_only_fails_in_debug_mode_witness :
  (exists out,
     motive_energy_per_km example_sin example_model (example_tensor 10000)
       (example_tensor 0.006) (example_ndarray 0.6) (example_ndarray 8)
       (example_tensor 0.4) (example_tensor 0.5) (example_tensor 100) false
     = Ok (Energy out) /\
     is_array out DataArray (4, 1, 1, 6)%nat) /\
  motive_energy_per_km example_sin example_model (example_tensor 10000)
    (example_tensor 0.006) (example_ndarray 0.6) (example_ndarray 8)
    (example_tensor 0.4) (example_tensor 0.5) (example_tensor 100) true
  = Err AttributeError.
Proof.
  apply (ndarray_drag_only_fails_in_debug_mode example_sin example_model
           (6, 1, 1, 1)%nat (4, 1, 1, 6)%nat).
  - split; reflexivity.
  - reflexivity.
  - repeat constructor; apply is_array_intro.
  - apply is_array_intro.
  - apply is_array_intro.
Defined.

(** ** A gradient of a single row *)

(** X11.  A gradient series of a single row is not spread over the time
    steps of a longer cycle.  Line 176 multiplies a DataArray by a numpy
    array, which numpy broadcasts: the gradient resistance is a DataArray
    of one row.  The sum of line 182 then joins DataArrays of [T] rows and
    of one row, which xarray refuses with its [ValueError], and the call
    fails in both modes. *)
Theorem single_row_gradient_is_not_broadcast
    (np_sin : Q -> Q) (self : EnergyConsumptionModel) (P Y : nat)
    (driving_mass rr_coef drag_coef frontal_area : pyval) :
  length (acceleration self) = length (velocity self) ->
  length (gradient self) = 1%nat ->
  length (velocity self) <> 1%nat ->
  parameter_tensors (6, P, Y, 1)%nat
    [driving_mass; rr_coef; drag_coef; frontal_area] ->
  (exists m mT gradient_resistance,
     py_mul driving_mass (PyNum 9.81) = Ok m /\
     py_T m = Ok mT /\
     py_mul mT (py_map np_sin (PyArr Ndarray (to_ndarray (gradient self))))
     = Ok gradient_resistance /\
     is_array gradient_resistance DataArray (1, Y, P, 6)%nat) /\
  forall ttw_efficiency recuperation_efficiency motor_power debug_mode,
    motive_energy_per_km np_sin self driving_mass rr_coef drag_coef
      frontal_area ttw_efficiency recuperation_efficiency motor_power
      debug_mode
    = Err ValueError.
Proof.
  intros La Lg Hv1 Hp. split.
  - split_tensors Hp.
    assert (F : broadcast_shapes (transpose_shape (6, P, Y, 1)%nat)
                  (length (gradient self), 1, 1, 6)%nat
                = Some (1, Y, P, 6)%nat)
      by (rewrite Lg; apply broadcast_variants_series).
    unfold py_mul.
    destruct (py_binop_num_r Qmult driving_mass 9.81 _ _ A) as (m & Em & Am).
    destruct (py_T_arr m _ _ Am) as (mT & ET & AT).
    destruct (py_binop_arr Qmult mT
                (py_map np_sin (PyArr Ndarray (to_ndarray (gradient self))))
                DataArray Ndarray _ _ _ AT
                (py_map_arr np_sin _ _ _ (is_array_series (gradient self))) F
                (or_intror (or_introl eq_refl)))
      as (g & Eg & Ag).
    exists m, mT, g. repeat split; assumption.
  - intros ttw rec mp dbg. unfold motive_energy_per_km.
    rewrite (resistances_misaligned_gradient np_sin self 6 P Y 6
               driving_mass rr_coef drag_coef frontal_area);
      [reflexivity | assumption | congruence | reflexivity | assumption].
Qed.

Lemma single_row_gradient_is_not_broadcast_witness :
  motive_energy_per_km example_sin single_gradient_model
    (example_tensor 10000) (example_tensor 0.006) (example_tensor 0.6)
    (example_tensor 8) (example_tensor 0.4) (example_tensor 0.5)
    (example_tensor 100) false
  = Err ValueError.
Proof.
  apply (single_row_gradient_is_not_broadcast example_sin
           single_gradient_model 1 1).
  - reflexivity.
  - reflexivity.
  - discriminate.
  - repeat constructor; apply is_array_intro.
Defined.

(** ** The values of the energy tensor *)

Lemma Qdiv_nonneg (x d : Q) : 0 <= x -> 0 < d -> 0 <= x / d.
Proof. intros Hx Hd. apply Qle_shift_div_l; [assumption | lra]. Qed.

Lemma Qdiv_le_mono (x y d : Q) : 0 < d -> x <= y -> x / d <= y / d.
Proof.
  intros Hd Hxy. unfold Qdiv. apply Qmult_le_compat_r; [assumption |].
  apply Qinv_le_0_compat. lra.
Qed.

Lemma spec_total_power_nonneg (rho v a sg m rr cd area : Q) :
  0 <= spec_total_power rho v a sg m rr cd area.
Proof. unfold spec_total_power. apply Q.le_max_r. Qed.

Lemma spec_recuperated_power_bounds (v a m rec motor : Q) :
  0 <= motor ->
  0 <= spec_recuperated_power v a m rec motor <= motor * 1000.
Proof.
  intros H. unfold spec_recuperated_power. split.
  - apply Q.min_glb; [apply Q.le_max_r | lra].
  - apply Q.le_min_r.
Qed.

Lemma spec_recuperated_power_zero (v a m rec motor : Q) :
  motor == 0 \/ (rec == 0 /\ 0 <= motor) ->
  spec_recuperated_power v a m rec motor == 0.
Proof.
  unfold spec_recuperated_power. intros [Hm | [Hr Hm]].
  - rewrite Hm. rewrite Q.min_r; [ring |].
    assert (H : 0 * 1000 == 0) by ring. rewrite H. apply Q.le_max_r.
  - rewrite Hr.
    assert (H : spec_braking_loss a m * 0 * v == 0) by ring.
    rewrite H, Q.max_id. apply Q.min_l. lra.
Qed.

(** X14.  Without a motor ([motor_power] 0), or with a recuperation
    efficiency of 0, nothing is recuperated: the element of the energy
    tensor is the clipped power by the distance, the efficiency and 1000,
    and it is not negative for a positive distance and efficiency. *)
Theorem no_motor_means_no_recuperation
    (np_sin : Q -> Q) (self : EnergyConsumptionModel)
    (driving_mass rr_coef drag_coef frontal_area ttw_efficiency
     recuperation_efficiency motor_power out : pyval) :
  motive_energy_per_km np_sin self driving_mass rr_coef drag_coef
    frontal_area ttw_efficiency recuperation_efficiency motor_power false
  = Ok (Energy out) ->
  forall ix,
    param motor_power ix == 0 \/
    (param recuperation_efficiency ix == 0 /\ 0 <= param motor_power ix) ->
    pget out ix ==
      spec_total_power (rho_air self) (vel self ix) (acc self ix)
        (np_sin (grad self ix)) (param driving_mass ix) (param rr_coef ix)
        (param drag_coef ix) (param frontal_area ix)
      / dist_km self ix / param ttw_efficiency ix / 1000 /\
    (0 < dist_km self ix -> 0 < param ttw_efficiency ix -> 0 <= pget out ix).
Proof.
  intros H ix Hz.
  pose proof (motive_energy_formula np_sin self driving_mass rr_coef
                drag_coef frontal_area ttw_efficiency recuperation_efficiency
                motor_power out H ix) as Hf.
  assert (Hv : pget out ix ==
                 spec_total_power (rho_air self) (vel self ix) (acc self ix)
                   (np_sin (grad self ix)) (param driving_mass ix)
                   (param rr_coef ix) (param drag_coef ix)
                   (param frontal_area ix)
                 / dist_km self ix / param ttw_efficiency ix / 1000).
  { rewrite Hf. unfold spec_energy.
    rewrite (spec_recuperated_power_zero _ _ _ _ _ Hz).
    unfold Qminus, Qdiv. ring. }
  split; [exact Hv |]. intros Hd Ht. rewrite Hv.
  repeat apply Qdiv_nonneg; try assumption; try reflexivity.
  apply spec_total_power_nonneg.
Qed.

Lemma no_motor_means_no_recuperation_witness :
  pget (component 0 (output_of example_no_motor)) braking_step ==
    spec_total_power (rho_air example_model) (vel example_model braking_step)
      (acc example_model braking_step)
      (example_sin (grad example_model braking_step))
      (param (example_tensor 10000) braking_step)
      (param (example_tensor 0.006) braking_step)
      (param (example_tensor 0.6) braking_step)
      (param (example_tensor 8) braking_step)
    / dist_km example_model braking_step
    / param (example_tensor 0.4) braking_step / 1000 /\
  0 <= pget (component 0 (output_of example_no_motor)) braking_step.
Proof.
  destruct (no_motor_means_no_recuperation example_sin example_model
              (example_tensor 10000) (example_tensor 0.006)
              (example_tensor 0.6) (example_tensor 8) (example_tensor 0.4)
              (example_tensor 0.5) (example_tensor 0)
              (component 0 (output_of example_no_motor)) eq_refl
              braking_step (or_introl (Qeq_refl 0)))
    as [Hvalue Hsign].
  split; [exact Hvalue | apply Hsign; reflexivity].
Defined.

(** X15.  Recuperation lowers the energy of a time step by at most the
    motor power: for a motor power that is not negative and a positive
    distance and efficiency, the element lies between the clipped power less
    [motor_power * 1000] and the clipped power, both by the distance, the
    efficiency and 1000. *)
Theorem recuperation_lowers_by_at_most_motor_power
    (np_sin : Q -> Q) (self : EnergyConsumptionModel)
    (driving_mass rr_coef drag_coef frontal_area ttw_efficiency
     recuperation_efficiency motor_power out : pyval) :
  motive_energy_per_km np_sin self driving_mass rr_coef drag_coef
    frontal_area ttw_efficiency recuperation_efficiency motor_power false
  = Ok (Energy out) ->
  forall ix,
    0 <= param motor_power ix ->
    0 < dist_km self ix -> 0 < param ttw_efficiency ix ->
    (spec_total_power (rho_air self) (vel self ix) (acc self ix)
       (np_sin (grad self ix)) (param driving_mass ix) (param rr_coef ix)
       (param drag_coef ix) (param frontal_area ix)
     - param motor_power ix * 1000)
    / dist_km self ix / param ttw_efficiency ix / 1000
    <= pget out ix
    <= spec_total_power (rho_air self) (vel self ix) (acc self ix)
         (np_sin (grad self ix)) (param driving_mass ix) (param rr_coef ix)
         (param drag_coef ix) (param frontal_area ix)
       / dist_km self ix / param ttw_efficiency ix / 1000.
Proof.
  intros H ix Hm Hd Ht.
  rewrite (motive_energy_formula np_sin self driving_mass rr_coef
             drag_coef frontal_area ttw_efficiency recuperation_efficiency
             motor_power out H ix).
  unfold spec_energy.
  destruct (spec_recuperated_power_bounds (vel self ix) (acc self ix)
              (param driving_mass ix) (param recuperation_efficiency ix)
              (param motor_power ix) Hm) as [Hlo Hhi].
  split; repeat apply Qdiv_le_mono; try assumption; try reflexivity; lra.
Qed.

Lemma recuperation_lowers_by_at_most_motor_power_witness :
  (spec_total_power (rho_air example_model) (vel example_model braking_step)
     (acc example_model braking_step)
     (example_sin (grad example_model braking_step))
     (param (example_tensor 10000) braking_step)
     (param (example_tensor 0.006) braking_step)
     (param (example_tensor 0.6) braking_step)
     (param (example_tensor 8) braking_step)
   - param (example_tensor 100) braking_step * 1000)
  / dist_km example_model braking_step
  / param (example_tensor 0.4) braking_step / 1000
  <= pget example_energy braking_step
  <= spec_total_power (rho_air example_model) (vel example_model braking_step)
       (acc example_model braking_step)
       (example_sin (grad example_model braking_step))
       (param (example_tensor 10000) braking_step)
       (param (example_tensor 0.006) braking_step)
       (param (example_tensor 0.6) braking_step)
       (param (example_tensor 8) braking_step)
     / dist_km example_model braking_step
     / param (example_tensor 0.4) braking_step / 1000.
Proof.
  apply (recuperation_lowers_by_at_most_motor_power example_sin example_model
           (example_tensor 10000) (example_tensor 0.006) (example_tensor 0.6)
           (example_tensor 8) (example_tensor 0.4) (example_tensor 0.5)
           (example_tensor 100)).
  - reflexivity.
  - vm_compute. discriminate.
  - vm_compute. reflexivity.
  - vm_compute. reflexivity.
Defined.

(** ** Driving at a steady speed on a flat road *)

Lemma spec_energy_steady (rho v a sg m rr cd area rec motor d ttw : Q) :
  a == 0 -> sg == 0 ->
  0 <= rho -> 0 <= v -> 0 <= m -> 0 <= rr -> 0 <= cd -> 0 <= area ->
  0 <= motor ->
  spec_energy rho v a sg m rr cd area rec motor d ttw ==
    (m * rr * 9.81 + (1 # 2) * rho * cd * area * v ^ 2) * v / d / ttw / 1000.
Proof.
  intros Ha Hsg Hrho Hv Hm Hrr Hcd Har Hmo.
  assert (Htr : spec_total_resistance rho v a sg m rr cd area ==
                m * rr * 9.81 + (1 # 2) * rho * cd * area * v ^ 2).
  { unfold spec_total_resistance, spec_rolling_resistance,
      spec_air_resistance, spec_gradient_resistance, spec_inertia.
    rewrite Ha, Hsg. ring. }
  assert (Hroll : 0 <= m * rr * 9.81).
  { repeat apply Qmult_le_0_compat; try assumption. discriminate. }
  assert (Hsq : 0 <= v ^ 2).
  { assert (E : v ^ 2 == v * v) by ring. rewrite E.
    now apply Qmult_le_0_compat. }
  assert (Hair : 0 <= (1 # 2) * rho * cd * area * v ^ 2).
  { repeat apply Qmult_le_0_compat; try assumption. discriminate. }
  assert (Hpow : spec_total_power rho v a sg m rr cd area ==
                 (m * rr * 9.81 + (1 # 2) * rho * cd * area * v ^ 2) * v).
  { unfold spec_total_power. rewrite Htr. apply Q.max_l.
    apply Qmult_le_0_compat; [lra | assumption]. }
  assert (Hrec : spec_recuperated_power v a m rec motor == 0).
  { unfold spec_recuperated_power, spec_braking_loss, spec_inertia.
    rewrite Ha.
    assert (E : - (m * 0) == 0) by ring. rewrite E, Q.max_id.
    assert (E' : 0 * rec * v == 0) by ring. rewrite E', Q.max_id.
    apply Q.min_l. lra. }
  unfold spec_energy. rewrite Hpow, Hrec. unfold Qminus, Qdiv. ring.
Qed.

(** X16.  At a time step without acceleration and without gradient
    ([np.sin] of it is 0), for quantities that are not negative, nothing is
    clipped and nothing is recuperated: the element of the energy tensor is
    [(driving_mass * rr_coef * 9.81 + 1/2 * rho_air * drag_coef *
    frontal_area * velocity^2) * velocity] by the distance, the efficiency
    and 1000. *)
Theorem steady_step_energy
    (np_sin : Q -> Q) (self : EnergyConsumptionModel)
    (driving_mass rr_coef drag_coef frontal_area ttw_efficiency
     recuperation_efficiency motor_power out : pyval) :
  motive_energy_per_km np_sin self driving_mass rr_coef drag_coef
    frontal_area ttw_efficiency recuperation_efficiency motor_power false
  = Ok (Energy out) ->
  forall ix,
    acc self ix == 0 -> np_sin (grad self ix) == 0 ->
    0 <= rho_air self -> 0 <= vel self ix ->
    0 <= param driving_mass ix -> 0 <= param rr_coef ix ->
    0 <= param drag_coef ix -> 0 <= param frontal_area ix ->
    0 <= param motor_power ix ->
    pget out ix ==
      (param driving_mass ix * param rr_coef ix * 9.81
       + (1 # 2) * rho_air self * param drag_coef ix * param frontal_area ix
         * vel self ix ^ 2)
      * vel self ix / dist_km self ix / param ttw_efficiency ix / 1000.
Proof.
  intros H ix Ha Hs Hrho Hv Hm Hrr Hcd Har Hmo.
  rewrite (motive_energy_formula np_sin self driving_mass rr_coef
             drag_coef frontal_area ttw_efficiency recuperation_efficiency
             motor_power out H ix).
  now apply spec_energy_steady.
Qed.

Lemma steady_step_energy_witness :
  pget example_energy (0, 0, 0, 0)%nat ==
    (param (example_tensor 10000) (0, 0, 0, 0)%nat
     * param (example_tensor 0.006) (0, 0, 0, 0)%nat * 9.81
     + (1 # 2) * rho_air example_model
       * param (example_tensor 0.6) (0, 0, 0, 0)%nat
       * param (example_tensor 8) (0, 0, 0, 0)%nat
       * vel example_model (0, 0, 0, 0)%nat ^ 2)
    * vel example_model (0, 0, 0, 0)%nat
    / dist_km example_model (0, 0, 0, 0)%nat
    / param (example_tensor 0.4) (0, 0, 0, 0)%nat / 1000.
Proof.
  apply (steady_step_energy example_sin example_model
           (example_tensor 10000) (example_tensor 0.006) (example_tensor 0.6)
           (example_tensor 8) (example_tensor 0.4) (example_tensor 0.5)
           (example_tensor 100));
    try reflexivity; vm_compute; discriminate.
Defined.

Lemma inject_nat_S (n : nat) :
  inject_Z (Z.of_nat (S n)) == inject_Z (Z.of_nat n) + 1.
Proof.
  unfold Qeq, Qplus, inject_Z. cbn [Qnum Qden]. lia.
Qed.

Lemma inject_nat_pos (n : nat) : (0 < n)%nat -> 0 < inject_Z (Z.of_nat n).
Proof. intros H. unfold Qlt. simpl. lia. Qed.

Lemma time_sum_const (n : nat) (x : nat -> Q) (k : Q) :
  (forall t, (t < n)%nat -> x t == k) ->
  time_sum n x == inject_Z (Z.of_nat n) * k.
Proof.
  induction n as [|n IH]; intros H.
  - unfold time_sum. simpl. ring.
  - rewrite time_sum_S, IH, inject_nat_S by (intros t Ht; apply H; lia).
    rewrite (H n) by lia. ring.
Qed.

Lemma column_sum_const (s : series) (c : nat) (v : Q) :
  (forall t, (t < length s)%nat -> nth c (nth t s []) 0 == v) ->
  column_sum s c == inject_Z (Z.of_nat (length s)) * v.
Proof.
  unfold column_sum.
  assert (G : forall (l : series) (a : Q),
            (forall t, (t < length l)%nat -> nth c (nth t l []) 0 == v) ->
            fold_left (fun acc row => acc + nth c row 0) l a
            == a + inject_Z (Z.of_nat (length l)) * v).
  { induction l as [|row l IH]; intros a H.
    - simpl. ring.
    - cbn [fold_left length]. rewrite IH, inject_nat_S.
      + rewrite (H 0%nat) by (simpl; lia). ring.
      + intros t Ht. apply (H (S t)). simpl. lia. }
  intros H. rewrite G by assumption. ring.
Qed.

Lemma param_without_time (x : pyval) (k : container) (d0 d1 d2 : nat)
    (t y p c : nat) :
  is_array x k (d0, d1, d2, 1)%nat ->
  param x (t, y, p, c) = param x (0, y, p, c)%nat.
Proof.
  intros (a & -> & Hs). unfold param, pget, bget. rewrite Hs. reflexivity.
Qed.

(** X17.  A model built from a cycle in which a size class drives at one
    speed [v] throughout, on a flat road, with DataArray parameters of shape
    [(6, P, Y, 1)] that are not negative: the energy tensor summed over time
    is [(driving_mass * rr_coef * 9.81 + 1/2 * rho_air * drag_coef *
    frontal_area * v^2) / ttw_efficiency], the force at the wheels by the
    efficiency, in kJ/km. *)
Theorem cruise_energy_per_km
    (get_standard_driving_cycle get_gradients : string -> result (list Q))
    (np_sin : Q -> Q) (c : cycle_input) (rho : Q)
    (self : EnergyConsumptionModel) (name : string) (data g : list Q)
    (P Y : nat)
    (driving_mass rr_coef drag_coef frontal_area ttw_efficiency
     recuperation_efficiency motor_power : pyval)
    (y p col : nat) (v : Q) :
  init get_standard_driving_cycle get_gradients c rho = Ok self ->
  resolve_cycle get_standard_driving_cycle c = Ok (name, data) ->
  get_gradients name = Ok g ->
  length g = length data ->
  parameter_tensors (6, P, Y, 1)%nat
    [driving_mass; rr_coef; drag_coef; frontal_area; ttw_efficiency;
     recuperation_efficiency; motor_power] ->
  (col < 6)%nat -> (0 < length (velocity self))%nat -> 0 < v ->
  (forall t, (t < length (velocity self))%nat ->
     nth col (nth t (velocity self) []) 0 == v) ->
  (forall t, np_sin (grad self (t, y, p, col)) == 0) ->
  0 <= rho ->
  0 <= param driving_mass (0, y, p, col)%nat ->
  0 <= param rr_coef (0, y, p, col)%nat ->
  0 <= param drag_coef (0, y, p, col)%nat ->
  0 <= param frontal_area (0, y, p, col)%nat ->
  0 <= param motor_power (0, y, p, col)%nat ->
  ~ param ttw_efficiency (0, y, p, col)%nat == 0 ->
  exists out,
    motive_energy_per_km np_sin self driving_mass rr_coef drag_coef
      frontal_area ttw_efficiency recuperation_efficiency motor_power false
    = Ok (Energy out) /\
    time_sum (length (velocity self)) (fun t => pget out (t, y, p, col)) ==
      (param driving_mass (0, y, p, col)%nat
       * param rr_coef (0, y, p, col)%nat * 9.81
       + (1 # 2) * rho * param drag_coef (0, y, p, col)%nat
         * param frontal_area (0, y, p, col)%nat * v ^ 2)
      / param ttw_efficiency (0, y, p, col)%nat.
Proof.
  intros H Hr Hg Hlen Hp Hcol HT Hv Hconst Hflat Hrho Hm Hrr Hcd Har Hmo Httw.
  split_tensors Hp.
  destruct (init_aligned _ _ _ _ _ _ _ _ H Hr Hg) as (Lv & La & Lg).
  destruct (init_velocity_rows _ _ _ _ _ H) as [Rv Ha].
  assert (Hrho' : rho_air self = rho).
  { apply init_inv in H.
    destruct H as (? & ? & ? & _ & _ & _ & _ & _ & _ & Hx & _). exact Hx. }
  assert (Hal : aligned self) by (split; congruence).
  assert (Hso : broadcast_shapes (transpose_shape (6, P, Y, 1)%nat)
                  (series_shape self)
                = Some (length data / 6, Y, P, 6)%nat).
  { unfold series_shape. rewrite Lv. apply broadcast_variants_series. }
  destruct (motive_energy_ok np_sin self _ _ Hal Hso driving_mass rr_coef
              drag_coef frontal_area ttw_efficiency recuperation_efficiency
              motor_power A A0 A1 A2 A3 A4 A5)
    as (f & w & out & _ & _ & Ho & _).
  exists out. split; [exact Ho |].
  pose proof (column_sum_const (velocity self) col v Hconst) as Hdist.
  pose proof (inject_nat_pos _ HT) as HTq.
  set (Tq := inject_Z (Z.of_nat (length (velocity self)))) in *.
  set (F := param driving_mass (0, y, p, col)%nat
            * param rr_coef (0, y, p, col)%nat * 9.81
            + (1 # 2) * rho * param drag_coef (0, y, p, col)%nat
              * param frontal_area (0, y, p, col)%nat * v ^ 2).
  assert (Hstep : forall t, (t < length (velocity self))%nat ->
            pget out (t, y, p, col) ==
              F * v / (Tq * v / 1000)
              / param ttw_efficiency (0, y, p, col)%nat / 1000).
  { intros t Ht.
    assert (Hvel : vel self (t, y, p, col) == v)
      by (rewrite vel_row by assumption; now apply Hconst).
    assert (Hacc : acc self (t, y, p, col) == 0).
    { unfold acc, bget. cbn [to_ndarray shape item bclip]. rewrite Ha.
      apply acceleration_of_constant_column; try assumption.
      intros t1 t2 H1 H2. now rewrite (Hconst t1), (Hconst t2). }
    rewrite (motive_energy_formula np_sin self driving_mass rr_coef drag_coef
               frontal_area ttw_efficiency recuperation_efficiency
               motor_power out Ho (t, y, p, col)).
    rewrite spec_energy_steady;
      rewrite ?(param_without_time driving_mass DataArray 6 P Y t y p col A),
        ?(param_without_time rr_coef DataArray 6 P Y t y p col A0),
        ?(param_without_time drag_coef DataArray 6 P Y t y p col A1),
        ?(param_without_time frontal_area DataArray 6 P Y t y p col A2),
        ?(param_without_time ttw_efficiency DataArray 6 P Y t y p col A3),
        ?(param_without_time motor_power DataArray 6 P Y t y p col A5),
        ?Hrho';
      try assumption; try apply Hflat.
    - rewrite dist_km_column, Hdist, Hvel. reflexivity.
    - rewrite Hvel. lra. }
  rewrite (time_sum_const _ _ _ Hstep). fold Tq. field.
  repeat split; try assumption; lra.
Qed.

Lemma cruise_energy_per_km_witness :
  exists out,
    cruise_normal = Ok (Energy out) /\
    time_sum (length (velocity cruise_model))
      (fun t => pget out (t, 0, 0, 0)%nat) ==
      (param (example_tensor 10000) (0, 0, 0, 0)%nat
       * param (example_tensor 0.006) (0, 0, 0, 0)%nat * 9.81
       + (1 # 2) * default_rho_air
         * param (example_tensor 0.6) (0, 0, 0, 0)%nat
         * param (example_tensor 8) (0, 0, 0, 0)%nat * 20 ^ 2)
      / param (example_tensor 0.4) (0, 0, 0, 0)%nat.
Proof.
  apply (cruise_energy_per_km example_registry (flat_gradients 18)
           example_sin (CycleNdarray cruise_cycle) default_rho_air
           cruise_model "custom" cruise_cycle (repeat 0 18) 1 1).
  - reflexivity.
  - reflexivity.
  - reflexivity.
  - reflexivity.
  - repeat constructor; apply is_array_intro.
  - lia.
  - simpl. lia.
  - reflexivity.
  - intros t Ht. change (length (velocity cruise_model)) with 3%nat in Ht.
    assert (Et : (t = 0 \/ t = 1 \/ t = 2)%nat) by lia.
    destruct Et as [-> | [-> | ->]]; reflexivity.
  - intros t. do 4 (destruct t as [|t]; [vm_compute; reflexivity |]).
    vm_compute. reflexivity.
  - discriminate.
  - discriminate.
  - discriminate.
  - discriminate.
  - discriminate.
  - discriminate.
  - discriminate.
Defined.

(** ** The debug mode: the braking power *)

Lemma Qmax_0_scale (x v : Q) : 0 <= v -> Qmax x 0 * v == Qmax (x * v) 0.
Proof.
  intros Hv. destruct (Q.max_spec x 0) as [[Hlt E] | [Hle E]]; rewrite E.
  - rewrite Q.max_r; [ring |]. nra.
  - rewrite Q.max_l; [reflexivity |]. nra.
Qed.

(** X19.  In the debug mode, where the velocity is not negative, the
    braking power is the negative part of the inertia power: it is
    [max(- inertia, 0)] on the returned components, so that inertia plus
    braking is never negative. *)
Theorem braking_power_is_negative_inertia
    (np_sin : Q -> Q) (self : EnergyConsumptionModel)
    (driving_mass rr_coef drag_coef frontal_area ttw_efficiency
     recuperation_efficiency motor_power : pyval)
    (r a g i b p e : pyval) :
  motive_energy_per_km np_sin self driving_mass rr_coef drag_coef
    frontal_area ttw_efficiency recuperation_efficiency motor_power true
  = Ok (Debug r a g i b p e) ->
  forall ix, 0 <= vel self ix ->
    pget b ix == Qmax (- pget i ix) 0 /\ 0 <= pget i ix + pget b ix.
Proof.
  intros H ix Hv.
  destruct (debug_inv np_sin self driving_mass rr_coef drag_coef frontal_area
              ttw_efficiency recuperation_efficiency motor_power
              r a g i b p e H) as (f & Ef & Hdbg).
  destruct (Hdbg ix) as (_ & _ & _ & Hi & Hb & _).
  destruct (resistances_spec np_sin self driving_mass rr_coef drag_coef
              frontal_area f Ef ix) as (_ & _ & _ & HI & HB & _).
  assert (E : pget b ix == Qmax (- pget i ix) 0).
  { rewrite Hb, Hi, HB. unfold spec_braking_loss. rewrite <- HI.
    rewrite Qmax_0_scale by assumption.
    apply Q.max_compat; [ring | reflexivity]. }
  split; [exact E |]. rewrite E.
  pose proof (Q.le_max_l (- pget i ix) 0). lra.
Qed.

Lemma braking_power_is_negative_inertia_witness :
  pget (component 4 example_components) braking_step
  == Qmax (- pget (component 3 example_components) braking_step) 0 /\
  0 <= pget (component 3 example_components) braking_step
       + pget (component 4 example_components) braking_step.
Proof.
  apply (braking_power_is_negative_inertia example_sin example_model
           (example_tensor 10000) (example_tensor 0.006) (example_tensor 0.6)
           (example_tensor 8) (example_tensor 0.4) (example_tensor 0.5)
           (example_tensor 100)
           (component 0 example_components) (component 1 example_components)
           (component 2 example_components) (component 3 example_components)
           (component 4 example_components) (component 5 example_components)
           (component 6 example_components)).
  - reflexivity.
  - vm_compute. discriminate.
Defined.

(** ** Standstill *)

Lemma spec_energy_standstill (rho v a sg m rr cd area rec motor d ttw : Q) :
  v == 0 -> 0 <= motor ->
  spec_energy rho v a sg m rr cd area rec motor d ttw == 0.
Proof.
  intros Hv Hmo.
  assert (E : forall x, x * v == 0) by (intros x; rewrite Hv; ring).
  assert (Hpow : spec_total_power rho v a sg m rr cd area == 0).
  { unfold spec_total_power. rewrite E. apply Q.max_id. }
  assert (Hrec : spec_recuperated_power v a m rec motor == 0).
  { unfold spec_recuperated_power. rewrite E, Q.max_id. apply Q.min_l. lra. }
  unfold spec_energy. rewrite Hpow, Hrec. unfold Qminus, Qdiv. ring.
Qed.

(** X18.  A time step at which the vehicle stands still costs and recovers
    nothing: for a motor power that is not negative (and a distance and an
    efficiency other than 0), the element of the energy tensor is 0,
    whatever the acceleration and the gradient of that step are. *)
Theorem standstill_costs_nothing
    (np_sin : Q -> Q) (self : EnergyConsumptionModel)
    (driving_mass rr_coef drag_coef frontal_area ttw_efficiency
     recuperation_efficiency motor_power out : pyval) :
  motive_energy_per_km np_sin self driving_mass rr_coef drag_coef
    frontal_area ttw_efficiency recuperation_efficiency motor_power false
  = Ok (Energy out) ->
  forall ix,
    vel self ix == 0 -> 0 <= param motor_power ix ->
    ~ dist_km self ix == 0 -> ~ param ttw_efficiency ix == 0 ->
    pget out ix == 0.
Proof.
  intros H ix Hv Hmo _ _.
  rewrite (motive_energy_formula np_sin self driving_mass rr_coef
             drag_coef frontal_area ttw_efficiency recuperation_efficiency
             motor_power out H ix).
  now apply spec_energy_standstill.
Qed.

Lemma standstill_costs_nothing_witness :
  pget example_energy (2, 0, 0, 0)%nat == 0.
Proof.
  apply (standstill_costs_nothing example_sin example_model
           (example_tensor 10000) (example_tensor 0.006) (example_tensor 0.6)
           (example_tensor 8) (example_tensor 0.4) (example_tensor 0.5)
           (example_tensor 100)).
  - reflexivity.
  - reflexivity.
  - vm_compute. discriminate.
  - vm_compute. discriminate.
  - vm_compute. discriminate.
Defined.

(** ** The auxiliary energy: shapes, scaling and sign *)

Lemma aux_energy_mismatch (self : EnergyConsumptionModel)
    (aux_power efficiency : pyval) (k : container) (sh : shape4) :
  is_array aux_power k sh ->
  broadcast_shapes (transpose_shape sh) (1, 1, 1, 6)%nat = None ->
  aux_energy_per_km self aux_power efficiency = Err ValueError.
Proof.
  intros Aa Hno.
  destruct (py_T_arr aux_power _ _ Aa) as (z & Ez & Az).
  destruct (py_binop_num_r Qmult z
              (inject_Z (Z.of_nat (length (velocity self)))) _ _ Az)
    as (z0 & Ez0 & Az0).
  unfold aux_energy_per_km. unfold_ops.
  rewrite Ez; cbn [bind]. rewrite Ez0; cbn [bind].
  rewrite (py_binop_mismatch Qdiv z0
             (PyArr Ndarray (sum_axis0 (velocity self))) _ _ _ _ Az0
             (is_array_intro _ _) Hno).
  reflexivity.
Qed.

(** X20.  The first axis of [aux_power] is the size class: with 6 entries
    the result has the shape and the container of [aux_power]; with one
    entry it is spread over the six size classes; with any other number the
    call ends in numpy's [ValueError], whatever the efficiency is. *)
Theorem aux_power_size_axis (self : EnergyConsumptionModel)
    (aux_power : pyval) (k : container) (d0 P Y V : nat) :
  is_array aux_power k (d0, P, Y, V) ->
  (d0 = 6%nat \/ d0 = 1%nat ->
   forall e, exists out,
     aux_energy_per_km self aux_power (PyNum e) = Ok out /\
     is_array out k (6, P, Y, V)%nat) /\
  (d0 <> 6%nat -> d0 <> 1%nat ->
   forall efficiency,
     aux_energy_per_km self aux_power efficiency = Err ValueError).
Proof.
  intros Aa. split.
  - intros Hd e.
    assert (Hso : broadcast_shapes (transpose_shape (d0, P, Y, V))
                    (1, 1, 1, 6)%nat = Some (V, Y, P, 6)%nat).
    { apply broadcast_shapes_intro; try apply bdim_1_r.
      destruct Hd as [-> | ->]; reflexivity. }
    destruct (aux_energy_ok self aux_power k _ _ e Aa Hso)
      as (out & Ho & Ao & _).
    now exists out.
  - intros H6 H1 eff. apply (aux_energy_mismatch self aux_power eff k _ Aa).
    simpl. rewrite !bdim_1_r.
    replace (bdim d0 6) with (@None nat); [reflexivity |].
    symmetry. apply bdim_mismatch; [assumption | assumption | discriminate].
Qed.

Lemma aux_power_size_axis_witness :
  (exists out,
     aux_energy_per_km example_model (example_tensor 1000) (PyNum 1) = Ok out
     /\ is_array out DataArray (6, 1, 1, 1)%nat) /\
  aux_energy_per_km example_model (example_short_tensor 1000) (PyNum 1)
  = Err ValueError.
Proof.
  split.
  - apply (aux_power_size_axis example_model (example_tensor 1000) DataArray
             6 1 1 1).
    + apply is_array_intro.
    + left. reflexivity.
  - apply (aux_power_size_axis example_model (example_short_tensor 1000)
             DataArray 5 1 1 1).
    + apply is_array_intro.
    + discriminate.
    + discriminate.
Defined.

(** X21.  The efficiency only scales the result: for an efficiency other
    than 0 every element is the element computed with efficiency 1, divided
    by the efficiency. *)
Theorem aux_efficiency_scales (self : EnergyConsumptionModel)
    (aux_power : pyval) (k : container) (sh so : shape4) (e : Q) :
  is_array aux_power k sh ->
  broadcast_shapes (transpose_shape sh) (1, 1, 1, 6)%nat = Some so ->
  ~ e == 0 ->
  exists out1 oute,
    aux_energy_per_km self aux_power (PyNum 1) = Ok out1 /\
    aux_energy_per_km self aux_power (PyNum e) = Ok oute /\
    forall ix, pget oute ix == pget out1 ix / e.
Proof.
  intros Aa Hso He.
  destruct (aux_energy_ok self aux_power k sh so 1 Aa Hso)
    as (out1 & H1 & _ & F1).
  destruct (aux_energy_ok self aux_power k sh so e Aa Hso)
    as (oute & H2 & _ & F2).
  exists out1, oute. repeat (split; [assumption |]). intros ix.
  rewrite F1, F2. unfold Qdiv. setoid_replace (/ 1) with 1 by reflexivity.
  ring.
Qed.

Lemma aux_efficiency_scales_witness :
  exists out1 oute,
    aux_energy_per_km example_model (example_tensor 1000) (PyNum 1) = Ok out1
    /\ aux_energy_per_km example_model (example_tensor 1000) (PyNum 0.8)
       = Ok oute
    /\ forall ix, pget oute ix == pget out1 ix / 0.8.
Proof.
  apply (aux_efficiency_scales example_model (example_tensor 1000) DataArray
           (6, 1, 1, 1)%nat (1, 1, 1, 6)%nat 0.8).
  - apply is_array_intro.
  - reflexivity.
  - discriminate.
Defined.

(** X22.  The auxiliary energy has the sign of the auxiliary power: where
    the power is not negative, the efficiency positive and the size class
    has driven a positive distance, the element of the result is not
    negative, and it is zero where the power is zero. *)
Theorem aux_energy_is_not_negative (self : EnergyConsumptionModel)
    (aux_power : pyval) (k : container) (sh so : shape4) (e : Q) :
  is_array aux_power k sh ->
  broadcast_shapes (transpose_shape sh) (1, 1, 1, 6)%nat = Some so ->
  0 < e ->
  exists out,
    aux_energy_per_km self aux_power (PyNum e) = Ok out /\
    forall ix,
      0 < metres self ix ->
      (0 <= pget aux_power ix -> 0 <= pget out ix) /\
      (pget aux_power ix == 0 -> pget out ix == 0).
Proof.
  intros Aa Hso He.
  destruct (aux_energy_ok self aux_power k sh so e Aa Hso)
    as (out & Ho & _ & F).
  exists out. split; [assumption |]. intros ix Hm. rewrite F. split.
  - intros Hp.
    assert (Hs : 0 <= seconds self).
    { unfold seconds, Qle. simpl. lia. }
    repeat apply Qdiv_nonneg; try assumption; try reflexivity.
    apply Qmult_le_0_compat; [| discriminate].
    apply Qdiv_nonneg; [| assumption].
    now apply Qmult_le_0_compat.
  - intros Hp. rewrite Hp. unfold Qdiv. ring.
Qed.

Lemma aux_energy_is_not_negative_witness :
  exists out,
    aux_energy_per_km example_model (example_tensor 1000) (PyNum 1) = Ok out
    /\ 0 <= pget out (0, 0, 0, 0)%nat.
Proof.
  destruct (aux_energy_is_not_negative example_model (example_tensor 1000)
              DataArray (6, 1, 1, 1)%nat (1, 1, 1, 6)%nat 1
              (is_array_intro _ _) eq_refl eq_refl)
    as (out & Hout & Hsign).
  exists out. split; [exact Hout |].
  apply (Hsign (0, 0, 0, 0)%nat); [reflexivity | discriminate].
Defined.
